(** * Constraint-based tutor: grading helpers and the play_music problem

    A shallow embedding of [shared_utils.py] and [problems/play_music.py].
    Python integers are [Z]; Python exceptions are an explicit [result]
    type; the grading host's [data] dictionary is a record of finite maps. *)

From Stdlib Require Import ZArith QArith Qabs Lia Lqa Bool List.
From Stdlib Require Import String Ascii DecimalString.
From Equations Require Import Equations.
From stdpp Require Import gmap strings list fin_maps sorting.

Local Open Scope Z_scope.

(** ** Python exceptions and results *)

Inductive exn : Type :=
| ValueError (msg : string)
| KeyError (key : string)
| TypeError (msg : string)
| AssertionError
| ZeroDivisionError
| OverflowError (msg : string).

Inductive result (A : Type) : Type :=
| Ok (a : A)
| Raise (e : exn).

Arguments Ok {A} a.
Arguments Raise {A} e.

Definition bind {A B : Type} (r : result A) (k : A -> result B) : result B :=
  match r with
  | Ok a => k a
  | Raise e => Raise e
  end.

Notation "'do' x <- r ; k" := (bind r (fun x => k))
  (at level 10, x name, r at level 100, k at level 200,
   format "'[v' 'do'  x  <-  r ; '/' k ']'").
Notation "'do' ' p <- r ; k" := (bind r (fun p => k))
  (at level 10, p pattern, r at level 100, k at level 200,
   format "'[v' 'do'  ' p  <-  r ; '/' k ']'").

(** ** [binary_search] (shared_utils.py, lines 7-26) *)

Module BinarySearch.

(** The [while lo < hi] loop.  The distance [hi - lo] strictly decreases,
    which is the termination argument. *)
Equations? search_loop (lo hi : Z) (condition_fn : Z -> bool) : Z
  by wf (Z.to_nat (hi - lo)) lt :=
  search_loop lo hi condition_fn with Z_lt_dec lo hi => {
    | right _ := lo;
    | left _ :=
        let mid := lo + (hi - lo) / 2 in
        if condition_fn mid            (* midpoint could be too big *)
        then search_loop lo mid condition_fn
        else search_loop (mid + 1) hi condition_fn }.
Proof.
  all: assert (0 <= (hi - lo) / 2 < hi - lo)
         by (split; [apply Z.div_pos; lia | apply Z.div_lt_upper_bound; lia]);
       lia.
Qed.

(** [None] of Python is [Ok None]; a failed [assert lo <= hi] raises. *)
Definition binary_search (lo hi : Z) (condition_fn : Z -> bool)
  : result (option Z) :=
  if negb (lo <=? hi) then Raise AssertionError
  else
    let lo' := search_loop lo hi condition_fn in
    if negb (condition_fn lo') then Ok None
    else Ok (Some lo').

(** False on a prefix of the integers and true from then on. *)
Definition monotone (f : Z -> bool) : Prop :=
  forall x y, x <= y -> f x = true -> f y = true.

End BinarySearch.

(** ** Python values handled by the grading helpers *)

(** The values that reach the helpers: submitted answers ([str] or a token
    list), grade results ([bool], [int], [float]) and [None].  A finite
    [float] is modelled by the rational it denotes, so comparisons between
    numbers are exact; infinities and NaN are not represented. *)
Inductive pyval : Type :=
| PyNone
| PyBool (b : bool)
| PyInt (z : Z)
| PyFloat (q : Q)
| PyStr (s : string)
| PyStrList (l : list string).

(** [isinstance(v, (int, float))]: [bool] is a subclass of [int]. *)
Definition isinstance_int_float (v : pyval) : bool :=
  match v with
  | PyBool _ | PyInt _ | PyFloat _ => true
  | _ => false
  end.

(** [isinstance(v, int)]: [bool] is a subclass of [int]. *)
Definition isinstance_int (v : pyval) : bool :=
  match v with
  | PyBool _ | PyInt _ => true
  | _ => false
  end.

(** [isinstance(v, bool)] *)
Definition isinstance_bool (v : pyval) : bool :=
  match v with
  | PyBool _ => true
  | _ => false
  end.

(** [isinstance(v, str)] *)
Definition isinstance_str (v : pyval) : bool :=
  match v with
  | PyStr _ => true
  | _ => false
  end.

(** The number a numeric value denotes ([True] is 1, [False] is 0). *)
Definition py_num (v : pyval) : option Q :=
  match v with
  | PyBool b => Some (if b then 1%Q else 0%Q)
  | PyInt z => Some (inject_Z z)
  | PyFloat q => Some q
  | _ => None
  end.

(** [0.0 <= v <= 1.0] for a numeric [v]. *)
Definition in_unit_interval (v : pyval) : bool :=
  match py_num v with
  | Some q => Qle_bool 0 q && Qle_bool q 1
  | None => false
  end.

(** Python's [==] between two values, on the numeric ones by value. *)
Definition py_eq_num (v w : pyval) : bool :=
  match py_num v, py_num w with
  | Some p, Some q => Qeq_bool p q
  | _, _ => false
  end.

(** [type(v)] as it prints inside an f-string. *)
Definition type_repr (v : pyval) : string :=
  match v with
  | PyNone => "<class 'NoneType'>"
  | PyBool _ => "<class 'bool'>"
  | PyInt _ => "<class 'int'>"
  | PyFloat _ => "<class 'float'>"
  | PyStr _ => "<class 'str'>"
  | PyStrList _ => "<class 'list'>"
  end.

(** Truthiness of an [Optional[str]]: [None] and [''] are falsy. *)
Definition truthy (s : option string) : bool :=
  match s with
  | Some (String _ _) => true
  | _ => false
  end.

(** [needle in hay] for strings. *)
Fixpoint str_contains (needle hay : string) : bool :=
  String.prefix needle hay ||
  match hay with
  | EmptyString => false
  | String _ hay' => str_contains needle hay'
  end.

(** [html.escape(s)] with its default [quote=True]. *)
Definition escape_char (c : ascii) : string :=
  if Ascii.eqb c "&" then "&amp;"
  else if Ascii.eqb c "<" then "&lt;"
  else if Ascii.eqb c ">" then "&gt;"
  else if Ascii.eqb c (ascii_of_nat 34) then "&quot;"
  else if Ascii.eqb c "'" then "&#x27;"
  else String c EmptyString.

Fixpoint html_escape (s : string) : string :=
  match s with
  | EmptyString => EmptyString
  | String c s' => escape_char c ++ html_escape s'
  end.

(** ** The host's [data] dictionary *)

(** One entry of [data['partial_scores']] as
    [grade_question_parameterized] creates it at lines 191-194: the
    dictionary with keys ['score'], ['weight'] and, once feedback is set,
    ['feedback'].  The weight is the [int] of the signature.  The entry
    [{'score': None}] that [remove_partial_credit_display] writes at line
    107 has no ['weight'] and is not an inhabitant of this record; that
    function is not embedded. *)
Module Part.
Record t : Type := mk {
  score : pyval;
  weight : Z;
  feedback : option string
}.
Definition set_score (v : pyval) (p : t) : t :=
  {| score := v; weight := weight p; feedback := feedback p |}.
Definition set_feedback (f : string) (p : t) : t :=
  {| score := score p; weight := weight p; feedback := Some f |}.
End Part.

(** The keys of [data] the helpers read and write.  ['score'] is absent
    until an aggregation sets it. *)
Record Data : Type := mkData {
  submitted_answers : gmap string pyval;
  partial_scores : gmap string Part.t;
  format_errors : gmap string string;
  feedback : gmap string string;
  score : option pyval
}.

Definition with_partial_scores (ps : gmap string Part.t) (d : Data) : Data :=
  {| submitted_answers := submitted_answers d; partial_scores := ps;
     format_errors := format_errors d; feedback := feedback d;
     score := score d |}.

Definition with_format_errors (fe : gmap string string) (d : Data) : Data :=
  {| submitted_answers := submitted_answers d;
     partial_scores := partial_scores d; format_errors := fe;
     feedback := feedback d; score := score d |}.

Definition with_feedback (fb : gmap string string) (d : Data) : Data :=
  {| submitted_answers := submitted_answers d;
     partial_scores := partial_scores d; format_errors := format_errors d;
     feedback := fb; score := score d |}.

Definition with_score (v : pyval) (d : Data) : Data :=
  {| submitted_answers := submitted_answers d;
     partial_scores := partial_scores d; format_errors := format_errors d;
     feedback := feedback d; score := Some v |}.

(** A procedure mutates [data] in place and then returns [None] or raises;
    either way the caller sees the mutated dictionary. *)
Inductive outcome : Type :=
| Returned (d : Data)
| Raised (e : exn) (d : Data).

Definition final_data (o : outcome) : Data :=
  match o with
  | Returned d => d
  | Raised _ d => d
  end.

(** [get_submitted_answer] (lines 286-288) *)
Definition get_submitted_answer (data : Data) (question_name : string)
  : result pyval :=
  match submitted_answers data !! question_name with
  | Some v => Ok v
  | None => Raise (KeyError question_name)
  end.

(** [get_partial_score] (lines 282-284) *)
Definition get_partial_score (data : Data) (question_name : string)
  : result pyval :=
  match partial_scores data !! question_name with
  | Some p => Ok (Part.score p)
  | None => Raise (KeyError question_name)
  end.

(** [set_feedback] (lines 306-308) *)
Definition set_feedback (data : Data) (feedback_field_name : string)
    (feedback_content : string) : Data :=
  with_feedback (<[feedback_field_name := feedback_content]> (feedback data)) data.

(** ** [grade_question_parameterized] (shared_utils.py, lines 170-237) *)

(** What a grade function hands back: a 2-tuple [(result, feedback)], or an
    exception. *)
Definition grade_fn : Type := pyval -> result (pyval * option string).

(** The body of the [try] block at lines 204-213: call the grade function
    and turn its first component into [partial_score]. *)
Definition try_grade (grade_function : grade_fn) (submitted_answer : pyval)
  : result (pyval * option string) :=
  do '(result, feedback_content) <- grade_function submitted_answer;
  if isinstance_int_float result then
    if in_unit_interval result
    then Ok (result, feedback_content)
    else Raise AssertionError
  else if isinstance_bool result then
    match result with
    | PyBool true => Ok (PyFloat 1, feedback_content)
    | _ => Ok (PyFloat 0, feedback_content)
    end
  else
    Raise (TypeError ("Grade function returns invalid score type "
                        ++ type_repr result)).

(** The feedback part, lines 225-237, run when [feedback_content] is
    truthy. *)
Definition record_feedback (data : Data) (question_name : string)
    (submitted_answer : pyval) (feedback_content : string)
    (feedback_field_name : option string) : outcome :=
  let contains_bad_chars :=
    match submitted_answer with
    | PyStr s => str_contains "<" s && str_contains ">" s
    | _ => false
    end in
  let answer_in_feedback :=
    match submitted_answer with
    | PyStr s => str_contains s feedback_content
    | _ => false
    end in
  if isinstance_str submitted_answer && contains_bad_chars && answer_in_feedback
  then Raised (ValueError
                 ("Unescaped student input should not be present in the feedback for "
                    ++ question_name ++ ".")) data
  else
    let data :=
      with_partial_scores
        (alter (Part.set_feedback feedback_content) question_name
               (partial_scores data)) data in
    let feedback_field_name :=
      if truthy feedback_field_name
      then default question_name feedback_field_name
      else question_name in
    Returned (set_feedback data feedback_field_name feedback_content).

Definition grade_question_parameterized (data : Data) (question_name : string)
    (grade_function : grade_fn) (weight : Z)
    (feedback_field_name : option string) : outcome :=
  (* Create the data dictionary at first *)
  let data :=
    with_partial_scores
      (<[question_name := Part.mk (PyInt 0) weight None]> (partial_scores data))
      data in
  match get_submitted_answer data question_name with
  | Raise (KeyError _) =>
      (* Catch error if no answer submitted *)
      Returned (with_format_errors
                  (<[question_name := "No answer was submitted"]>
                     (format_errors data)) data)
  | Raise e => Raised e data
  | Ok submitted_answer =>
      (* Try to grade, exiting if there's an exception *)
      match try_grade grade_function submitted_answer with
      | Raise (ValueError err) =>
          (* Exit if there's a format error *)
          Returned (with_format_errors
                      (<[question_name := html_escape err]>
                         (format_errors data)) data)
      | Raise e => Raised e data
      | Ok (partial_score, feedback_content) =>
          (* Set question score if grading succeeded *)
          let data :=
            with_partial_scores
              (alter (Part.set_score partial_score) question_name
                     (partial_scores data)) data in
          (* Put all feedback here *)
          if truthy feedback_content
          then record_feedback data question_name submitted_answer
                 (default EmptyString feedback_content) feedback_field_name
          else Returned data
      end
  end.

(** ** Python's [int / int]: rounding to IEEE-754 binary64 *)

(** The integer nearest to [a / d], ties to the even one ([0 < d]). *)
Definition round_half_even (a d : Z) : Z :=
  let f := a / d in
  let r := a mod d in
  if 2 * r <? d then f
  else if d <? 2 * r then f + 1
  else if Z.even f then f else f + 1.

(** For [0 <= a]: the exponent [u] of the grid [2 ^ u] on which [a / b]
    has 53 significant bits, 0 when it is below [2 ^ 53]. *)
Definition grid_exponent (a : Z) (b : positive) : Z :=
  if a / Zpos b <? 2 ^ 53 then 0 else Z.log2 (a / Zpos b) - 52.

(** For [0 <= a]: [a / b] rounded to 53 significant bits, or to an integer
    when it is below [2 ^ 53]. *)
Definition round_scaled (a : Z) (b : positive) : Z :=
  let u := grid_exponent a b in
  round_half_even a (Zpos b * 2 ^ u) * 2 ^ u.

Definition round_signed (a : Z) (b : positive) : Z :=
  if a <? 0 then - round_scaled (- a) b else round_scaled a b.

(** The double nearest to the rational [x], ties to even, as CPython's
    true division of two integers computes it; [None] when the result is
    too large for a float.  A double is an integer multiple of [2 ^ -1074]
    (the smallest subnormal), so the rounding is done on [x * 2 ^ 1074];
    the largest finite double is [(2 ^ 53 - 1) * 2 ^ 971], below
    [2 ^ 1024 = 2 ^ 2098 * 2 ^ -1074]. *)
Definition round_double (x : Q) : option Q :=
  let R := round_signed (Qnum x * 2 ^ 1074) (Qden x) in
  if Z.abs R <? 2 ^ 2098 then Some (Qred (R # 2 ^ 1074)) else None.

Arguments round_double : simpl never.

(** ** Score aggregation (shared_utils.py, lines 110-129) *)

(** Python's [sum] over a generator whose items may raise: a left fold from
    the integer 0 that stops at the first exception. *)
Definition py_sum (items : list (result Q)) : result Q :=
  fold_left (fun acc item => do a <- acc; do x <- item; Ok (a + x)%Q) items (Ok 0%Q).

(** [part["score"] * part["weight"]]; a score that is not a number cannot
    be summed. *)
Definition score_times_weight (part : Part.t) : result Q :=
  match py_num (Part.score part) with
  | Some s => Ok (s * inject_Z (Part.weight part))%Q
  | None => Raise (TypeError "unsupported operand type(s)")
  end.

(** [data["partial_scores"].values()] *)
Definition values (d : Data) : list Part.t := (map_to_list (partial_scores d)).*2.

(** [set_weighted_score_data] (lines 110-115).  With [bool] and [int]
    scores, the scores [grade_question_parameterized] records for boolean
    grade functions, this is Python's arithmetic: the products and the two
    sums are integers, exact in any order of the entries, and [/] between
    two integers is the correctly rounded quotient, [ZeroDivisionError] on a
    zero divisor and [OverflowError] beyond the largest double.  With a
    [float] score Python also rounds every product and partial sum, in the
    insertion order of the dictionary; that rounding is not modelled here,
    only the one of the final quotient, and the properties of the stored
    value are stated for [bool] and [int] scores. *)
Definition set_weighted_score_data (data : Data) : outcome :=
  match py_sum (score_times_weight <$> values data) with
  | Raise e => Raised e data
  | Ok numerator =>
      match py_sum ((fun part => Ok (inject_Z (Part.weight part))) <$> values data) with
      | Raise e => Raised e data
      | Ok denominator =>
          if Qeq_bool denominator 0 then Raised ZeroDivisionError data
          else
            match round_double (numerator / denominator) with
            | Some quotient => Returned (with_score (PyFloat quotient) data)
            | None =>
                Raised (OverflowError "integer division result too large for a float")
                       data
            end
      end
  end.

(** [all_questions_correct] (lines 122-129) *)
Definition all_questions_correct (data : Data) : bool :=
  let partial_scores := values data in
  if (length partial_scores =? 0)%nat then false
  else forallb (fun part => py_eq_num (Part.score part) (PyFloat 1)) partial_scores.

(** [set_all_or_nothing_score_data] (lines 117-120) *)
Definition set_all_or_nothing_score_data (data : Data) : Data :=
  with_score (PyInt (if all_questions_correct data then 1 else 0)) data.

(** ** The play_music problem (problems/play_music.py) *)

(** A context-free grammar as [ScaffoldedWritingCFG.fromstring] reads it:
    productions in declaration order, each with its alternatives in order;
    the start symbol is the left-hand side of the first production. *)
Inductive symbol : Type :=
| Terminal (literal : string)
| NonTerminal (name : string).

Record Grammar : Type := mkGrammar {
  start : string;
  productions : list (string * list (list symbol))
}.

(** [PROBLEM_CONFIG] (lines 23-30) *)
Definition PROBLEM_CONFIG : Grammar :=
  {| start := "START";
     productions :=
       [ ("START", [[Terminal "Play"; NonTerminal "PLAY"]]);
         ("PLAY", [[NonTerminal "ARTIST"; NonTerminal "PLAY_LOCATION";
                    NonTerminal "INSTRUMENT"];
                   [NonTerminal "EPSILON"]]);
         ("ARTIST", [[Terminal "Vulfpeck"]; [Terminal "Janice Kapp Perry"];
                     [Terminal "Taylor Swift"]]);
         ("PLAY_LOCATION", [[Terminal "in church"]; [Terminal "at the quad"];
                            [Terminal "at home"]]);
         ("INSTRUMENT", [[Terminal "with a trombone"]; [Terminal "with a violin"];
                         [Terminal "with a guitar"]]);
         ("EPSILON", [[]]) ] |}.

(** The interface of [scaffolded_writing.student_submission] that
    [grade_statement] uses: the constructor, which parses the tokens against
    the grammar, and the path query.  The class itself is not part of the
    sources at hand, so both are parameters; either may raise. *)
Class ScaffoldedWriting (Submission : Type) : Type := {
  StudentSubmission : list string -> Grammar -> result Submission;
  does_path_exist : Submission -> string -> string -> result bool
}.

(** Python's short-circuit [a and b] on conditions that may raise: [b] is
    looked at only when [a] is true. *)
Definition py_and (a b : result bool) : result bool :=
  do x <- a; if x then b else Ok false.

Section PlayMusic.

Context {Submission : Type} `{!ScaffoldedWriting Submission}.

(** [grade_statement] (lines 32-62) *)
Definition grade_statement (tokens : list string)
  : result (bool * option string) :=
  do submission <- StudentSubmission tokens PROBLEM_CONFIG;

  do c <- py_and (does_path_exist submission "ARTIST" "Vulfpeck")
             (does_path_exist submission "PLAY_LOCATION" "in church");
  if c then Ok (false, Some "Vulfpeck is great, but not in the context of church. consider playing somewhere else.") else

  do c <- does_path_exist submission "ARTIST" "Taylor Swift";
  if c then Ok (false, Some "It's best to sing Taylor Swift songs rather than play them. Try again.") else

  do c <- py_and (does_path_exist submission "ARTIST" "Vulfpeck")
             (does_path_exist submission "INSTRUMENT" "with a violin");
  if c then Ok (false, Some "Yeah that doesn't really work. You'd better use a different instrument if you want to play Vulfpeck") else

  do c <- does_path_exist submission "PLAY_LOCATION" "at home";
  if c then Ok (false, Some "No need to play at home anymore. You've practiced. Go out and play!") else

  do c <- py_and (does_path_exist submission "ARTIST" "Janice Kapp Perry")
             (does_path_exist submission "PLAY_LOCATION" "at the quad");
  if c then Ok (false, Some "Her music is a bit soft. Not many people will be able to hear it") else

  do c <- py_and (does_path_exist submission "ARTIST" "Vulfpeck")
             (py_and (does_path_exist submission "PLAY_LOCATION" "at the quad")
                     (does_path_exist submission "INSTRUMENT" "with a guitar"));
  if c then Ok (true, Some "Yep. That's the ultimate combo.") else

  Ok (true, None).

(** The grade function [grade] hands to [grade_question_parameterized]:
    [grade_statement] on the submitted token list, its verdict as a Python
    [bool]. *)
Definition grade_statement_fn : grade_fn := fun submitted_answer =>
  match submitted_answer with
  | PyStrList tokens =>
      do '(verdict, feedback_content) <- grade_statement tokens;
      Ok (PyBool verdict, feedback_content)
  | v => Raise (TypeError ("tokens must be a list, not " ++ type_repr v))
  end.

(** [grade] (lines 13-15); [weight] and [feedback_field_name] take their
    defaults. *)
Definition grade (data : Data) : outcome :=
  match grade_question_parameterized data "subproblem_definition"
          grade_statement_fn 1 None with
  | Raised e data => Raised e data
  | Returned data => set_weighted_score_data data
  end.

End PlayMusic.

Arguments grade_statement Submission {_} tokens.
Arguments grade_statement_fn Submission {_}.
Arguments grade Submission {_} data.

(** ** The rule list, as the specification words it *)

(** A rule: a conjunction of path queries, and the verdict and feedback
    returned when all of them answer true. *)
Record rule : Type := mkRule {
  condition : list (string * string);
  verdict : bool;
  message : string
}.

(** The six rules of [grade_statement], in their written order. *)
Definition RULES : list rule :=
  [ mkRule [("ARTIST", "Vulfpeck"); ("PLAY_LOCATION", "in church")] false
      "Vulfpeck is great, but not in the context of church. consider playing somewhere else.";
    mkRule [("ARTIST", "Taylor Swift")] false
      "It's best to sing Taylor Swift songs rather than play them. Try again.";
    mkRule [("ARTIST", "Vulfpeck"); ("INSTRUMENT", "with a violin")] false
      "Yeah that doesn't really work. You'd better use a different instrument if you want to play Vulfpeck";
    mkRule [("PLAY_LOCATION", "at home")] false
      "No need to play at home anymore. You've practiced. Go out and play!";
    mkRule [("ARTIST", "Janice Kapp Perry"); ("PLAY_LOCATION", "at the quad")] false
      "Her music is a bit soft. Not many people will be able to hear it";
    mkRule [("ARTIST", "Vulfpeck"); ("PLAY_LOCATION", "at the quad");
            ("INSTRUMENT", "with a guitar")] true
      "Yep. That's the ultimate combo." ].

Section Evaluate.

Context {Submission : Type} `{!ScaffoldedWriting Submission}.

(** A rule's condition: its queries asked left to right, stopping at the
    first that answers false (or raises). *)
Fixpoint holds (s : Submission) (queries : list (string * string))
  : result bool :=
  match queries with
  | [] => Ok true
  | (n, v) :: queries' =>
      do x <- does_path_exist s n v;
      if x then holds s queries' else Ok false
  end.

(** First rule whose condition holds decides; with none, the submission is
    accepted without feedback. *)
Fixpoint evaluate (s : Submission) (rules : list rule)
  : result (bool * option string) :=
  match rules with
  | [] => Ok (true, None)
  | r :: rules' =>
      do c <- holds s (condition r);
      if c then Ok (verdict r, Some (message r)) else evaluate s rules'
  end.

(** The queries [grade_statement] can ask. *)
Definition QUERIES : list (string * string) :=
  concat (condition <$> RULES).

End Evaluate.

(** ** The derivation record *)

(** Modelled from the spec: the derivation record of the grammar-path
    checker ([scaffolded_writing] is not among the sources).  It maps each
    non-terminal the derivation reached to the terminal string its matched
    alternative expands to; a non-terminal that was not reached has no
    entry. *)
Abbreviation DerivationRecord := (gmap string string).

Definition alternatives (g : Grammar) (n : string) : list (list symbol) :=
  match List.find (fun p => String.eqb (fst p) n) (productions g) with
  | Some p => snd p
  | None => []
  end.

Definition join_tokens (toks : list string) : string := String.concat " " toks.

(** Modelled from the spec: matching a sequence of symbols against a prefix
    of the tokens.  Alternatives are tried in declaration order; the result
    lists, in that order, every way to match: the record, the tokens
    consumed and the tokens left.  [depth] bounds the nesting of
    non-terminals (the grammars are acyclic). *)
Fixpoint expansions (depth : nat) (g : Grammar) (syms : list symbol)
    (toks : list string) : list (DerivationRecord * list string * list string) :=
  match depth with
  | O => []
  | S depth' =>
      (fix sequence (syms : list symbol) (toks : list string)
         : list (DerivationRecord * list string * list string) :=
         match syms with
         | [] => [(∅, [], toks)]
         | Terminal lit :: syms' =>
             match toks with
             | tok :: toks' =>
                 if String.eqb lit tok
                 then List.map (fun '(r, y, rest) => (r, lit :: y, rest))
                               (sequence syms' toks')
                 else []
             | [] => []
             end
         | NonTerminal n :: syms' =>
             List.flat_map
               (fun '(r1, y1, rest1) =>
                  List.map (fun '(r2, y2, rest2) => (r1 ∪ r2, y1 ++ y2, rest2))
                           (sequence syms' rest1))
               (List.flat_map
                  (fun alt =>
                     List.map (fun '(r, y, rest) =>
                                 (<[n := join_tokens y]> r, y, rest))
                              (expansions depth' g alt toks))
                  (alternatives g n))
         end) syms toks
  end.

(** Modelled from the spec: [build_derivation].  The first match that
    consumes every token is the derivation; with none the submission does
    not parse, which is a format error. *)
Definition build_derivation (g : Grammar) (tokens : list string)
  : result DerivationRecord :=
  match List.find (fun '(_, _, rest) => (length rest =? 0)%nat)
          (expansions (S (length (productions g))) g [NonTerminal (start g)] tokens) with
  | Some (r, _, _) => Ok r
  | None => Raise (ValueError "submission cannot be derived from the grammar")
  end.

(** Modelled from the spec: the path query, true iff the non-terminal's
    matched alternative equals the given literal. *)
Definition took_alternative (r : DerivationRecord) (n v : string) : bool :=
  bool_decide (r !! n = Some v).

#[global] Instance derivation_submission : ScaffoldedWriting DerivationRecord :=
  {| StudentSubmission tokens g := build_derivation g tokens;
     does_path_exist r n v := Ok (took_alternative r n v) |}.

(** A test double: the constructor accepts anything and the queries are
    answered by a given function, which may raise. *)
Definition stub_submission (oracle : string -> string -> result bool)
  : ScaffoldedWriting unit :=
  {| StudentSubmission _ _ := Ok tt;
     does_path_exist _ n v := oracle n v |}.

(** Each non-terminal matched at most one alternative: a submission that
    answers true for one literal answers false for every other literal of
    the same non-terminal. *)
Definition single_alternative {Submission : Type} `{!ScaffoldedWriting Submission}
    (s : Submission) : Prop :=
  forall n v v', does_path_exist s n v = Ok true -> v' <> v ->
                 does_path_exist s n v' = Ok false.

(** ** The weighted average, as the specification words it *)

Definition score_value (part : Part.t) : Q :=
  default 0%Q (py_num (Part.score part)).

(** [sum(score_i * weight_i)] *)
Definition weighted_sum (parts : list Part.t) : Q :=
  foldr (fun part acc => (score_value part * inject_Z (Part.weight part) + acc)%Q)
        0%Q parts.

(** [sum(weight_i)] *)
Definition total_weight (parts : list Part.t) : Z :=
  foldr (fun part acc => Part.weight part + acc) 0 parts.

Definition weighted_average (parts : list Part.t) : Q :=
  (weighted_sum parts / inject_Z (total_weight parts))%Q.

(** Every partial score is a number. *)
Definition numeric_scores (parts : list Part.t) : Prop :=
  Forall (fun part => is_Some (py_num (Part.score part))) parts.

(** Every partial score is a [bool] or an [int]. *)
Definition integral_scores (parts : list Part.t) : Prop :=
  Forall (fun part => isinstance_int (Part.score part) = true) parts.

(** The finite values of a Python float: [m * 2 ^ e] with [|m| < 2 ^ 53]
    and [-1074 <= e <= 971], written over the common denominator
    [2 ^ 1074]. *)
Definition is_double (x : Q) : Prop :=
  exists m u : Z,
    Z.abs m < 2 ^ 53 /\ 0 <= u <= 2045 /\ (x == (m * 2 ^ u) # 2 ^ 1074)%Q.

(** [sys.float_info.max] *)
Definition MAX_DOUBLE : Q := inject_Z ((2 ^ 53 - 1) * 2 ^ 971).

(** The same in units of [2 ^ -1074]. *)
Definition MAX_SCALED : Z := (2 ^ 53 - 1) * 2 ^ 2045.

(** The record built from given tokens, empty when they do not parse. *)
Definition record_of (tokens : list string) : DerivationRecord :=
  match build_derivation PROBLEM_CONFIG tokens with
  | Ok r => r
  | Raise _ => ∅
  end.

(** The [data] of a fresh grading run: the submitted answers and nothing
    graded yet. *)
Definition initial_data (answers : gmap string pyval) : Data :=
  {| submitted_answers := answers; partial_scores := ∅; format_errors := ∅;
     feedback := ∅; score := None |}.

(** [data] once [grade_question_parameterized] has created the entry of
    the question at lines 191-194. *)
Definition entry_created (data : Data) (question_name : string) (weight : Z)
  : Data :=
  with_partial_scores
    (<[question_name := Part.mk (PyInt 0) weight None]> (partial_scores data))
    data.

(** ** Powers (shared_utils.py, lines 28-52) *)

(** An integer inside an f-string. *)
Definition str_of_int (z : Z) : string := NilZero.string_of_int (Z.to_int z).

(** [is_power_of_base] (lines 28-39) *)
Definition is_power_of_base (num base : Z) : result bool :=
  do smallest_pow_greater_than <-
    BinarySearch.binary_search 0 num (fun x => base ^ x >=? num);
  match smallest_pow_greater_than with
  | Some x => Ok (num =? base ^ x)
  | None =>
      Raise (ValueError ("Binary search for " ++ str_of_int base ++ "^x = "
                           ++ str_of_int num ++ " failed"))
  end.

(** [is_perfect_power] (lines 41-52).  [x ** power] is [x ^ power] for
    [0 <= power]; with a negative [power] Python computes a float, or
    raises [ZeroDivisionError] at [x = 0], which this definition does not
    follow: the properties below that reach the power take
    [0 <= power]. *)
Definition is_perfect_power (num power : Z) : result bool :=
  do smallest_base_greater_than <-
    BinarySearch.binary_search 0 num (fun x => x ^ power >=? num);
  match smallest_base_greater_than with
  | Some x => Ok (num =? x ^ power)
  | None =>
      Raise (ValueError ("Binary search for x^" ++ str_of_int power ++ " = "
                           ++ str_of_int num ++ " failed"))
  end.

(** [integer_is_outside_PL_limit] (lines 94-97) *)
Definition integer_is_outside_PL_limit (number : Z) : bool :=
  let LIMIT := 2 ^ 53 - 1 in
  negb ((- LIMIT <=? number) && (number <=? LIMIT)).

(** The check at lines 227-230 of [grade_question_parameterized]: the
    answer is a string holding both angle brackets and it occurs in the
    feedback. *)
Definition unescaped_input (submitted_answer : pyval) (feedback_content : string)
  : bool :=
  match submitted_answer with
  | PyStr s => str_contains "<" s && str_contains ">" s && str_contains s feedback_content
  | _ => false
  end.

(** ** [set_holistic_feedback] (shared_utils.py, lines 239-280) *)

(** A feedback function: [parameters] are the names
    [signature(feedback_function).parameters.keys()] lists, in order, and
    [call] is the function applied to the values of those parameters. *)
Record feedback_fn : Type := mkFeedbackFn {
  parameters : list string;
  call : list pyval -> result (option string)
}.

(** The loop at lines 262-267. *)
Fixpoint check_question_names (data : Data) (question_names : list string)
  : result unit :=
  match question_names with
  | [] => Ok tt
  | question_name :: rest =>
      match submitted_answers data !! question_name with
      | None =>
          Raise (ValueError ("Student answer for " ++ question_name
                               ++ " not present in submitted answers."))
      | Some _ =>
          match partial_scores data !! question_name with
          | None =>
              Raise (ValueError ("Partial score for " ++ question_name
                                   ++ " not present in partial scores."))
          | Some _ => check_question_names data rest
          end
      end
  end.

(** The values of [argdict], line 270. *)
Fixpoint argument_values (data : Data) (question_names : list string)
  : result (list pyval) :=
  match question_names with
  | [] => Ok []
  | name :: rest =>
      match submitted_answers data !! name with
      | None => Raise (KeyError name)
      | Some v => do vs <- argument_values data rest; Ok (v :: vs)
      end
  end.

(** The loop at lines 279-280: [partial_scores.pop(question_name)] for each
    name; popping a missing key raises. *)
Fixpoint pop_partial_scores (data : Data) (question_names : list string)
  : outcome :=
  match question_names with
  | [] => Returned data
  | question_name :: rest =>
      match partial_scores data !! question_name with
      | None => Raised (KeyError question_name) data
      | Some _ =>
          pop_partial_scores
            (with_partial_scores (delete question_name (partial_scores data)) data)
            rest
      end
  end.

Definition set_holistic_feedback (data : Data) (feedback_field_name : string)
    (feedback_function : feedback_fn) (hide_partial_scores : bool) : outcome :=
  (* Get question names from arguments *)
  let question_names := parameters feedback_function in
  match check_question_names data question_names with
  | Raise e => Raised e data
  | Ok _ =>
      match argument_values data question_names with
      | Raise e => Raised e data
      | Ok argdict =>
          match call feedback_function argdict with
          | Raise e => Raised e data
          | Ok feedback_content =>
              (* Set question feeback *)
              let data :=
                if truthy feedback_content
                then set_feedback data feedback_field_name
                       (default EmptyString feedback_content)
                else data in
              (* Remove partial scores *)
              if hide_partial_scores
              then pop_partial_scores data question_names
              else Returned data
          end
      end
  end.

(** ** Enumerations (shared_utils.py, lines 310-323) *)

(** [range(a, b)] *)
Definition py_range (a b : Z) : list Z :=
  (fun i => a + Z.of_nat i) <$> seq 0 (Z.to_nat (b - a)).

(** [itertools.combinations(s, r)] for [r >= 0]: the [r]-element
    subsequences of [s], in lexicographic order of their positions. *)
Fixpoint combinations {A : Type} (s : list A) (r : nat) : list (list A) :=
  match r, s with
  | O, _ => [[]]
  | S _, [] => []
  | S r', x :: s' => List.map (cons x) (combinations s' r') ++ combinations s' r
  end.

(** What consuming a chain of lazily built parts yields: the parts in
    order, up to the first one that raises. *)
Fixpoint chain_from_iterable {A : Type} (parts : list (result (list A)))
  : result (list A) :=
  match parts with
  | [] => Ok []
  | part :: rest =>
      do xs <- part; do ys <- chain_from_iterable rest; Ok (xs ++ ys)
  end.

(** [sized_powerset] (lines 310-319).  The result is what iterating over
    the returned chain yields; [combinations] raises on a negative size. *)
Definition sized_powerset {A : Type} (iterable : list A) (min_size : Z)
    (max_size : option Z) : result (list (list A)) :=
  let s := iterable in
  do max_size <-
    match max_size with
    | None => Ok (Z.of_nat (length s))
    | Some max_size =>
        if max_size >? Z.of_nat (length s)
        then Raise (ValueError ("max_size parameter " ++ str_of_int max_size
                      ++ " is greater than the length of the input iterable"))
        else Ok max_size
    end;
  chain_from_iterable
    ((fun r => if r <? 0 then Raise (ValueError "r must be non-negative")
               else Ok (combinations s (Z.to_nat r)))
       <$> py_range min_size (max_size + 1)).

(** [itertools.product(alphabet, repeat=k)] for [k >= 0]. *)
Fixpoint product {A : Type} (alphabet : list A) (k : nat) : list (list A) :=
  match k with
  | O => [[]]
  | S k' =>
      List.flat_map (fun x => List.map (cons x) (product alphabet k')) alphabet
  end.

(** [strings_of_length_at_most_n] (lines 321-323).  [alphabet] lists the
    set's elements in the order the set iterates them; the result is what
    the generator yields. *)
Definition strings_of_length_at_most_n (lower_bound n : Z) (alphabet : list string)
  : result (list string) :=
  do char_lists <-
    chain_from_iterable
      ((fun k => if k <? 0 then Raise (ValueError "repeat argument cannot be negative")
                 else Ok (product alphabet (Z.to_nat k)))
         <$> py_range lower_bound (n + 1));
  Ok (String.concat EmptyString <$> char_lists).

(** [replace_empty] (lines 325-326); the result is the UTF-8 text. *)
Definition replace_empty (x : string) : string :=
  match x with
  | EmptyString => "ε"
  | _ => x
  end.

(** ** Tokenizing answers (shared_utils.py, lines 131-168) *)

(** Strings are sequences of bytes here, a Python [str] being read in
    UTF-8; on ASCII text a byte is a character.  Python's [str.strip()],
    [\s], [\d] and [int()] also take the white space and the decimal
    digits beyond ASCII (U+00A0, U+0663, ...), which are several bytes
    here and which [is_space] and [is_digit] below do not recognise: the
    tokenizers and [form_string_from_shorthand] are those of the code on
    ASCII text, and the properties that depend on white space or digits
    are stated for ASCII text. *)

(** A byte below 128. *)
Definition is_ascii (c : ascii) : bool :=
  match c with
  | Ascii _ _ _ _ _ _ _ b7 => negb b7
  end.

(** [str.isascii()] *)
Definition ascii_text (s : string) : Prop :=
  Forall (fun c => is_ascii c = true) (list_ascii_of_string s).

(** [str.isspace] on an ASCII character, which is also what [\s] matches
    there: tab to carriage return, the four separators 28-31, and the
    space. *)
Definition is_space (c : ascii) : bool :=
  let n := nat_of_ascii c in
  ((9 <=? n) && (n <=? 13) || (28 <=? n) && (n <=? 32))%nat.

(** [string.replace(' ', '')] *)
Fixpoint remove_spaces (s : string) : string :=
  match s with
  | EmptyString => EmptyString
  | String c s' =>
      if Ascii.eqb c " " then remove_spaces s' else String c (remove_spaces s')
  end.

(** [s.lstrip(chars)] and [s.rstrip(chars)], the set of characters as a
    predicate. *)
Fixpoint lstrip (chars : ascii -> bool) (s : string) : string :=
  match s with
  | EmptyString => EmptyString
  | String c s' => if chars c then lstrip chars s' else s
  end.

Fixpoint rstrip (chars : ascii -> bool) (s : string) : string :=
  match s with
  | EmptyString => EmptyString
  | String c s' =>
      match rstrip chars s' with
      | EmptyString => if chars c then EmptyString else String c EmptyString
      | r => String c r
      end
  end.

Definition strip (chars : ascii -> bool) (s : string) : string :=
  rstrip chars (lstrip chars s).

(** The lookahead [[^()]*\)]: the first parenthesis ahead is a closing
    one. *)
Fixpoint closes_paren (s : string) : bool :=
  match s with
  | EmptyString => false
  | String c s' =>
      if Ascii.eqb c ")" then true
      else if Ascii.eqb c "(" then false
      else closes_paren s'
  end.

(** [re.split(r',\s*(?![^()]*\))', s)]: a comma separates unless the first
    parenthesis after it is a closing one; the separator takes the white
    space after the comma with it ([skipping] is true while that white
    space is consumed); [piece] is the token read so far. *)
Fixpoint re_split (skipping : bool) (s : string) (piece : string) : list string :=
  match s with
  | EmptyString => [piece]
  | String c s' =>
      if skipping && is_space c then re_split true s' piece
      else if Ascii.eqb c "," && negb (closes_paren (lstrip is_space s'))
      then piece :: re_split true s' EmptyString
      else re_split false s' (piece ++ String c EmptyString)
  end.

(** [tokenize_string] (lines 131-134) *)
Definition tokenize_string (text : string) : list string :=
  re_split false (strip (Ascii.eqb ",") (remove_spaces text)) EmptyString.

(** [s.startswith(c)] and [s.endswith(c)] for a one-character [c]. *)
Definition startswith (c : ascii) (s : string) : bool :=
  match s with
  | String a _ => Ascii.eqb a c
  | EmptyString => false
  end.

Fixpoint endswith (c : ascii) (s : string) : bool :=
  match s with
  | EmptyString => false
  | String a EmptyString => Ascii.eqb a c
  | String _ s' => endswith c s'
  end.

(** [tokenize_string_without_set] (lines 136-140) *)
Definition tokenize_string_without_set (student_answer : string)
  : result (list string) :=
  if startswith "{" student_answer || endswith "}" student_answer
  then Raise (ValueError "This input field is not a set, so it does not require curly braces")
  else Ok (tokenize_string student_answer).

(** [s[:-1]] and [s[1:-1]] *)
Fixpoint drop_last (s : string) : string :=
  match s with
  | EmptyString => EmptyString
  | String _ EmptyString => EmptyString
  | String c s' => String c (drop_last s')
  end.

Definition slice_1_m1 (s : string) : string :=
  match s with
  | EmptyString => EmptyString
  | String _ s' => drop_last s'
  end.

(** [tokenize_string_set] (lines 142-151) *)
Definition tokenize_string_set (text : string) : result (list string) :=
  let text := strip is_space text in
  do text <-
    (* Handle empty set symbol *)
    (if String.eqb text "∅" then Ok "{}"
     else if negb (startswith "{" text) || negb (endswith "}" text)
     then Raise (ValueError "Make sure to format your answer with curly braces to denote a set")
     else Ok text);
  Ok (tokenize_string (slice_1_m1 text)).

(** The grade function of [grade_question_tokenized], line 166.  The
    answers of these questions are strings; on any other value
    [startswith] and [strip] do not exist and Python raises
    [AttributeError], which like the [TypeError] standing for it here is
    not a [ValueError] and propagates. *)
Definition tokenized_grade_function
    (tokenize_function : string -> result (list string))
    (expected_answer : string) : grade_fn := fun student_ans =>
  match student_ans with
  | PyStr student_ans =>
      do student <- tokenize_function student_ans;
      do expected <- tokenize_function expected_answer;
      Ok (PyBool (bool_decide
                    (list_to_set student =@{gset string} list_to_set expected)),
          None)
  | v => Raise (TypeError (type_repr v ++ " object has no attribute 'startswith'"))
  end.

(** [grade_question_tokenized] (lines 153-168).  [correct_answers] is
    [data["correct_answers"]], which the function only reads. *)
Definition grade_question_tokenized (correct_answers : gmap string string)
    (data : Data) (question_name : string)
    (expected_answer_optional : option string) (weight : Z) : outcome :=
  match (if truthy expected_answer_optional
         then Ok (default EmptyString expected_answer_optional)
         else match correct_answers !! question_name with
              | Some expected => Ok expected
              | None => Raise (KeyError question_name)
              end) with
  | Raise e => Raised e data
  | Ok expected_answer =>
      let is_expected_set :=
        (startswith "{" expected_answer && endswith "}" expected_answer)
        || String.eqb expected_answer "∅" in
      let tokenize_function :=
        if is_expected_set then tokenize_string_set
        else tokenize_string_without_set in
      grade_question_parameterized data question_name
        (tokenized_grade_function tokenize_function expected_answer)
        weight None
  end.

(** ** [form_string_from_shorthand] (shared_utils.py, lines 54-91) *)

(** [\d] on an ASCII character: the digits 0 to 9. *)
Definition is_digit (c : ascii) : bool :=
  let n := nat_of_ascii c in ((48 <=? n) && (n <=? 57))%nat.

Definition is_bit (c : ascii) : bool := Ascii.eqb c "0" || Ascii.eqb c "1".

(** The longest run of digits at the head of [s], and what follows it. *)
Fixpoint span_digits (s : string) : string * string :=
  match s with
  | EmptyString => (EmptyString, EmptyString)
  | String c s' =>
      if is_digit c
      then let '(digits, rest) := span_digits s' in (String c digits, rest)
      else (EmptyString, s)
  end.

(** [int(digits)] *)
Definition int_of_digits (digits : string) : nat :=
  fold_left (fun acc c => (10 * acc + (nat_of_ascii c - 48))%nat)
            (list_ascii_of_string digits) 0%nat.

(** [c * n] *)
Fixpoint repeat_char (c : ascii) (n : nat) : string :=
  match n with
  | O => EmptyString
  | S n' => String c (repeat_char c n')
  end.

(** The first alternative of the pattern, [(0|1)\^{(\d+)}], at the head of
    [s]: groups 1 and 2 when it matches. *)
Definition match_shorthand (s : string) : option (ascii * string) :=
  match s with
  | String b (String "^" (String "{" rest)) =>
      if is_bit b then
        match span_digits rest with
        | (String d digits, String "}" _) => Some (b, String d digits)
        | _ => None
        end
      else None
  | _ => None
  end.

(** [pattern.finditer(shorthand)] together with the loop at lines 73-78:
    for every match its interval and its expansion.  [pos] is the position
    of the head of [s] and [skip] the number of characters still inside
    the previous match. *)
Fixpoint finditer (skip pos : nat) (s : string) : list (nat * nat * string) :=
  match s with
  | EmptyString => []
  | String c s' =>
      match skip with
      | S skip' => finditer skip' (S pos) s'
      | O =>
          match match_shorthand s with
          | Some (b, digits) =>
              let len := (4 + String.length digits)%nat in
              (pos, (pos + len)%nat, repeat_char b (int_of_digits digits))
                :: finditer (len - 1) (S pos) s'
          | None =>
              if is_bit c
              then (pos, S pos, String c EmptyString) :: finditer 0 (S pos) s'
              else finditer 0 (S pos) s'
          end
      end
  end.

(** The loop at lines 84-87: every interval ends where the next starts. *)
Fixpoint contiguous (match_intervals : list (nat * nat)) : bool :=
  match match_intervals with
  | a :: (b :: _) as rest => (a.2 =? b.1)%nat && contiguous rest
  | _ => true
  end.

Definition form_string_from_shorthand (shorthand : string) : result string :=
  if String.eqb shorthand "e" then Ok EmptyString
  else
    let matches := finditer 0 0 shorthand in
    let expanded_str_list := snd <$> matches in
    let match_intervals := fst <$> matches in
    if (length match_intervals =? 0)%nat
    then Raise (ValueError (shorthand ++ " is not valid shorthand for a binary string"))
    else
      let is_full_match :=
        (default 0%nat (fst <$> head match_intervals) =? 0)%nat
        && (default 0%nat (snd <$> last match_intervals) =? String.length shorthand)%nat
        && contiguous match_intervals in
      if negb is_full_match
      then Raise (ValueError (shorthand ++ " is not valid shorthand for a binary string"))
      else Ok (String.concat EmptyString expanded_str_list).

(** A string of the characters 0 and 1 only. *)
Definition binary_string (s : string) : Prop :=
  Forall (fun c => c = "0"%char \/ c = "1"%char) (list_ascii_of_string s).

(** One of the one-character strings 0 and 1. *)
Definition bit_string (c : string) : Prop := c = "0" \/ c = "1".

(** The test at line 161 of [grade_question_tokenized] and the tokenizer
    chosen at line 162. *)
Definition is_expected_set (expected_answer : string) : bool :=
  (startswith "{" expected_answer && endswith "}" expected_answer)
  || String.eqb expected_answer "∅".

Definition tokenize_function_for (expected_answer : string)
  : string -> result (list string) :=
  if is_expected_set expected_answer then tokenize_string_set
  else tokenize_string_without_set.

(** The expected answer [grade_question_tokenized] settles on at lines
    159-160: the argument when it is given and not empty, else the entry
    of [correct_answers]. *)
Definition expected_answer_is (correct_answers : gmap string string)
    (question_name : string) (expected_answer_optional : option string)
    (expected_answer : string) : Prop :=
  match expected_answer_optional with
  | Some (String c rest) => expected_answer = String c rest
  | _ => correct_answers !! question_name = Some expected_answer
  end.

(** * Properties *)

(** ** Binary search *)

Module BinarySearchProps.
Import BinarySearch.

(** The loop stays inside the interval and stops either on a value where
    the condition holds or on [hi]. *)
Lemma search_loop_range lo hi f :
  lo <= hi ->
  lo <= search_loop lo hi f <= hi /\
  (search_loop lo hi f < hi -> f (search_loop lo hi f) = true).
Proof.
  funelim (search_loop lo hi f); intros Hle.
  - clear Heqcall. cbv zeta in *.
    assert (Hmid : 0 <= (hi - lo) / 2 < hi - lo)
      by (split; [apply Z.div_pos; lia | apply Z.div_lt_upper_bound; lia]).
    destruct (condition_fn (lo + (hi - lo) / 2)) eqn:Hc.
    + destruct H as [Hr Ht]; [lia|].
      split; [lia|]. intros _.
      destruct (Z.eq_dec (search_loop lo (lo + (hi - lo) / 2) condition_fn)
                         (lo + (hi - lo) / 2)) as [->|Hne]; [exact Hc|].
      apply Ht. lia.
    + destruct H0 as [Hr Ht]; [lia|].
      split; [lia|exact Ht].
  - split; [lia|]. lia.
Qed.

(** Below the loop's answer a monotone condition is false. *)
Lemma search_loop_below lo hi f :
  monotone f -> lo <= hi ->
  forall y, lo <= y < search_loop lo hi f -> f y = false.
Proof.
  intros Hmono.
  funelim (search_loop lo hi f); intros Hle y Hy.
  - clear Heqcall. cbv zeta in *.
    assert (Hmid : 0 <= (hi - lo) / 2 < hi - lo)
      by (split; [apply Z.div_pos; lia | apply Z.div_lt_upper_bound; lia]).
    destruct (condition_fn (lo + (hi - lo) / 2)) eqn:Hc.
    + apply H; auto. lia.
    + destruct (Z_le_gt_dec y (lo + (hi - lo) / 2)) as [Hym|Hym].
      * destruct (condition_fn y) eqn:Hfy; [|reflexivity].
        rewrite (Hmono _ _ Hym Hfy) in Hc. discriminate.
      * apply H0; auto; lia.
  - lia.
Qed.

(** C10. For [lo <= hi] and a monotone condition, [binary_search] returns
    without raising; it returns [None] exactly when the condition is false
    at [hi]; it returns [x] exactly when [x] is the smallest value of the
    closed interval [lo..hi] where the condition holds; and [hi] itself is
    returned for the condition that first holds at [hi]. *)
Theorem binary_search_smallest lo hi f :
  lo <= hi -> monotone f ->
  (exists r, binary_search lo hi f = Ok r) /\
  (binary_search lo hi f = Ok None <-> f hi = false) /\
  (forall x, binary_search lo hi f = Ok (Some x) <->
             lo <= x <= hi /\ f x = true /\
             forall y, lo <= y < x -> f y = false) /\
  (monotone (fun x => hi <=? x) /\
   binary_search lo hi (fun x => hi <=? x) = Ok (Some hi)).
Proof.
  intros Hle Hmono.
  assert (Hshape : forall g, monotone g ->
            binary_search lo hi g =
            if g (search_loop lo hi g) then Ok (Some (search_loop lo hi g))
            else Ok None).
  { intros g _. unfold binary_search.
    destruct (Z.leb_spec lo hi); [|lia]. simpl.
    destruct (g (search_loop lo hi g)); reflexivity. }
  assert (Hchar : forall g x, monotone g ->
            lo <= x <= hi -> g x = true ->
            (forall y, lo <= y < x -> g y = false) ->
            search_loop lo hi g = x).
  { intros g x Hg Hx Hgx Hbelow.
    pose proof (search_loop_range lo hi g Hle) as [Hr Ht].
    pose proof (search_loop_below lo hi g Hg Hle) as Hb.
    destruct (Z.lt_trichotomy (search_loop lo hi g) x) as [Hlt|[Heq|Hgt]];
      [|exact Heq|].
    - rewrite Hbelow in Ht by lia.
      assert (search_loop lo hi g < hi) by lia. specialize (Ht H). discriminate.
    - rewrite Hb in Hgx by lia. discriminate. }
  pose proof (search_loop_range lo hi f Hle) as [Hr Ht].
  pose proof (search_loop_below lo hi f Hmono Hle) as Hb.
  rewrite (Hshape f Hmono).
  split; [|split; [|split]].
  - destruct (f (search_loop lo hi f)); eauto.
  - destruct (f (search_loop lo hi f)) eqn:Hf; split; intros H; try discriminate.
    + rewrite (Hmono _ hi (proj2 Hr) Hf) in H. discriminate.
    + destruct (Z.eq_dec (search_loop lo hi f) hi) as [Heq|Hne].
      * rewrite Heq in Hf. exact Hf.
      * assert (Hlt : search_loop lo hi f < hi) by lia.
        specialize (Ht Hlt). discriminate.
    + reflexivity.
  - intros x. destruct (f (search_loop lo hi f)) eqn:Hf; split; intros H.
    + inversion H; subst x. auto.
    + destruct H as (Hx & Hfx & Hbx).
      rewrite (Hchar f x Hmono Hx Hfx Hbx). reflexivity.
    + discriminate.
    + destruct H as (Hx & Hfx & Hbx).
      rewrite (Hchar f x Hmono Hx Hfx Hbx) in Hf. congruence.
  - assert (Hm : monotone (fun x => hi <=? x)).
    { intros x y Hxy Hx. apply Z.leb_le in Hx. apply Z.leb_le. lia. }
    split; [exact Hm|].
    rewrite (Hshape _ Hm).
    assert (Hhi : search_loop lo hi (fun x => hi <=? x) = hi).
    { apply Hchar; [exact Hm | lia | apply Z.leb_refl |].
      intros y Hy. apply Z.leb_gt. lia. }
    rewrite Hhi, Z.leb_refl. reflexivity.
Qed.

(** The search on [0..10] for the first value at least 10 returns the upper
    bound. *)
Lemma binary_search_smallest_witness :
  0 <= 10 /\ monotone (fun x => 10 <=? x) /\
  binary_search 0 10 (fun x => 10 <=? x) = Ok (Some 10).
Proof.
  assert (Hm : monotone (fun x => 10 <=? x)).
  { intros x y Hxy Hx. apply Z.leb_le in Hx. apply Z.leb_le. lia. }
  split; [lia|]. split; [exact Hm|].
  destruct (binary_search_smallest 0 10 (fun x => 10 <=? x) ltac:(lia) Hm)
    as (_ & _ & Hsome & _).
  apply Hsome. split; [lia|]. split; [reflexivity|].
  intros y Hy. apply Z.leb_gt. lia.
Defined.

End BinarySearchProps.

(** ** The rules of play_music *)

Section PlayMusicProps.

Context {Submission : Type} `{!ScaffoldedWriting Submission}.

Ltac case_queries s :=
  repeat match goal with
         | |- context [does_path_exist s ?n ?v] =>
             destruct (does_path_exist s n v) as [[|]|]; simpl; try reflexivity
         end.

(** [grade_statement] is the first-match evaluation of [RULES]. *)
Lemma grade_statement_evaluate tokens s :
  StudentSubmission tokens PROBLEM_CONFIG = Ok s ->
  grade_statement Submission tokens = evaluate s RULES.
Proof.
  intros Hs. unfold grade_statement. rewrite Hs.
  unfold RULES, py_and. simpl. case_queries s.
Qed.

(** Rules whose condition is false are skipped, and the first rule whose
    condition is true decides, whatever follows it. *)
Lemma evaluate_first_match s pre r post :
  Forall (fun r' => holds s (condition r') = Ok false) pre ->
  holds s (condition r) = Ok true ->
  evaluate s (pre ++ r :: post) = Ok (verdict r, Some (message r)).
Proof.
  induction 1 as [|r' pre Hr' _ IH]; intros Hr; simpl.
  - rewrite Hr. reflexivity.
  - rewrite Hr'. simpl. exact (IH Hr).
Qed.

Lemma holds_ext s1 s2 queries :
  Forall (fun q => does_path_exist s1 q.1 q.2 = does_path_exist s2 q.1 q.2) queries ->
  holds s1 queries = holds s2 queries.
Proof.
  induction 1 as [|[n v] queries Hq _ IH]; simpl; [reflexivity|].
  simpl in Hq. rewrite Hq.
  destruct (does_path_exist s2 n v) as [[|]|]; simpl; auto.
Qed.

Lemma evaluate_ext s1 s2 rules :
  Forall (fun q => does_path_exist s1 q.1 q.2 = does_path_exist s2 q.1 q.2)
         (concat (condition <$> rules)) ->
  evaluate s1 rules = evaluate s2 rules.
Proof.
  induction rules as [|r rules IH]; simpl; [reflexivity|].
  intros Hall. apply Forall_app in Hall as [Hr Hrest].
  rewrite (holds_ext s1 s2 _ Hr), (IH Hrest). reflexivity.
Qed.

(** C1. The rules are tried in their written order: when the conditions of
    the rules before [r] are false and the condition of [r] is true,
    [grade_statement] returns the verdict and feedback of [r]; nothing is
    assumed of the rules after [r], whose queries may answer anything or
    raise. *)
Theorem grade_statement_first_rule tokens s pre r post :
  StudentSubmission tokens PROBLEM_CONFIG = Ok s ->
  RULES = pre ++ r :: post ->
  Forall (fun r' => holds s (condition r') = Ok false) pre ->
  holds s (condition r) = Ok true ->
  grade_statement Submission tokens = evaluate s RULES /\
  grade_statement Submission tokens = Ok (verdict r, Some (message r)).
Proof.
  intros Hs Hsplit Hpre Hr.
  rewrite (grade_statement_evaluate tokens s Hs). split; [reflexivity|].
  rewrite Hsplit. apply evaluate_first_match; assumption.
Qed.

(** C2. Vulfpeck in church is rejected by the first rule. *)
Theorem grade_statement_vulfpeck_in_church tokens s :
  StudentSubmission tokens PROBLEM_CONFIG = Ok s ->
  does_path_exist s "ARTIST" "Vulfpeck" = Ok true ->
  does_path_exist s "PLAY_LOCATION" "in church" = Ok true ->
  grade_statement Submission tokens =
  Ok (false, Some "Vulfpeck is great, but not in the context of church. consider playing somewhere else.").
Proof.
  intros Hs Ha Hl. unfold grade_statement, py_and.
  rewrite Hs. simpl. rewrite Ha. simpl. rewrite Hl. reflexivity.
Qed.

(** C4. Vulfpeck at the quad with a guitar, each non-terminal having matched
    one alternative only, is accepted with the bonus feedback. *)
Theorem grade_statement_ultimate_combo tokens s :
  StudentSubmission tokens PROBLEM_CONFIG = Ok s ->
  single_alternative s ->
  does_path_exist s "ARTIST" "Vulfpeck" = Ok true ->
  does_path_exist s "PLAY_LOCATION" "at the quad" = Ok true ->
  does_path_exist s "INSTRUMENT" "with a guitar" = Ok true ->
  grade_statement Submission tokens = Ok (true, Some "Yep. That's the ultimate combo.").
Proof.
  intros Hs Hone Ha Hl Hi.
  assert (Hchurch : does_path_exist s "PLAY_LOCATION" "in church" = Ok false)
    by (apply (Hone _ _ _ Hl); discriminate).
  assert (Hhome : does_path_exist s "PLAY_LOCATION" "at home" = Ok false)
    by (apply (Hone _ _ _ Hl); discriminate).
  assert (Hts : does_path_exist s "ARTIST" "Taylor Swift" = Ok false)
    by (apply (Hone _ _ _ Ha); discriminate).
  assert (Hjkp : does_path_exist s "ARTIST" "Janice Kapp Perry" = Ok false)
    by (apply (Hone _ _ _ Ha); discriminate).
  assert (Hviolin : does_path_exist s "INSTRUMENT" "with a violin" = Ok false)
    by (apply (Hone _ _ _ Hi); discriminate).
  unfold grade_statement, py_and. rewrite Hs. simpl.
  rewrite Ha. simpl. rewrite Hchurch. simpl. rewrite Hts. simpl.
  rewrite Hviolin. simpl. rewrite Hhome. simpl. rewrite Hjkp. simpl.
  rewrite Hl. simpl. rewrite Hi. reflexivity.
Qed.

(** C5. A submission for which every query over ARTIST, PLAY_LOCATION and
    INSTRUMENT answers false is accepted without feedback. *)
Theorem grade_statement_epsilon tokens s :
  StudentSubmission tokens PROBLEM_CONFIG = Ok s ->
  (forall n v, In n ["ARTIST"; "PLAY_LOCATION"; "INSTRUMENT"] ->
               does_path_exist s n v = Ok false) ->
  grade_statement Submission tokens = Ok (true, None).
Proof.
  intros Hs Hfalse. unfold grade_statement, py_and. rewrite Hs. simpl.
  rewrite !Hfalse by (simpl; auto). reflexivity.
Qed.

(** C8. The result depends on the tokens only through the answers to the
    queries of the rules: two submissions whose derivation records answer
    those queries alike get the same verdict and feedback. *)
Theorem grade_statement_deterministic tokens1 tokens2 s1 s2 :
  StudentSubmission tokens1 PROBLEM_CONFIG = Ok s1 ->
  StudentSubmission tokens2 PROBLEM_CONFIG = Ok s2 ->
  Forall (fun q => does_path_exist s1 q.1 q.2 = does_path_exist s2 q.1 q.2) QUERIES ->
  grade_statement Submission tokens1 = grade_statement Submission tokens2.
Proof.
  intros H1 H2 Hsame.
  rewrite (grade_statement_evaluate tokens1 s1 H1).
  rewrite (grade_statement_evaluate tokens2 s2 H2).
  apply evaluate_ext. exact Hsame.
Qed.

End PlayMusicProps.

(** ** Derivation records *)

(** A derivation record holds one matched alternative per non-terminal. *)
Lemma derivation_single_alternative (r : DerivationRecord) :
  single_alternative r.
Proof.
  intros n v v' Hv Hne. simpl in *. unfold took_alternative in *.
  f_equal. apply bool_decide_eq_false.
  injection Hv as Hv. apply bool_decide_eq_true in Hv.
  rewrite Hv. intros [= ->]. apply Hne. reflexivity.
Qed.

(** C3. A derivation record whose artist is Taylor Swift is rejected by the
    second rule, whatever PLAY_LOCATION and INSTRUMENT matched: the first
    rule needs the artist to be Vulfpeck. *)
Theorem grade_statement_taylor_swift tokens (r : DerivationRecord) :
  StudentSubmission tokens PROBLEM_CONFIG = Ok r ->
  does_path_exist r "ARTIST" "Taylor Swift" = Ok true ->
  grade_statement DerivationRecord tokens =
  Ok (false, Some "It's best to sing Taylor Swift songs rather than play them. Try again.").
Proof.
  intros Hr Hts.
  assert (Hv : does_path_exist r "ARTIST" "Vulfpeck" = Ok false)
    by (apply (derivation_single_alternative r _ _ _ Hts); discriminate).
  unfold grade_statement, py_and. rewrite Hr. cbn [bind].
  rewrite Hv. cbn [bind]. rewrite Hts. reflexivity.
Qed.

Lemma grade_statement_taylor_swift_witness :
  grade_statement DerivationRecord
    ["Play"; "Taylor Swift"; "in church"; "with a violin"] =
  Ok (false, Some "It's best to sing Taylor Swift songs rather than play them. Try again.").
Proof.
  apply (grade_statement_taylor_swift _
           (record_of ["Play"; "Taylor Swift"; "in church"; "with a violin"]));
    vm_compute; reflexivity.
Defined.

Lemma grade_statement_vulfpeck_in_church_witness :
  grade_statement DerivationRecord
    ["Play"; "Vulfpeck"; "in church"; "with a guitar"] =
  Ok (false, Some "Vulfpeck is great, but not in the context of church. consider playing somewhere else.").
Proof.
  apply (grade_statement_vulfpeck_in_church _
           (record_of ["Play"; "Vulfpeck"; "in church"; "with a guitar"]));
    vm_compute; reflexivity.
Defined.

Lemma grade_statement_ultimate_combo_witness :
  grade_statement DerivationRecord
    ["Play"; "Vulfpeck"; "at the quad"; "with a guitar"] =
  Ok (true, Some "Yep. That's the ultimate combo.").
Proof.
  apply (grade_statement_ultimate_combo _
           (record_of ["Play"; "Vulfpeck"; "at the quad"; "with a guitar"]));
    [vm_compute; reflexivity
    |apply derivation_single_alternative
    |vm_compute; reflexivity ..].
Defined.

Lemma grade_statement_epsilon_witness :
  grade_statement DerivationRecord ["Play"] = Ok (true, None).
Proof.
  apply (grade_statement_epsilon _ (record_of ["Play"]));
    [vm_compute; reflexivity|].
  intros n v [<-|[<-|[<-|[]]]]; simpl; f_equal;
    apply bool_decide_eq_false; vm_compute; discriminate.
Defined.

Lemma grade_statement_deterministic_witness :
  grade_statement DerivationRecord
    ["Play"; "Janice Kapp Perry"; "at the quad"; "with a trombone"] =
  grade_statement DerivationRecord
    ["Play"; "Janice Kapp Perry"; "at the quad"; "with a trombone"].
Proof.
  apply (grade_statement_deterministic _ _
           (record_of ["Play"; "Janice Kapp Perry"; "at the quad"; "with a trombone"])
           (record_of ["Play"; "Janice Kapp Perry"; "at the quad"; "with a trombone"]));
    [vm_compute; reflexivity ..|].
  repeat constructor.
Defined.

(** A submission that answers the Taylor Swift query and raises on every
    query of a later rule: the second rule decides and the raising queries
    are never reached. *)
Lemma grade_statement_first_rule_witness :
  let oracle n v :=
    if String.eqb n "ARTIST" && String.eqb v "Vulfpeck" then Ok false
    else if String.eqb n "ARTIST" && String.eqb v "Taylor Swift" then Ok true
    else Raise (ValueError "query of a later rule") in
  @grade_statement unit (stub_submission oracle) [] =
  Ok (false, Some "It's best to sing Taylor Swift songs rather than play them. Try again.").
Proof.
  intros oracle.
  pose (first_rule := mkRule [("ARTIST", "Vulfpeck"); ("PLAY_LOCATION", "in church")] false
      "Vulfpeck is great, but not in the context of church. consider playing somewhere else.").
  pose (second_rule := mkRule [("ARTIST", "Taylor Swift")] false
      "It's best to sing Taylor Swift songs rather than play them. Try again.").
  apply (@grade_statement_first_rule unit (stub_submission oracle) [] tt
           [first_rule] second_rule (skipn 2 RULES)).
  - reflexivity.
  - reflexivity.
  - constructor; [reflexivity|constructor].
  - reflexivity.
Defined.

(** ** Grading one question *)

Section GradeQuestion.

Variables (data : Data) (question_name : string) (grade_function : grade_fn)
          (weight : Z) (feedback_field_name : option string).

(** A score that leaves the [try] block has passed the range assertion. *)
Lemma try_grade_in_unit_interval submitted_answer partial_score feedback_content :
  try_grade grade_function submitted_answer = Ok (partial_score, feedback_content) ->
  in_unit_interval partial_score = true.
Proof.
  unfold try_grade.
  destruct (grade_function submitted_answer) as [[v fb]|e]; simpl; [|discriminate].
  destruct (isinstance_int_float v) eqn:Hnum.
  - destruct (in_unit_interval v) eqn:Hrange; [|discriminate].
    intros [= <- _]. exact Hrange.
  - destruct (isinstance_bool v); [|discriminate].
    destruct v as [|[|]| | | |]; intros [= <- _]; reflexivity.
Qed.

(** On a numeric result the [try] block asserts the range and passes the
    result on unchanged. *)
Lemma try_grade_numeric submitted_answer v feedback_content :
  grade_function submitted_answer = Ok (v, feedback_content) ->
  isinstance_int_float v = true ->
  try_grade grade_function submitted_answer =
  if in_unit_interval v then Ok (v, feedback_content) else Raise AssertionError.
Proof.
  intros Hg Hnum. unfold try_grade. rewrite Hg. simpl. rewrite Hnum. reflexivity.
Qed.

(** Recording feedback leaves every score as it is. *)
Lemma record_feedback_scores d submitted_answer feedback_content q :
  Part.score <$> partial_scores
    (final_data (record_feedback d question_name submitted_answer
                   feedback_content feedback_field_name)) !! q =
  Part.score <$> partial_scores d !! q.
Proof.
  unfold record_feedback.
  destruct (isinstance_str submitted_answer && _ && _); simpl; [reflexivity|].
  destruct (decide (q = question_name)) as [->|Hne].
  - rewrite lookup_alter_eq. destruct (partial_scores d !! question_name); reflexivity.
  - rewrite lookup_alter_ne by congruence. reflexivity.
Qed.

(** The scores in [data] when [grade_question_parameterized] is over,
    whether it returned or raised. *)
Lemma graded_scores q :
  Part.score <$> partial_scores
    (final_data (grade_question_parameterized data question_name grade_function
                   weight feedback_field_name)) !! q =
  if decide (q = question_name) then
    match get_submitted_answer data question_name with
    | Ok submitted_answer =>
        match try_grade grade_function submitted_answer with
        | Ok (partial_score, _) => Some partial_score
        | Raise _ => Some (PyInt 0)
        end
    | Raise _ => Some (PyInt 0)
    end
  else Part.score <$> partial_scores data !! q.
Proof.
  unfold grade_question_parameterized, get_submitted_answer. simpl.
  destruct (submitted_answers data !! question_name) as [a|]; simpl.
  - destruct (try_grade grade_function a) as [[ps fb]|e].
    + assert (Hset : Part.score <$>
                 alter (Part.set_score ps) question_name
                   (<[question_name := Part.mk (PyInt 0) weight None]> (partial_scores data)) !! q
               = if decide (q = question_name) then Some ps
                 else Part.score <$> partial_scores data !! q).
      { case_decide as Hq.
        - subst q. rewrite lookup_alter_eq, lookup_insert_eq. reflexivity.
        - rewrite lookup_alter_ne, lookup_insert_ne by congruence. reflexivity. }
      destruct (truthy fb); [rewrite record_feedback_scores|]; simpl; exact Hset.
    + assert (Hinit : Part.score <$>
                 (<[question_name := Part.mk (PyInt 0) weight None]> (partial_scores data)) !! q
               = if decide (q = question_name) then Some (PyInt 0)
                 else Part.score <$> partial_scores data !! q).
      { case_decide as Hq.
        - subst q. rewrite lookup_insert_eq. reflexivity.
        - rewrite lookup_insert_ne by congruence. reflexivity. }
      destruct e; simpl; exact Hinit.
  - case_decide as Hq.
    + subst q. rewrite lookup_insert_eq. reflexivity.
    + rewrite lookup_insert_ne by congruence. reflexivity.
Qed.

End GradeQuestion.

(** [html.escape] replaces character by character. *)
Lemma html_escape_pieces msg :
  html_escape msg
  = String.concat EmptyString (escape_char <$> list_ascii_of_string msg) /\
  Forall2 (fun c piece => piece = escape_char c)
          (list_ascii_of_string msg) (escape_char <$> list_ascii_of_string msg).
Proof.
  induction msg as [|c msg [IHeq IHall]]; [split; [reflexivity|constructor]|].
  split; [|constructor; [reflexivity|exact IHall]].
  cbn [html_escape list_ascii_of_string fmap list_fmap]. rewrite IHeq.
  destruct (list_ascii_of_string msg) as [|c' rest]; [|reflexivity].
  cbn [fmap list_fmap String.concat].
  generalize (escape_char c). intros piece.
  induction piece as [|x piece IH]; [reflexivity|].
  change (String x (piece ++ EmptyString)%string = String x piece).
  f_equal. exact IH.
Qed.

(** C6. When the grade function raises a [ValueError],
    [grade_question_parameterized] returns normally; the escaped message is
    the question's format error, the question's entry keeps score 0 and has
    no feedback, and no feedback field is set.  Escaped means: the stored
    text is the message with every [&], [<], [>], double quote and single
    quote replaced by its HTML entity and every other character kept. *)
Theorem format_error_recorded data question_name grade_function weight
    feedback_field_name submitted_answer msg :
  submitted_answers data !! question_name = Some submitted_answer ->
  grade_function submitted_answer = Raise (ValueError msg) ->
  exists data',
    grade_question_parameterized data question_name grade_function weight
      feedback_field_name = Returned data' /\
    format_errors data' !! question_name = Some (html_escape msg) /\
    (exists pieces,
       Forall2 (fun c piece =>
                  piece = if Ascii.eqb c "&" then "&amp;"
                          else if Ascii.eqb c "<" then "&lt;"
                          else if Ascii.eqb c ">" then "&gt;"
                          else if Ascii.eqb c (ascii_of_nat 34) then "&quot;"
                          else if Ascii.eqb c "'" then "&#x27;"
                          else String c EmptyString)
               (list_ascii_of_string msg) pieces /\
       format_errors data' !! question_name
       = Some (String.concat EmptyString pieces)) /\
    partial_scores data' !! question_name = Some (Part.mk (PyInt 0) weight None) /\
    feedback data' = feedback data /\
    score data' = score data /\
    submitted_answers data' = submitted_answers data /\
    forall q, q <> question_name ->
              format_errors data' !! q = format_errors data !! q /\
              partial_scores data' !! q = partial_scores data !! q.
Proof.
  intros Hans Hraise.
  unfold grade_question_parameterized, get_submitted_answer, try_grade. simpl.
  rewrite Hans, Hraise. simpl.
  eexists. split; [reflexivity|]. simpl.
  rewrite !lookup_insert_eq.
  destruct (html_escape_pieces msg) as [Heq Hall].
  split; [reflexivity|].
  split; [exists (escape_char <$> list_ascii_of_string msg);
          split; [exact Hall|rewrite Heq; reflexivity]|].
  repeat split; try reflexivity.
  - rewrite lookup_insert_ne by congruence. reflexivity.
  - rewrite lookup_insert_ne by congruence. reflexivity.
Qed.

(** A submission that does not parse: the format error is recorded and the
    score stays 0.  A message with markup: what is recorded is the message
    with the five characters replaced. *)
Lemma format_error_recorded_witness :
  (exists data',
     grade_question_parameterized
       (initial_data {[ "subproblem_definition" := PyStrList ["Play"; "<Vulfpeck>"] ]})
       "subproblem_definition" (grade_statement_fn DerivationRecord) 1 None
     = Returned data' /\
     format_errors data' !! "subproblem_definition" =
       Some "submission cannot be derived from the grammar" /\
     partial_scores data' !! "subproblem_definition" = Some (Part.mk (PyInt 0) 1 None) /\
     feedback data' = ∅) /\
  (exists data',
     grade_question_parameterized (initial_data {[ "q" := PyStr "{1,2" ]}) "q"
       (fun _ => Raise (ValueError "<set> & 'braces'")) 1 None
     = Returned data' /\
     format_errors data' !! "q" = Some "&lt;set&gt; &amp; &#x27;braces&#x27;" /\
     partial_scores data' !! "q" = Some (Part.mk (PyInt 0) 1 None)).
Proof.
  split.
  - destruct (format_error_recorded
                (initial_data {[ "subproblem_definition" := PyStrList ["Play"; "<Vulfpeck>"] ]})
                "subproblem_definition" (grade_statement_fn DerivationRecord) 1 None
                (PyStrList ["Play"; "<Vulfpeck>"])
                "submission cannot be derived from the grammar")
      as (data' & Hret & Herr & _ & Hscore & Hfb & _).
    + vm_compute. reflexivity.
    + vm_compute. reflexivity.
    + exists data'. repeat split; assumption.
  - destruct (format_error_recorded (initial_data {[ "q" := PyStr "{1,2" ]}) "q"
                (fun _ => Raise (ValueError "<set> & 'braces'")) 1 None
                (PyStr "{1,2") "<set> & 'braces'")
      as (data' & Hret & Herr & _ & Hscore & _).
    + vm_compute. reflexivity.
    + reflexivity.
    + exists data'. split; [exact Hret|]. split; [|exact Hscore].
      rewrite Herr. vm_compute. reflexivity.
Defined.

(** Every score that leaves the [try] block is the first component of what
    the grade function returned, as it is: the branch of lines 210-211,
    which would turn a boolean into [1.0] or [0.0], is never taken, since
    a [bool] already passes [isinstance(result, (int, float))]. *)
Lemma try_grade_unconverted grade_function submitted_answer partial_score
    feedback_content :
  try_grade grade_function submitted_answer = Ok (partial_score, feedback_content) ->
  grade_function submitted_answer = Ok (partial_score, feedback_content).
Proof.
  unfold try_grade.
  destruct (grade_function submitted_answer) as [[v fb]|e]; simpl; [|discriminate].
  destruct (isinstance_int_float v) eqn:Hnum.
  - destruct (in_unit_interval v); [|discriminate]. intros H. exact H.
  - destruct v; simpl in *; discriminate.
Qed.

(** C7. Whatever the grade function does, and whether
    [grade_question_parameterized] returns or raises, the score the
    question's entry ends with lies in [0,1] and the other entries are
    untouched; a numeric result inside [0,1] is stored unchanged; a numeric
    result outside [0,1] raises [AssertionError] with the entry as it was
    created, at score 0.  A boolean result is not mapped to [1.0] or [0.0]:
    it is stored as the [bool] it is, a different value from the float, and
    so is every result that is stored at all. *)
Theorem recorded_score_in_unit_interval data question_name grade_function weight
    feedback_field_name :
  let out := grade_question_parameterized data question_name grade_function
               weight feedback_field_name in
  (exists v, Part.score <$> partial_scores (final_data out) !! question_name = Some v /\
             in_unit_interval v = true) /\
  (forall q, q <> question_name ->
             Part.score <$> partial_scores (final_data out) !! q =
             Part.score <$> partial_scores data !! q) /\
  (forall a b fb,
      submitted_answers data !! question_name = Some a ->
      grade_function a = Ok (PyBool b, fb) ->
      Part.score <$> partial_scores (final_data out) !! question_name = Some (PyBool b) /\
      Part.score <$> partial_scores (final_data out) !! question_name
      <> Some (PyFloat (if b then 1 else 0))) /\
  (forall a v fb,
      submitted_answers data !! question_name = Some a ->
      try_grade grade_function a = Ok (v, fb) ->
      grade_function a = Ok (v, fb) /\
      Part.score <$> partial_scores (final_data out) !! question_name = Some v) /\
  (forall a v fb,
      submitted_answers data !! question_name = Some a ->
      grade_function a = Ok (v, fb) ->
      isinstance_int_float v = true ->
      if in_unit_interval v
      then Part.score <$> partial_scores (final_data out) !! question_name = Some v
      else out = Raised AssertionError (entry_created data question_name weight)).
Proof.
  intros out. subst out.
  assert (Hbool : forall a b fb,
             submitted_answers data !! question_name = Some a ->
             grade_function a = Ok (PyBool b, fb) ->
             Part.score <$> partial_scores
               (final_data (grade_question_parameterized data question_name
                              grade_function weight feedback_field_name))
               !! question_name = Some (PyBool b)).
  { intros a b fb Ha Hg.
    rewrite graded_scores. rewrite decide_True by reflexivity.
    unfold get_submitted_answer. rewrite Ha.
    rewrite (try_grade_numeric _ _ _ _ Hg) by reflexivity.
    destruct b; reflexivity. }
  split; [|split; [|split; [|split]]].
  - rewrite graded_scores. rewrite decide_True by reflexivity.
    destruct (get_submitted_answer data question_name) as [a|e];
      [|eexists; split; reflexivity].
    destruct (try_grade grade_function a) as [[ps fb]|e] eqn:Htry;
      [|eexists; split; reflexivity].
    exists ps. split; [reflexivity|].
    exact (try_grade_in_unit_interval _ _ _ _ Htry).
  - intros q Hq. rewrite graded_scores. rewrite decide_False by exact Hq.
    reflexivity.
  - intros a b fb Ha Hg. split; [exact (Hbool a b fb Ha Hg)|].
    rewrite (Hbool a b fb Ha Hg). discriminate.
  - intros a v fb Ha Htry. split; [exact (try_grade_unconverted _ _ _ _ Htry)|].
    rewrite graded_scores. rewrite decide_True by reflexivity.
    unfold get_submitted_answer. rewrite Ha, Htry. reflexivity.
  - intros a v fb Ha Hg Hnum.
    destruct (in_unit_interval v) eqn:Hrange.
    + rewrite graded_scores. rewrite decide_True by reflexivity.
      unfold get_submitted_answer. rewrite Ha.
      rewrite (try_grade_numeric _ _ _ _ Hg Hnum), Hrange. reflexivity.
    + unfold grade_question_parameterized, get_submitted_answer. simpl.
      rewrite Ha. rewrite (try_grade_numeric _ _ _ _ Hg Hnum), Hrange.
      reflexivity.
Qed.

(** A score of 1.5 trips the assertion; the result [True] is stored as
    [True], not as [1.0]. *)
Lemma recorded_score_in_unit_interval_witness :
  let data := initial_data {[ "q" := PyStr "x" ]} in
  grade_question_parameterized data "q" (fun _ => Ok (PyFloat (3 # 2), None)) 1 None
  = Raised AssertionError (entry_created data "q" 1) /\
  Part.score <$> partial_scores
    (final_data (grade_question_parameterized data "q"
                   (fun _ => Ok (PyBool true, None)) 1 None)) !! "q"
  = Some (PyBool true) /\
  Part.score <$> partial_scores
    (final_data (grade_question_parameterized data "q"
                   (fun _ => Ok (PyBool true, None)) 1 None)) !! "q"
  <> Some (PyFloat 1).
Proof.
  intros data. split.
  - destruct (recorded_score_in_unit_interval data "q"
                (fun _ => Ok (PyFloat (3 # 2), None)) 1 None) as (_ & _ & _ & _ & H).
    exact (H (PyStr "x") (PyFloat (3 # 2)) None
             ltac:(vm_compute; reflexivity) eq_refl eq_refl).
  - destruct (recorded_score_in_unit_interval data "q"
                (fun _ => Ok (PyBool true, None)) 1 None) as (_ & _ & H & _).
    exact (H (PyStr "x") true None ltac:(vm_compute; reflexivity) eq_refl).
Defined.

(** ** Rounding to a double *)

Section Rounding.

Lemma round_half_even_close a d :
  0 < d -> 2 * Z.abs (round_half_even a d * d - a) <= d.
Proof.
  intros Hd. unfold round_half_even.
  pose proof (Z.div_mod a d ltac:(lia)) as Hdiv.
  pose proof (Z.mod_pos_bound a d Hd) as Hmod.
  destruct (Z.ltb_spec (2 * (a mod d)) d).
  - nia.
  - destruct (Z.ltb_spec d (2 * (a mod d))).
    + nia.
    + destruct (Z.even (a / d)); nia.
Qed.

Lemma round_half_even_nearest a d k :
  0 < d -> Z.abs (round_half_even a d * d - a) <= Z.abs (k * d - a).
Proof.
  intros Hd. pose proof (round_half_even_close a d Hd) as Hclose.
  destruct (Z.eq_dec k (round_half_even a d)) as [->|Hne]; [lia|].
  assert (Hfar : d <= Z.abs ((k - round_half_even a d) * d)).
  { rewrite Z.abs_mul, (Z.abs_eq d) by lia.
    assert (1 <= Z.abs (k - round_half_even a d)) by lia. nia. }
  replace (k * d - a)
    with ((k - round_half_even a d) * d + (round_half_even a d * d - a)) by ring.
  lia.
Qed.

Lemma round_half_even_nonneg a d : 0 <= a -> 0 < d -> 0 <= round_half_even a d.
Proof.
  intros Ha Hd. unfold round_half_even.
  assert (0 <= a / d) by (apply Z.div_pos; lia).
  destruct (_ <? _); [lia|]. destruct (_ <? _); [lia|]. destruct (Z.even _); lia.
Qed.

Lemma round_scaled_eq a b :
  round_scaled a b
  = round_half_even a (Zpos b * 2 ^ grid_exponent a b) * 2 ^ grid_exponent a b.
Proof. reflexivity. Qed.

Lemma grid_exponent_spec a b :
  0 <= a ->
  let u := grid_exponent a b in
  0 <= u /\ a < 2 ^ (u + 53) * Zpos b /\
  (0 < u -> 2 ^ (u + 52) * Zpos b <= a).
Proof.
  intros Ha. unfold grid_exponent.
  assert (Hb : 0 < Zpos b) by lia.
  assert (HF : 0 <= a / Zpos b) by (apply Z.div_pos; lia).
  pose proof (Z.div_mod a (Zpos b) ltac:(lia)) as Hdiv.
  pose proof (Z.mod_pos_bound a (Zpos b) Hb) as Hmod.
  destruct (Z.ltb_spec (a / Zpos b) (2 ^ 53)) as [Hsmall|Hbig].
  - split; [lia|]. split; [|lia]. change (0 + 53) with 53. nia.
  - assert (HFpos : 0 < a / Zpos b) by (assert (0 < 2 ^ 53) by (apply Z.pow_pos_nonneg; lia); lia).
    pose proof (Z.log2_spec _ HFpos) as [Hlo Hhi].
    assert (Hlog : 53 <= Z.log2 (a / Zpos b)).
    { apply Z.log2_le_pow2; assumption. }
    replace (Z.log2 (a / Zpos b) - 52 + 53) with (Z.succ (Z.log2 (a / Zpos b))) by lia.
    replace (Z.log2 (a / Zpos b) - 52 + 52) with (Z.log2 (a / Zpos b)) by lia.
    split; [lia|]. split; [nia|]. intros _. nia.
Qed.

Lemma round_scaled_nearest a b m t :
  0 <= a -> Z.abs m < 2 ^ 53 -> 0 <= t ->
  Z.abs (round_scaled a b * Zpos b - a) <= Z.abs (m * 2 ^ t * Zpos b - a).
Proof.
  intros Ha Hm Ht. rewrite round_scaled_eq.
  destruct (grid_exponent_spec a b Ha) as (Hu & Hupper & Hlower).
  set (u := grid_exponent a b) in *.
  assert (Hpu : 0 < 2 ^ u) by (apply Z.pow_pos_nonneg; lia).
  assert (Hd : 0 < Zpos b * 2 ^ u) by lia.
  replace (round_half_even a (Zpos b * 2 ^ u) * 2 ^ u * Zpos b)
    with (round_half_even a (Zpos b * 2 ^ u) * (Zpos b * 2 ^ u)) by ring.
  destruct (Z_le_gt_dec u t) as [Hut|Hut].
  - replace (m * 2 ^ t * Zpos b) with ((m * 2 ^ (t - u)) * (Zpos b * 2 ^ u)).
    + apply round_half_even_nearest. exact Hd.
    + replace t with ((t - u) + u) at 2 by lia.
      rewrite Z.pow_add_r by lia. ring.
  - specialize (Hlower ltac:(lia)).
    pose proof (round_half_even_nearest a (Zpos b * 2 ^ u) (2 ^ 52) Hd) as Hnear.
    assert (Hp : 2 ^ 52 * (Zpos b * 2 ^ u) = 2 ^ (u + 52) * Zpos b)
      by (rewrite Z.pow_add_r by lia; ring).
    rewrite Hp in Hnear.
    assert (Hy : m * 2 ^ t < 2 ^ (u + 52)).
    { assert (Hpt : 0 < 2 ^ t) by (apply Z.pow_pos_nonneg; lia).
      assert (Hle : 2 ^ 53 * 2 ^ t <= 2 ^ (u + 52)).
      { rewrite <- Z.pow_add_r by lia. apply Z.pow_le_mono_r; lia. }
      assert (m * 2 ^ t < 2 ^ 53 * 2 ^ t) by (apply Z.mul_lt_mono_pos_r; lia).
      lia. }
    assert (m * 2 ^ t * Zpos b < 2 ^ (u + 52) * Zpos b)
      by (apply Z.mul_lt_mono_pos_r; lia).
    lia.
Qed.

Lemma round_scaled_double a b :
  0 <= a -> a <= MAX_SCALED * Zpos b ->
  exists m u, Z.abs m < 2 ^ 53 /\ 0 <= u <= 2045 /\ round_scaled a b = m * 2 ^ u.
Proof.
  intros Ha Hmax. rewrite round_scaled_eq.
  destruct (grid_exponent_spec a b Ha) as (Hu & Hupper & Hlower).
  set (u := grid_exponent a b) in *.
  assert (Hpu : 0 < 2 ^ u) by (apply Z.pow_pos_nonneg; lia).
  assert (Hd : 0 < Zpos b * 2 ^ u) by lia.
  pose proof (round_half_even_close a (Zpos b * 2 ^ u) Hd) as Hclose.
  pose proof (round_half_even_nonneg a (Zpos b * 2 ^ u) Ha Hd) as Hn0.
  set (n := round_half_even a (Zpos b * 2 ^ u)) in *.
  assert (Hp53 : 2 ^ (u + 53) = 2 ^ 53 * 2 ^ u) by (rewrite Z.pow_add_r by lia; ring).
  assert (Hn : n <= 2 ^ 53).
  { destruct (Z_le_gt_dec n (2 ^ 53)) as [|Hgt]; [assumption|]. exfalso.
    assert (2 ^ 53 + 1 <= n) by lia.
    assert ((2 ^ 53 + 1) * (Zpos b * 2 ^ u) <= n * (Zpos b * 2 ^ u))
      by (apply Z.mul_le_mono_nonneg_r; lia).
    rewrite Hp53 in Hupper. nia. }
  assert (Hu2045 : u <= 2045).
  { destruct (Z_le_gt_dec u 2045) as [|Hgt]; [assumption|]. exfalso.
    specialize (Hlower ltac:(lia)).
    assert (2 ^ 2098 <= 2 ^ (u + 52)) by (apply Z.pow_le_mono_r; lia).
    assert (2 ^ 2098 * Zpos b <= 2 ^ (u + 52) * Zpos b)
      by (apply Z.mul_le_mono_nonneg_r; lia).
    assert (MAX_SCALED < 2 ^ 2098) by (vm_compute; reflexivity).
    assert (MAX_SCALED * Zpos b < 2 ^ 2098 * Zpos b)
      by (apply Z.mul_lt_mono_pos_r; lia).
    lia. }
  destruct (Z.eq_dec n (2 ^ 53)) as [Heq|Hne].
  - exists (2 ^ 52), (u + 1). split; [vm_compute; reflexivity|]. split.
    + split; [lia|].
      destruct (Z.eq_dec u 2045) as [Hu'|]; [|lia]. exfalso.
      assert (Hms : MAX_SCALED * Zpos b = (2 ^ 53 - 1) * (Zpos b * 2 ^ u))
        by (unfold MAX_SCALED; rewrite Hu'; ring).
      rewrite Heq in Hclose. nia.
    + rewrite Heq, Z.pow_add_r by lia.
      change (2 ^ 53) with (2 ^ 52 * 2). change (2 ^ 1) with 2. ring.
  - exists n, u. split; [lia|]. split; [lia|reflexivity].
Qed.

Lemma round_signed_nearest a b m t :
  Z.abs m < 2 ^ 53 -> 0 <= t ->
  Z.abs (round_signed a b * Zpos b - a) <= Z.abs (m * 2 ^ t * Zpos b - a).
Proof.
  intros Hm Ht. unfold round_signed.
  destruct (Z.ltb_spec a 0) as [Hneg|Hpos].
  - pose proof (round_scaled_nearest (- a) b (- m) t ltac:(lia) ltac:(lia) Ht) as H.
    replace (- round_scaled (- a) b * Zpos b - a)
      with (- (round_scaled (- a) b * Zpos b - - a)) by ring.
    replace (m * 2 ^ t * Zpos b - a)
      with (- (- m * 2 ^ t * Zpos b - - a)) by ring.
    rewrite !Z.abs_opp. exact H.
  - apply round_scaled_nearest; assumption.
Qed.

Lemma round_signed_double a b :
  Z.abs a <= MAX_SCALED * Zpos b ->
  exists m u, Z.abs m < 2 ^ 53 /\ 0 <= u <= 2045 /\ round_signed a b = m * 2 ^ u.
Proof.
  intros Ha. unfold round_signed.
  destruct (Z.ltb_spec a 0) as [Hneg|Hpos].
  - destruct (round_scaled_double (- a) b ltac:(lia) ltac:(lia)) as (m & u & Hm & Hu & ->).
    exists (- m), u. split; [lia|]. split; [exact Hu|ring].
  - apply round_scaled_double; lia.
Qed.

Lemma double_below_overflow m u :
  Z.abs m < 2 ^ 53 -> 0 <= u <= 2045 -> Z.abs (m * 2 ^ u) < 2 ^ 2098.
Proof.
  intros Hm Hu.
  assert (Hpu : 0 < 2 ^ u) by (apply Z.pow_pos_nonneg; lia).
  rewrite Z.abs_mul, (Z.abs_eq (2 ^ u)) by lia.
  assert (2 ^ u <= 2 ^ 2045) by (apply Z.pow_le_mono_r; lia).
  change (2 ^ 2098) with (2 ^ 53 * 2 ^ 2045).
  nia.
Qed.

Lemma Qabs_distance_le (R Y n : Z) (S b : positive) :
  Z.abs (R * Zpos b - n * Zpos S) <= Z.abs (Y * Zpos b - n * Zpos S) ->
  (Qabs ((R # S) - (n # b)) <= Qabs ((Y # S) - (n # b)))%Q.
Proof.
  intros H. unfold Qle, Qabs, Qminus, Qplus, Qopp. cbn [Qnum Qden].
  apply Z.mul_le_mono_nonneg_r; [lia|].
  replace (R * Zpos b + - n * Zpos S) with (R * Zpos b - n * Zpos S) by ring.
  replace (Y * Zpos b + - n * Zpos S) with (Y * Zpos b - n * Zpos S) by ring.
  exact H.
Qed.

Lemma round_double_nearest x :
  (Qabs x <= MAX_DOUBLE)%Q ->
  exists q, round_double x = Some q /\ is_double q /\
            forall y, is_double y -> (Qabs (q - x) <= Qabs (y - x))%Q.
Proof.
  destruct x as [n b]. intros Hmax.
  assert (Hscaled : Z.abs (n * 2 ^ 1074) <= MAX_SCALED * Zpos b).
  { unfold Qle, Qabs, MAX_DOUBLE, inject_Z in Hmax. cbn [Qnum Qden] in Hmax.
    rewrite Z.abs_mul, (Z.abs_eq (2 ^ 1074)) by (apply Z.pow_nonneg; lia).
    unfold MAX_SCALED. change (2 ^ 2045) with (2 ^ 971 * 2 ^ 1074).
    assert (0 <= 2 ^ 1074) by (apply Z.pow_nonneg; lia).
    nia. }
  destruct (round_signed_double _ _ Hscaled) as (m & u & Hm & Hu & HR).
  unfold round_double. cbn [Qnum Qden].
  rewrite HR.
  pose proof (double_below_overflow m u Hm Hu) as Hlt.
  apply Z.ltb_lt in Hlt. rewrite Hlt.
  eexists. split; [reflexivity|]. split.
  - exists m, u. split; [exact Hm|]. split; [exact Hu|]. apply Qred_correct.
  - intros y (m' & u' & Hm' & Hu' & Hy).
    rewrite Qred_correct, Hy. rewrite <- HR.
    apply Qabs_distance_le.
    change (Zpos (2 ^ 1074)) with (2 ^ 1074).
    apply round_signed_nearest; lia.
Qed.

Lemma is_double_0 : is_double 0.
Proof.
  exists 0, 0. split; [reflexivity|]. split; [lia|]. reflexivity.
Qed.

Lemma is_double_1 : is_double 1.
Proof.
  exists 1, 1074. split; [reflexivity|]. split; [lia|].
  unfold Qeq. cbn [Qnum Qden]. rewrite Pos2Z.inj_pow. reflexivity.
Qed.

Lemma one_below_max : (Qabs 1 <= MAX_DOUBLE)%Q.
Proof.
  unfold Qle, MAX_DOUBLE, inject_Z. cbn [Qabs Qnum Qden].
  assert (0 < 2 ^ 971) by (apply Z.pow_pos_nonneg; lia).
  assert (1 <= 2 ^ 53 - 1) by (change (2 ^ 53) with 9007199254740992; lia).
  change (Z.abs 1 * 1) with 1. nia.
Qed.

(** A double nearest to a number of [0,1] lies in [0,1]; a double nearest
    to a double is that double. *)
Lemma nearest_in_unit_interval q x :
  (0 <= x <= 1)%Q ->
  (forall y, is_double y -> Qabs (q - x) <= Qabs (y - x))%Q ->
  (0 <= q <= 1)%Q.
Proof.
  intros [Hx0 Hx1] Hnear.
  pose proof (Hnear 0%Q is_double_0) as H0.
  pose proof (Hnear 1%Q is_double_1) as H1.
  rewrite (Qabs_neg (0 - x)) in H0 by lra.
  rewrite (Qabs_pos (1 - x)) in H1 by lra.
  apply Qabs_Qle_condition in H0, H1. split; lra.
Qed.

Lemma nearest_exact q x :
  is_double x ->
  (forall y, is_double y -> Qabs (q - x) <= Qabs (y - x))%Q ->
  (q == x)%Q.
Proof.
  intros Hx Hnear. specialize (Hnear x Hx).
  rewrite (Qabs_pos (x - x)) in Hnear by lra.
  apply Qabs_Qle_condition in Hnear. lra.
Qed.

End Rounding.

(** ** The weighted average *)

Section WeightedScore.

Local Open Scope Q_scope.

Lemma py_sum_products parts : forall acc,
  numeric_scores parts ->
  exists n,
    fold_left (fun acc item => do a <- acc; do x <- item; Ok (a + x))
              (score_times_weight <$> parts) (Ok acc) = Ok n /\
    n == acc + weighted_sum parts.
Proof.
  induction parts as [|part parts IH]; intros acc Hnum; simpl.
  - exists acc. split; [reflexivity|ring].
  - inversion Hnum as [|? ? [s Hs] Hrest]; subst.
    unfold score_times_weight at 2. rewrite Hs. simpl.
    destruct (IH (acc + s * inject_Z (Part.weight part)) Hrest) as (n & Hfold & Hn).
    exists n. split; [exact Hfold|].
    rewrite Hn. unfold score_value. rewrite Hs. simpl. ring.
Qed.

Lemma py_sum_weights parts : forall acc,
  exists n,
    fold_left (fun acc item => do a <- acc; do x <- item; Ok (a + x))
              ((fun part => Ok (inject_Z (Part.weight part))) <$> parts) (Ok acc)
    = Ok n /\
    n == acc + inject_Z (total_weight parts).
Proof.
  induction parts as [|part parts IH]; intros acc; simpl.
  - exists acc. split; [reflexivity|]. change (inject_Z 0) with 0. ring.
  - destruct (IH (acc + inject_Z (Part.weight part))) as (n & Hfold & Hn).
    exists n. split; [exact Hfold|].
    rewrite Hn, inject_Z_plus. ring.
Qed.

Lemma integral_scores_numeric parts :
  integral_scores parts -> numeric_scores parts.
Proof.
  intros Hall. eapply Forall_impl; [exact Hall|]. intros part Hint. simpl in Hint.
  destruct (Part.score part); try discriminate; eexists; reflexivity.
Qed.

(** What [set_weighted_score_data] stores when the weights do not cancel
    out and the average is not beyond the doubles. *)
Lemma weighted_score_returned data :
  numeric_scores (values data) ->
  total_weight (values data) <> 0%Z ->
  Qabs (weighted_average (values data)) <= MAX_DOUBLE ->
  exists q,
    set_weighted_score_data data = Returned (with_score (PyFloat q) data) /\
    is_double q /\
    forall y, is_double y ->
              Qabs (q - weighted_average (values data))
              <= Qabs (y - weighted_average (values data)).
Proof.
  intros Hnum Hweight Hmax.
  unfold set_weighted_score_data, py_sum.
  destruct (py_sum_products (values data) 0 Hnum) as (n & -> & Hn).
  destruct (py_sum_weights (values data) 0) as (d & -> & Hd).
  rewrite Qplus_0_l in Hn, Hd.
  destruct (Qeq_bool d 0) eqn:Hq.
  { exfalso. apply Hweight. apply (inject_Z_injective _ 0%Z).
    rewrite <- Hd. apply Qeq_bool_eq. exact Hq. }
  assert (Hdiv : n / d == weighted_average (values data))
    by (unfold weighted_average; rewrite Hn, Hd; reflexivity).
  rewrite <- Hdiv in Hmax.
  destruct (round_double_nearest (n / d) Hmax) as (q & -> & Hdouble & Hnear).
  exists q. split; [reflexivity|]. split; [exact Hdouble|].
  intros y Hy. rewrite <- Hdiv. exact (Hnear y Hy).
Qed.


End WeightedScore.



(** ** The four scenarios, end to end through [grade] *)

Example grade_vulfpeck_in_church :
  let out := grade DerivationRecord
               (initial_data {[ "subproblem_definition" :=
                  PyStrList ["Play"; "Vulfpeck"; "in church"; "with a guitar"] ]}) in
  exists data, out = Returned data /\
    score data = Some (PyFloat (0 / 1)) /\
    feedback data !! "subproblem_definition" =
      Some "Vulfpeck is great, but not in the context of church. consider playing somewhere else.".
Proof. eexists. split; [vm_compute; reflexivity|]. split; vm_compute; reflexivity. Qed.

Example grade_ultimate_combo :
  let out := grade DerivationRecord
               (initial_data {[ "subproblem_definition" :=
                  PyStrList ["Play"; "Vulfpeck"; "at the quad"; "with a guitar"] ]}) in
  exists data, out = Returned data /\
    score data = Some (PyFloat (1 / 1)) /\
    feedback data !! "subproblem_definition" = Some "Yep. That's the ultimate combo.".
Proof. eexists. split; [vm_compute; reflexivity|]. split; vm_compute; reflexivity. Qed.

Example grade_epsilon :
  let out := grade DerivationRecord
               (initial_data {[ "subproblem_definition" := PyStrList ["Play"] ]}) in
  exists data, out = Returned data /\
    score data = Some (PyFloat (1 / 1)) /\
    feedback data !! "subproblem_definition" = None.
Proof. eexists. split; [vm_compute; reflexivity|]. split; vm_compute; reflexivity. Qed.

(** The message of a format error is escaped before it is stored. *)
Example format_error_escaped :
  format_errors
    (final_data
       (grade_question_parameterized (initial_data {[ "q" := PyStr "{1,2" ]}) "q"
          (fun _ => Raise (ValueError "<set> & 'braces'")) 1 None)) !! "q"
  = Some "&lt;set&gt; &amp; &#x27;braces&#x27;".
Proof. vm_compute. reflexivity. Qed.
(** ** More on binary search and the power tests *)

Module BinarySearchMore.
Import BinarySearch BinarySearchProps.

(** One turn of the loop. *)
Lemma search_loop_unfold lo hi f :
  search_loop lo hi f =
  if lo <? hi then
    if f (lo + (hi - lo) / 2)
    then search_loop lo (lo + (hi - lo) / 2) f
    else search_loop (lo + (hi - lo) / 2 + 1) hi f
  else lo.
Proof.
  funelim (search_loop lo hi f).
  - destruct (Z.ltb_spec lo hi); [|lia]. reflexivity.
  - destruct (Z.ltb_spec lo hi); [lia|]. reflexivity.
Qed.

Lemma midpoint_bounds lo hi :
  lo < hi -> lo <= lo + (hi - lo) / 2 < hi.
Proof.
  intros Hlt.
  assert (0 <= (hi - lo) / 2 < hi - lo)
    by (split; [apply Z.div_pos; lia | apply Z.div_lt_upper_bound; lia]).
  lia.
Qed.

(** The loop looks at the condition inside [lo, hi) only. *)
Lemma search_loop_ext f g : forall n lo hi,
  Z.to_nat (hi - lo) = n ->
  (forall x, lo <= x < hi -> f x = g x) ->
  search_loop lo hi f = search_loop lo hi g.
Proof.
  induction n as [n IH] using lt_wf_ind. intros lo hi Hn Hagree.
  rewrite (search_loop_unfold lo hi f), (search_loop_unfold lo hi g).
  destruct (Z.ltb_spec lo hi) as [Hlt|]; [|reflexivity].
  pose proof (midpoint_bounds lo hi Hlt) as Hmid.
  rewrite <- (Hagree (lo + (hi - lo) / 2)) by lia.
  destruct (f (lo + (hi - lo) / 2)).
  - apply (IH (Z.to_nat (lo + (hi - lo) / 2 - lo))); [lia|reflexivity|].
    intros x Hx. apply Hagree. lia.
  - apply (IH (Z.to_nat (hi - (lo + (hi - lo) / 2 + 1)))); [lia|reflexivity|].
    intros x Hx. apply Hagree. lia.
Qed.

Lemma binary_search_shape lo hi f :
  lo <= hi ->
  binary_search lo hi f =
  if f (search_loop lo hi f) then Ok (Some (search_loop lo hi f)) else Ok None.
Proof.
  intros Hle. unfold binary_search.
  destruct (Z.leb_spec lo hi); [|lia]. simpl.
  destruct (f (search_loop lo hi f)); reflexivity.
Qed.

(** X1. For [lo <= hi] and any condition, monotone or not, [binary_search]
    returns without raising; a value it returns lies in the closed interval
    and satisfies the condition; and it returns [None] only when the
    condition is false at [hi]. *)
Theorem binary_search_sound lo hi f :
  lo <= hi ->
  (exists r, binary_search lo hi f = Ok r) /\
  (forall x, binary_search lo hi f = Ok (Some x) -> lo <= x <= hi /\ f x = true) /\
  (binary_search lo hi f = Ok None -> f hi = false).
Proof.
  intros Hle. rewrite (binary_search_shape lo hi f Hle).
  destruct (search_loop_range lo hi f Hle) as [Hr Ht].
  destruct (f (search_loop lo hi f)) eqn:Hf.
  - split; [eauto|]. split; [|discriminate].
    intros x [= <-]. auto.
  - split; [eauto|]. split; [discriminate|]. intros _.
    destruct (Z.eq_dec (search_loop lo hi f) hi) as [Heq|Hne].
    + rewrite <- Heq. exact Hf.
    + assert (Hlt : search_loop lo hi f < hi) by lia.
      discriminate (Ht Hlt).
Qed.

(** A condition that holds at 2 only: the search over [0..7] misses it and
    returns [None], the condition being false at 7. *)
Lemma binary_search_sound_witness :
  0 <= 7 /\
  binary_search 0 7 (fun x => x =? 2) = Ok None /\
  (7 =? 2) = false.
Proof.
  split; [lia|]. split; [reflexivity|].
  destruct (binary_search_sound 0 7 (fun x => x =? 2)) as (_ & _ & H); [lia|].
  apply H. reflexivity.
Defined.

(** X2. [binary_search] consults the condition inside the closed interval
    only: two conditions that agree on [lo..hi] give the same result. *)
Theorem binary_search_ext lo hi f g :
  (forall x, lo <= x <= hi -> f x = g x) ->
  binary_search lo hi f = binary_search lo hi g.
Proof.
  intros Hagree.
  destruct (Z.leb_spec lo hi) as [Hle|Hgt];
    [|unfold binary_search; destruct (Z.leb_spec lo hi); [lia|reflexivity]].
  rewrite !binary_search_shape by exact Hle.
  assert (Hloop : search_loop lo hi f = search_loop lo hi g).
  { apply (search_loop_ext f g _ lo hi eq_refl). intros x Hx. apply Hagree. lia. }
  rewrite <- Hloop.
  rewrite <- (Hagree (search_loop lo hi f)); [reflexivity|].
  apply search_loop_range. exact Hle.
Qed.

Lemma binary_search_ext_witness :
  binary_search 0 5 (fun x => 3 <=? x) =
  binary_search 0 5 (fun x => (3 <=? x) && (x <=? 5)).
Proof.
  apply binary_search_ext. intros x Hx.
  destruct (Z.leb_spec x 5); [|lia]. rewrite andb_true_r. reflexivity.
Defined.

End BinarySearchMore.

Module PowerProps.
Import BinarySearch BinarySearchProps BinarySearchMore.

(** With a condition that is monotone inside the interval and true at [hi],
    the search returns the least value where it holds. *)
Lemma binary_search_least lo hi f :
  lo <= hi ->
  (forall x y, lo <= x -> x <= y -> y <= hi -> f x = true -> f y = true) ->
  f hi = true ->
  exists s, binary_search lo hi f = Ok (Some s) /\
            lo <= s <= hi /\ f s = true /\
            forall y, lo <= y < s -> f y = false.
Proof.
  intros Hle Hmono Hhi.
  set (g := fun x => f (Z.max lo (Z.min x hi))).
  assert (Hfg : forall x, lo <= x <= hi -> f x = g x).
  { intros x Hx. unfold g. f_equal. lia. }
  assert (Hg : monotone g).
  { intros x y Hxy. unfold g. apply Hmono; lia. }
  rewrite (binary_search_shape lo hi f Hle).
  assert (Hloop : search_loop lo hi f = search_loop lo hi g).
  { apply (search_loop_ext f g _ lo hi eq_refl). intros x Hx. apply Hfg. lia. }
  rewrite Hloop, (Hfg (search_loop lo hi g))
    by (apply search_loop_range; exact Hle).
  destruct (search_loop_range lo hi g Hle) as [Hr Ht].
  pose proof (search_loop_below lo hi g Hg Hle) as Hb.
  assert (Hgs : g (search_loop lo hi g) = true).
  { destruct (Z.eq_dec (search_loop lo hi g) hi) as [Heq|Hne].
    - rewrite Heq, <- Hfg by lia. exact Hhi.
    - apply Ht. lia. }
  rewrite Hgs. exists (search_loop lo hi g).
  split; [reflexivity|]. split; [exact Hr|]. split.
  - rewrite Hfg by exact Hr. exact Hgs.
  - intros y Hy. rewrite Hfg by lia. apply Hb. exact Hy.
Qed.

(** With a condition that is false throughout the interval the search
    returns [None]. *)
Lemma binary_search_none lo hi f :
  lo <= hi ->
  (forall x, lo <= x <= hi -> f x = false) ->
  binary_search lo hi f = Ok None.
Proof.
  intros Hle Hfalse.
  rewrite (binary_search_shape lo hi f Hle).
  rewrite Hfalse; [reflexivity|].
  apply search_loop_range. exact Hle.
Qed.

(** X3. For a base of at least 2 and a non-negative number,
    [is_power_of_base] returns, and returns [True] exactly when the number
    is a power of the base with a non-negative integer exponent. *)
Theorem is_power_of_base_correct num base :
  2 <= base -> 0 <= num ->
  exists b, is_power_of_base num base = Ok b /\
            (b = true <-> exists x, 0 <= x /\ base ^ x = num).
Proof.
  intros Hbase Hnum. unfold is_power_of_base.
  destruct (binary_search_least 0 num (fun x => base ^ x >=? num) Hnum)
    as (s & -> & Hs & Hfs & Hbelow).
  { intros x y Hx Hxy _. rewrite !Z.geb_leb, !Z.leb_le. intros Hpow.
    transitivity (base ^ x); [exact Hpow|].
    apply Z.pow_le_mono_r; lia. }
  { rewrite Z.geb_leb, Z.leb_le.
    pose proof (Z.pow_gt_lin_r base num). lia. }
  simpl. eexists. split; [reflexivity|].
  rewrite Z.eqb_eq. split.
  - intros ->. exists s. split; [lia|reflexivity].
  - intros (x & Hx & Hpow).
    assert (Hxnum : x <= num)
      by (pose proof (Z.pow_gt_lin_r base x); lia).
    assert (Hsx : s <= x).
    { destruct (Z_le_gt_dec s x) as [|Hgt]; [assumption|].
      specialize (Hbelow x ltac:(lia)). simpl in Hbelow.
      rewrite Z.geb_leb, Z.leb_gt in Hbelow. lia. }
    rewrite Z.geb_leb, Z.leb_le in Hfs.
    destruct (Z.eq_dec s x) as [->|Hne]; [symmetry; exact Hpow|].
    assert (base ^ s < base ^ x) by (apply Z.pow_lt_mono_r; lia).
    lia.
Qed.

Lemma is_power_of_base_correct_witness :
  is_power_of_base 243 3 = Ok true /\ is_power_of_base 244 3 = Ok false /\
  exists b, is_power_of_base 243 3 = Ok b /\
            (b = true <-> exists x, 0 <= x /\ 3 ^ x = 243).
Proof.
  split; [reflexivity|]. split; [reflexivity|].
  apply (is_power_of_base_correct 243 3); lia.
Defined.

(** X4. [is_power_of_base] can fail: a negative number trips the assertion
    of [binary_search], and with base 1 and a number of at least 2 the
    search finds nothing and the [ValueError] its comment calls impossible
    is raised. *)
Theorem is_power_of_base_failures num base :
  (num < 0 -> is_power_of_base num base = Raise AssertionError) /\
  (base = 1 -> 2 <= num ->
   is_power_of_base num base =
   Raise (ValueError ("Binary search for 1^x = " ++ str_of_int num ++ " failed"))).
Proof.
  split.
  - intros Hneg. unfold is_power_of_base, binary_search.
    destruct (Z.leb_spec 0 num); [lia|]. reflexivity.
  - intros -> Hnum. unfold is_power_of_base.
    rewrite binary_search_none; [reflexivity|lia|].
    intros x Hx. rewrite Z.geb_leb, Z.leb_gt, Z.pow_1_l by lia. lia.
Qed.

Lemma is_power_of_base_failures_witness :
  is_power_of_base (-8) 2 = Raise AssertionError /\
  is_power_of_base 5 1 = Raise (ValueError "Binary search for 1^x = 5 failed").
Proof.
  destruct (is_power_of_base_failures (-8) 2) as [Hneg _].
  destruct (is_power_of_base_failures 5 1) as [_ Hone].
  split; [apply Hneg; lia|apply Hone; [reflexivity|lia]].
Defined.

End PowerProps.

Module PerfectPowerProps.
Import BinarySearch BinarySearchProps BinarySearchMore PowerProps.

Lemma pow_ge_self x power : 0 <= x -> 1 <= power -> x <= x ^ power.
Proof.
  intros Hx Hp.
  destruct (Z.eq_dec x 0) as [->|Hne].
  - rewrite Z.pow_0_l by lia. lia.
  - rewrite <- (Z.pow_1_r x) at 1. apply Z.pow_le_mono_r; lia.
Qed.

(** X5. For a power of at least 1 and a non-negative number,
    [is_perfect_power] returns, and returns [True] exactly when the number
    is the power-th power of some integer. *)
Theorem is_perfect_power_correct num power :
  1 <= power -> 0 <= num ->
  exists b, is_perfect_power num power = Ok b /\
            (b = true <-> exists x, x ^ power = num).
Proof.
  intros Hpower Hnum. unfold is_perfect_power.
  destruct (binary_search_least 0 num (fun x => x ^ power >=? num) Hnum)
    as (s & -> & Hs & Hfs & Hbelow).
  { intros x y Hx Hxy _. rewrite !Z.geb_leb, !Z.leb_le. intros Hpow.
    transitivity (x ^ power); [exact Hpow|].
    apply Z.pow_le_mono_l; lia. }
  { rewrite Z.geb_leb, Z.leb_le. apply pow_ge_self; lia. }
  simpl. eexists. split; [reflexivity|].
  rewrite Z.eqb_eq. split.
  - intros ->. exists s. reflexivity.
  - intros (x0 & Hpow0).
    assert (Hex : exists x, 0 <= x /\ x ^ power = num).
    { exists (Z.abs x0). split; [lia|].
      rewrite <- Z.abs_pow, Hpow0. lia. }
    destruct Hex as (x & Hx & Hpow).
    assert (Hxnum : x <= num)
      by (pose proof (pow_ge_self x power Hx Hpower); lia).
    assert (Hsx : s <= x).
    { destruct (Z_le_gt_dec s x) as [|Hgt]; [assumption|].
      specialize (Hbelow x ltac:(lia)). simpl in Hbelow.
      rewrite Z.geb_leb, Z.leb_gt in Hbelow. lia. }
    rewrite Z.geb_leb, Z.leb_le in Hfs.
    destruct (Z.eq_dec s x) as [->|Hne]; [symmetry; exact Hpow|].
    assert (s ^ power < x ^ power) by (apply Z.pow_lt_mono_l; lia).
    lia.
Qed.

Lemma is_perfect_power_correct_witness :
  is_perfect_power 343 3 = Ok true /\ is_perfect_power 344 3 = Ok false /\
  exists b, is_perfect_power 343 3 = Ok b /\
            (b = true <-> exists x, x ^ 3 = 343).
Proof.
  split; [reflexivity|]. split; [reflexivity|].
  apply (is_perfect_power_correct 343 3); lia.
Defined.

(** X6. [is_perfect_power] can fail: a negative number trips the assertion
    of [binary_search], also when it is a perfect power such as
    (-2)^3 = -8, and with power 0 and a number of at least 2 the
    [ValueError] its comment calls impossible is raised. *)
Theorem is_perfect_power_failures num power :
  (num < 0 -> is_perfect_power num power = Raise AssertionError) /\
  (power = 0 -> 2 <= num ->
   is_perfect_power num power =
   Raise (ValueError ("Binary search for x^0 = " ++ str_of_int num ++ " failed"))).
Proof.
  split.
  - intros Hneg. unfold is_perfect_power, binary_search.
    destruct (Z.leb_spec 0 num); [lia|]. reflexivity.
  - intros -> Hnum. unfold is_perfect_power.
    rewrite binary_search_none; [reflexivity|lia|].
    intros x Hx. rewrite Z.geb_leb, Z.leb_gt, Z.pow_0_r. lia.
Qed.

Lemma is_perfect_power_failures_witness :
  (-2) ^ 3 = -8 /\
  is_perfect_power (-8) 3 = Raise AssertionError /\
  is_perfect_power 5 0 = Raise (ValueError "Binary search for x^0 = 5 failed").
Proof.
  destruct (is_perfect_power_failures (-8) 3) as [Hneg _].
  destruct (is_perfect_power_failures 5 0) as [_ Hzero].
  split; [reflexivity|].
  split; [apply Hneg; lia|apply Hzero; [reflexivity|lia]].
Defined.

End PerfectPowerProps.

(** ** More on grading one question *)

Section GradeQuestionMore.

Variables (data : Data) (question_name : string) (grade_function : grade_fn)
          (weight : Z) (feedback_field_name : option string).

Lemma in_unit_interval_numeric v :
  in_unit_interval v = true -> isinstance_int_float v = true.
Proof. destruct v; simpl; intros H; try reflexivity; discriminate. Qed.

Lemma try_grade_in_range submitted_answer v feedback_content :
  grade_function submitted_answer = Ok (v, feedback_content) ->
  in_unit_interval v = true ->
  try_grade grade_function submitted_answer = Ok (v, feedback_content).
Proof.
  intros Hg Hrange. unfold try_grade. rewrite Hg. simpl.
  rewrite (in_unit_interval_numeric v Hrange), Hrange. reflexivity.
Qed.

(** X7. Without a submitted answer the call returns normally: the format
    error is 'No answer was submitted', the question's entry is created
    with score 0 and the given weight, nothing else changes, and the grade
    function plays no part. *)
Theorem no_answer_submitted :
  submitted_answers data !! question_name = None ->
  exists data',
    grade_question_parameterized data question_name grade_function weight
      feedback_field_name = Returned data' /\
    format_errors data' !! question_name = Some "No answer was submitted" /\
    partial_scores data' !! question_name = Some (Part.mk (PyInt 0) weight None) /\
    feedback data' = feedback data /\
    score data' = score data /\
    forall q, q <> question_name ->
              format_errors data' !! q = format_errors data !! q /\
              partial_scores data' !! q = partial_scores data !! q.
Proof.
  intros Hnone.
  unfold grade_question_parameterized, get_submitted_answer. simpl.
  rewrite Hnone. eexists. split; [reflexivity|]. simpl.
  rewrite !lookup_insert_eq. repeat split; try reflexivity;
    rewrite lookup_insert_ne by congruence; reflexivity.
Qed.

(** X8. An exception of the grade function other than [ValueError]
    propagates, a [KeyError] included: the call raises it with the
    question's entry created at score 0 and no format error recorded. *)
Theorem other_exception_propagates submitted_answer e :
  submitted_answers data !! question_name = Some submitted_answer ->
  grade_function submitted_answer = Raise e ->
  (forall msg, e <> ValueError msg) ->
  grade_question_parameterized data question_name grade_function weight
    feedback_field_name
  = Raised e (entry_created data question_name weight).
Proof.
  intros Hans Hraise Hnot.
  unfold grade_question_parameterized, get_submitted_answer, try_grade. simpl.
  rewrite Hans, Hraise. simpl.
  destruct e; try reflexivity. exfalso. exact (Hnot msg eq_refl).
Qed.

Lemma record_feedback_cases d submitted_answer feedback_content :
  record_feedback d question_name submitted_answer feedback_content
    feedback_field_name =
  if unescaped_input submitted_answer feedback_content
  then Raised (ValueError
                 ("Unescaped student input should not be present in the feedback for "
                    ++ question_name ++ ".")) d
  else Returned
         (set_feedback
            (with_partial_scores
               (alter (Part.set_feedback feedback_content) question_name
                      (partial_scores d)) d)
            (if truthy feedback_field_name
             then default question_name feedback_field_name
             else question_name)
            feedback_content).
Proof.
  unfold record_feedback, unescaped_input.
  destruct submitted_answer; reflexivity.
Qed.

(** X9. A result inside [0,1] with non-empty feedback that passes the
    unescaped-input check: the call returns with the score and the feedback
    in the question's entry, and the feedback also stored under
    [feedback_field_name], or under the question's name when that is
    [None] or empty. *)
Theorem feedback_recorded submitted_answer v feedback_content :
  submitted_answers data !! question_name = Some submitted_answer ->
  grade_function submitted_answer = Ok (v, Some feedback_content) ->
  in_unit_interval v = true ->
  feedback_content <> EmptyString ->
  unescaped_input submitted_answer feedback_content = false ->
  exists data',
    grade_question_parameterized data question_name grade_function weight
      feedback_field_name = Returned data' /\
    partial_scores data' !! question_name =
      Some (Part.mk v weight (Some feedback_content)) /\
    feedback data' !!
      (match feedback_field_name with
       | Some (String c name) => String c name
       | _ => question_name
       end) = Some feedback_content /\
    format_errors data' = format_errors data.
Proof.
  intros Hans Hg Hrange Hne Hsafe.
  unfold grade_question_parameterized, get_submitted_answer. simpl.
  rewrite Hans. rewrite (try_grade_in_range _ _ _ Hg Hrange).
  destruct feedback_content as [|c fb]; [congruence|]. simpl.
  rewrite record_feedback_cases, Hsafe.
  eexists. split; [reflexivity|]. simpl.
  rewrite !lookup_alter_eq, lookup_insert_eq. simpl.
  split; [reflexivity|]. split; [|reflexivity].
  destruct feedback_field_name as [[|c' name]|]; simpl; apply lookup_insert_eq.
Qed.

(** X10. When the answer is a string holding both angle brackets and the
    feedback contains it, the call raises [ValueError] after the score was
    stored: the exception propagates, the entry holds the score without
    feedback, and neither a format error nor a feedback field is set. *)
Theorem unescaped_input_raises answer v feedback_content :
  submitted_answers data !! question_name = Some (PyStr answer) ->
  grade_function (PyStr answer) = Ok (v, Some feedback_content) ->
  in_unit_interval v = true ->
  str_contains "<" answer = true ->
  str_contains ">" answer = true ->
  str_contains answer feedback_content = true ->
  exists data',
    grade_question_parameterized data question_name grade_function weight
      feedback_field_name
    = Raised (ValueError
                ("Unescaped student input should not be present in the feedback for "
                   ++ question_name ++ ".")) data' /\
    partial_scores data' !! question_name = Some (Part.mk v weight None) /\
    feedback data' = feedback data /\
    format_errors data' = format_errors data.
Proof.
  intros Hans Hg Hrange Hlt Hgt Hin.
  unfold grade_question_parameterized, get_submitted_answer. simpl.
  rewrite Hans. rewrite (try_grade_in_range _ _ _ Hg Hrange).
  assert (Htruthy : truthy (Some feedback_content) = true).
  { destruct feedback_content; [|reflexivity].
    destruct answer; simpl in *; discriminate. }
  rewrite Htruthy. simpl.
  rewrite record_feedback_cases. unfold unescaped_input.
  rewrite Hlt, Hgt, Hin. simpl.
  eexists. split; [reflexivity|]. simpl.
  rewrite lookup_alter_eq, lookup_insert_eq. repeat split; reflexivity.
Qed.

(** X11. A result inside [0,1] without feedback, [None] or the empty
    string: the call returns with the score stored and no feedback
    anywhere. *)
Theorem no_feedback_recorded submitted_answer v feedback_content :
  submitted_answers data !! question_name = Some submitted_answer ->
  grade_function submitted_answer = Ok (v, feedback_content) ->
  in_unit_interval v = true ->
  feedback_content = None \/ feedback_content = Some EmptyString ->
  exists data',
    grade_question_parameterized data question_name grade_function weight
      feedback_field_name = Returned data' /\
    partial_scores data' !! question_name = Some (Part.mk v weight None) /\
    feedback data' = feedback data /\
    format_errors data' = format_errors data.
Proof.
  intros Hans Hg Hrange Hfalsy.
  unfold grade_question_parameterized, get_submitted_answer. simpl.
  rewrite Hans. rewrite (try_grade_in_range _ _ _ Hg Hrange).
  assert (Htruthy : truthy feedback_content = false)
    by (destruct Hfalsy as [-> | ->]; reflexivity).
  rewrite Htruthy. eexists. split; [reflexivity|]. simpl.
  rewrite lookup_alter_eq, lookup_insert_eq. repeat split; reflexivity.
Qed.

End GradeQuestionMore.

(** No answer under the question's name; the grade function would raise. *)
Lemma no_answer_submitted_witness :
  exists data',
    grade_question_parameterized (initial_data {[ "other" := PyStr "1" ]}) "q"
      (fun _ => Raise AssertionError) 2 None = Returned data' /\
    format_errors data' !! "q" = Some "No answer was submitted" /\
    partial_scores data' !! "q" = Some (Part.mk (PyInt 0) 2 None).
Proof.
  destruct (no_answer_submitted (initial_data {[ "other" := PyStr "1" ]}) "q"
              (fun _ => Raise AssertionError) 2 None)
    as (data' & Hret & Herr & Hscore & _).
  - vm_compute. reflexivity.
  - exists data'. repeat split; assumption.
Defined.

(** A grade function that looks up a missing key. *)
Lemma other_exception_propagates_witness :
  let data := initial_data {[ "q" := PyStr "1" ]} in
  grade_question_parameterized data "q" (fun _ => Raise (KeyError "answers")) 1 None
  = Raised (KeyError "answers") (entry_created data "q" 1).
Proof.
  intros data.
  apply (other_exception_propagates data "q" _ 1 None (PyStr "1")).
  - vm_compute. reflexivity.
  - reflexivity.
  - intros msg. discriminate.
Defined.

(** Half marks with feedback; the empty field name falls back to the
    question's name. *)
Lemma feedback_recorded_witness :
  exists data',
    grade_question_parameterized (initial_data {[ "q" := PyStr "<42" ]}) "q"
      (fun _ => Ok (PyFloat (1 # 2), Some "Half right: <42")) 1 (Some EmptyString)
    = Returned data' /\
    partial_scores data' !! "q" =
      Some (Part.mk (PyFloat (1 # 2)) 1 (Some "Half right: <42")) /\
    feedback data' !! "q" = Some "Half right: <42".
Proof.
  destruct (feedback_recorded (initial_data {[ "q" := PyStr "<42" ]}) "q"
              (fun _ => Ok (PyFloat (1 # 2), Some "Half right: <42")) 1
              (Some EmptyString) (PyStr "<42") (PyFloat (1 # 2)) "Half right: <42")
    as (data' & Hret & Hscore & Hfb & _).
  - vm_compute. reflexivity.
  - reflexivity.
  - reflexivity.
  - discriminate.
  - reflexivity.
  - exists data'. repeat split; assumption.
Defined.

(** Feedback that echoes an answer with markup. *)
Lemma unescaped_input_raises_witness :
  exists data',
    grade_question_parameterized (initial_data {[ "q" := PyStr "<b>" ]}) "q"
      (fun _ => Ok (PyBool false, Some "You wrote <b>")) 1 None
    = Raised (ValueError
                "Unescaped student input should not be present in the feedback for q.")
             data' /\
    partial_scores data' !! "q" = Some (Part.mk (PyBool false) 1 None) /\
    feedback data' = ∅.
Proof.
  destruct (unescaped_input_raises (initial_data {[ "q" := PyStr "<b>" ]}) "q"
              (fun _ => Ok (PyBool false, Some "You wrote <b>")) 1 None
              "<b>" (PyBool false) "You wrote <b>")
    as (data' & Hret & Hscore & Hfb & _); try reflexivity.
  exists data'. repeat split; assumption.
Defined.

Lemma no_feedback_recorded_witness :
  exists data',
    grade_question_parameterized (initial_data {[ "q" := PyStr "7" ]}) "q"
      (fun _ => Ok (PyInt 1, Some EmptyString)) 1 (Some "summary")
    = Returned data' /\
    partial_scores data' !! "q" = Some (Part.mk (PyInt 1) 1 None) /\
    feedback data' = ∅.
Proof.
  destruct (no_feedback_recorded (initial_data {[ "q" := PyStr "7" ]}) "q"
              (fun _ => Ok (PyInt 1, Some EmptyString)) 1 (Some "summary")
              (PyStr "7") (PyInt 1) (Some EmptyString))
    as (data' & Hret & Hscore & Hfb & _).
  - vm_compute. reflexivity.
  - reflexivity.
  - reflexivity.
  - right. reflexivity.
  - exists data'. repeat split; assumption.
Defined.


(** ** Escaped format errors *)

Lemma prefix_empty s : String.prefix EmptyString s = true.
Proof. destruct s; reflexivity. Qed.

Lemma str_contains_char_app c a b :
  str_contains (String c EmptyString) (a ++ b) =
  str_contains (String c EmptyString) a || str_contains (String c EmptyString) b.
Proof.
  induction a as [|d a IH]; simpl.
  - destruct b; reflexivity.
  - rewrite IH. destruct (ascii_dec c d); simpl.
    + rewrite !prefix_empty. reflexivity.
    + reflexivity.
Qed.

Lemma escape_char_clean c a :
  In c ["<"; ">"; ascii_of_nat 34; "'"]%char ->
  str_contains (String c EmptyString) (escape_char a) = false.
Proof.
  intros Hc. unfold escape_char.
  destruct (Ascii.eqb_spec a "&") as [->|Hamp];
    [destruct Hc as [<-|[<-|[<-|[<-|[]]]]]; reflexivity|].
  destruct (Ascii.eqb_spec a "<") as [->|Hlt];
    [destruct Hc as [<-|[<-|[<-|[<-|[]]]]]; reflexivity|].
  destruct (Ascii.eqb_spec a ">") as [->|Hgt];
    [destruct Hc as [<-|[<-|[<-|[<-|[]]]]]; reflexivity|].
  destruct (Ascii.eqb_spec a (ascii_of_nat 34)) as [->|Hquot];
    [destruct Hc as [<-|[<-|[<-|[<-|[]]]]]; reflexivity|].
  destruct (Ascii.eqb_spec a "'") as [->|Hapos];
    [destruct Hc as [<-|[<-|[<-|[<-|[]]]]]; reflexivity|].
  simpl. destruct (ascii_dec c a) as [->|Hne]; [|reflexivity].
  exfalso. destruct Hc as [<-|[<-|[<-|[<-|[]]]]]; congruence.
Qed.

Lemma html_escape_clean c s :
  In c ["<"; ">"; ascii_of_nat 34; "'"]%char ->
  str_contains (String c EmptyString) (html_escape s) = false.
Proof.
  intros Hc. induction s as [|a s IH]; simpl; [reflexivity|].
  change (str_contains (String c EmptyString) (escape_char a ++ html_escape s) = false).
  rewrite str_contains_char_app, IH, (escape_char_clean c a Hc). reflexivity.
Qed.

(** X12. The format error stored for a [ValueError] of the grade function
    holds no angle bracket and no quote character, whatever the message
    of the exception. *)
Theorem format_error_has_no_markup data question_name grade_function weight
    feedback_field_name submitted_answer msg :
  submitted_answers data !! question_name = Some submitted_answer ->
  grade_function submitted_answer = Raise (ValueError msg) ->
  exists stored,
    format_errors
      (final_data (grade_question_parameterized data question_name grade_function
                     weight feedback_field_name)) !! question_name = Some stored /\
    forall c, In c ["<"; ">"; ascii_of_nat 34; "'"]%char ->
              str_contains (String c EmptyString) stored = false.
Proof.
  intros Hans Hraise.
  unfold grade_question_parameterized, get_submitted_answer, try_grade. simpl.
  rewrite Hans, Hraise. simpl.
  exists (html_escape msg). split; [apply lookup_insert_eq|].
  intros c Hc. apply html_escape_clean. exact Hc.
Qed.

Lemma format_error_has_no_markup_witness :
  exists stored,
    format_errors
      (final_data (grade_question_parameterized
                     (initial_data {[ "q" := PyStr "{1,2" ]}) "q"
                     (fun _ => Raise (ValueError "<script>alert('x')</script>"))
                     1 None)) !! "q" = Some stored /\
    str_contains "<" stored = false /\ str_contains ">" stored = false.
Proof.
  destruct (format_error_has_no_markup
              (initial_data {[ "q" := PyStr "{1,2" ]}) "q"
              (fun _ => Raise (ValueError "<script>alert('x')</script>")) 1 None
              (PyStr "{1,2") "<script>alert('x')</script>")
    as (stored & Hstored & Hclean).
  - vm_compute. reflexivity.
  - reflexivity.
  - exists stored. split; [exact Hstored|].
    split; apply Hclean; simpl; auto.
Defined.

(** ** More on score aggregation *)

Section WeightedScoreMore.

Local Open Scope Q_scope.

(** X13. With nothing to average, [set_weighted_score_data] raises
    [ZeroDivisionError] and leaves [data] alone: when [partial_scores] is
    empty, and when the scores are numbers and the weights add up to 0. *)
Theorem set_weighted_score_data_zero_weight data :
  (partial_scores data = ∅ ->
   set_weighted_score_data data = Raised ZeroDivisionError data) /\
  (numeric_scores (values data) -> total_weight (values data) = 0%Z ->
   set_weighted_score_data data = Raised ZeroDivisionError data).
Proof.
  assert (Hzero : numeric_scores (values data) -> total_weight (values data) = 0%Z ->
                  set_weighted_score_data data = Raised ZeroDivisionError data).
  { intros Hnum Hweight.
    unfold set_weighted_score_data, py_sum.
    destruct (py_sum_products (values data) 0 Hnum) as (n & -> & Hn).
    destruct (py_sum_weights (values data) 0) as (d & -> & Hd).
    rewrite Hweight in Hd. rewrite Qplus_0_l in Hd.
    change (inject_Z 0) with 0 in Hd.
    apply Qeq_eq_bool in Hd. rewrite Hd. reflexivity. }
  split; [|exact Hzero].
  intros Hempty.
  assert (Hvalues : values data = []).
  { unfold values. rewrite Hempty, map_to_list_empty. reflexivity. }
  apply Hzero; rewrite Hvalues; [constructor|reflexivity].
Qed.

Lemma set_weighted_score_data_zero_weight_witness :
  set_weighted_score_data (initial_data ∅) = Raised ZeroDivisionError (initial_data ∅) /\
  let data :=
    with_partial_scores
      (<["a" := Part.mk (PyBool true) 2 None]>
         (<["b" := Part.mk (PyBool false) (-2) None]> ∅))
      (initial_data ∅) in
  set_weighted_score_data data = Raised ZeroDivisionError data.
Proof.
  split.
  - destruct (set_weighted_score_data_zero_weight (initial_data ∅)) as [Hempty _].
    apply Hempty. reflexivity.
  - intros data.
    destruct (set_weighted_score_data_zero_weight data) as [_ Hzero].
    apply Hzero.
    + unfold numeric_scores. vm_compute.
      repeat constructor; eexists; reflexivity.
    + vm_compute. reflexivity.
Defined.

Lemma in_unit_interval_bounds v :
  in_unit_interval v = true ->
  exists s, py_num v = Some s /\ 0 <= s <= 1.
Proof.
  unfold in_unit_interval. destruct (py_num v) as [s|]; [|discriminate].
  intros H. apply andb_true_iff in H as [H0 H1].
  apply Qle_bool_iff in H0, H1. eauto.
Qed.

Lemma weighted_sum_bounds parts :
  Forall (fun part => in_unit_interval (Part.score part) = true /\
                      (0 <= Part.weight part)%Z) parts ->
  0 <= weighted_sum parts <= inject_Z (total_weight parts).
Proof.
  induction 1 as [|part parts [Hrange Hw] _ IH]; simpl.
  - split; apply Qle_refl.
  - destruct (in_unit_interval_bounds _ Hrange) as (s & Hs & Hs0 & Hs1).
    unfold score_value. rewrite Hs. simpl.
    assert (Hw' : 0 <= inject_Z (Part.weight part))
      by (change 0 with (inject_Z 0); rewrite <- Zle_Qle; exact Hw).
    destruct IH as [IH0 IH1]. rewrite inject_Z_plus. split.
    + apply (Qplus_le_compat 0 _ 0); [|exact IH0].
      apply Qmult_le_0_compat; assumption.
    + apply Qplus_le_compat; [|exact IH1].
      rewrite <- (Qmult_1_l (inject_Z (Part.weight part))) at 2.
      apply Qmult_le_compat_r; assumption.
Qed.

(** X15. When every partial score is a boolean or an integer of [0,1], no
    weight is negative and some weight is positive,
    [set_weighted_score_data] returns and the score it stores lies in
    [0,1]. *)
Theorem set_weighted_score_data_in_unit_interval data :
  Forall (fun part => isinstance_int (Part.score part) = true /\
                      in_unit_interval (Part.score part) = true /\
                      (0 <= Part.weight part)%Z) (values data) ->
  (0 < total_weight (values data))%Z ->
  exists data' q,
    set_weighted_score_data data = Returned data' /\
    score data' = Some (PyFloat q) /\
    0 <= q <= 1.
Proof.
  intros Hparts Htotal.
  assert (Hnum : numeric_scores (values data)).
  { apply integral_scores_numeric.
    eapply Forall_impl; [exact Hparts|]. intros part [Hint _]. exact Hint. }
  assert (Hrange : 0 <= weighted_average (values data) <= 1).
  { assert (Hbounds : Forall (fun part => in_unit_interval (Part.score part) = true /\
                                          (0 <= Part.weight part)%Z) (values data))
      by (eapply Forall_impl; [exact Hparts|]; intros part (_ & H); exact H).
    destruct (weighted_sum_bounds _ Hbounds) as [H0 H1].
    assert (Hpos : 0 < inject_Z (total_weight (values data)))
      by (change 0 with (inject_Z 0); rewrite <- Zlt_Qlt; exact Htotal).
    unfold weighted_average. split.
    - apply Qle_shift_div_l; [exact Hpos|]. rewrite Qmult_0_l. exact H0.
    - apply Qle_shift_div_r; [exact Hpos|]. rewrite Qmult_1_l. exact H1. }
  assert (Hmax : Qabs (weighted_average (values data)) <= MAX_DOUBLE).
  { rewrite Qabs_pos by apply Hrange.
    apply (Qle_trans _ 1); [apply Hrange|exact one_below_max]. }
  destruct (weighted_score_returned data Hnum ltac:(lia) Hmax)
    as (q & Hret & _ & Hnear).
  exists (with_score (PyFloat q) data), q.
  split; [exact Hret|]. split; [reflexivity|].
  exact (nearest_in_unit_interval q _ Hrange Hnear).
Qed.

(** A full mark of weight 1 and two misses of weight 1: the double nearest
    to 1/3 is stored. *)
Lemma set_weighted_score_data_in_unit_interval_witness :
  let data :=
    with_partial_scores
      (<["a" := Part.mk (PyBool true) 1 None]>
         (<["b" := Part.mk (PyInt 0) 2 None]> ∅))
      (initial_data ∅) in
  exists data' q,
    set_weighted_score_data data = Returned data' /\
    score data' = Some (PyFloat q) /\
    0 <= q <= 1.
Proof.
  intros data. apply (set_weighted_score_data_in_unit_interval data).
  - vm_compute. repeat constructor; discriminate.
  - vm_compute. reflexivity.
Defined.

End WeightedScoreMore.

Section AllOrNothing.

Local Open Scope Q_scope.

Lemma values_lookup data part :
  In part (values data) <-> exists q, partial_scores data !! q = Some part.
Proof.
  unfold values. rewrite <- list_elem_of_In, list_elem_of_fmap. split.
  - intros ([q p] & -> & Hin). exists q. apply elem_of_map_to_list. exact Hin.
  - intros (q & Hq). exists (q, part). split; [reflexivity|].
    apply elem_of_map_to_list. exact Hq.
Qed.

Lemma values_empty data : values data = [] <-> partial_scores data = ∅.
Proof.
  unfold values. split.
  - intros H. apply fmap_nil_inv in H. apply map_to_list_empty_iff. exact H.
  - intros ->. rewrite map_to_list_empty. reflexivity.
Qed.

(** X16. [all_questions_correct] holds exactly when [partial_scores] is
    not empty and every entry's score equals 1.0;
    [set_all_or_nothing_score_data] stores 1 in that case and 0 otherwise,
    and touches nothing but [data['score']]. *)
Theorem set_all_or_nothing_score_data_spec data :
  let all_correct :=
    partial_scores data <> ∅ /\
    forall q part, partial_scores data !! q = Some part ->
                   py_eq_num (Part.score part) (PyFloat 1) = true in
  (all_questions_correct data = true <-> all_correct) /\
  (score (set_all_or_nothing_score_data data) = Some (PyInt 1) <-> all_correct) /\
  (score (set_all_or_nothing_score_data data) = Some (PyInt 0) <-> ~ all_correct) /\
  partial_scores (set_all_or_nothing_score_data data) = partial_scores data /\
  feedback (set_all_or_nothing_score_data data) = feedback data /\
  format_errors (set_all_or_nothing_score_data data) = format_errors data.
Proof.
  intros all_correct.
  assert (Hiff : all_questions_correct data = true <-> all_correct).
  { unfold all_questions_correct, all_correct. cbv zeta.
    destruct (Nat.eqb_spec (length (values data)) 0) as [Hlen|Hlen].
    - split; [discriminate|]. intros [Hne _]. exfalso. apply Hne.
      apply values_empty. apply nil_length_inv. exact Hlen.
    - rewrite forallb_forall. split.
      + intros Hall. split.
        * intros Hempty. apply values_empty in Hempty.
          rewrite Hempty in Hlen. apply Hlen. reflexivity.
        * intros q p Hq. apply Hall. apply values_lookup. eauto.
      + intros [_ Hall] p Hp. apply values_lookup in Hp as (q & Hq). eauto. }
  split; [exact Hiff|].
  unfold set_all_or_nothing_score_data. simpl.
  destruct (all_questions_correct data).
  - split; [|split; [|auto]].
    + split; [intros _; apply Hiff; reflexivity|reflexivity].
    + split; [discriminate|]. intros Hnot. exfalso. apply Hnot, Hiff. reflexivity.
  - split; [|split; [|auto]].
    + split; [discriminate|]. intros Hall. apply Hiff in Hall. discriminate.
    + split; [|reflexivity]. intros _ Hall. apply Hiff in Hall. discriminate.
Qed.

Lemma weighted_sum_all_correct parts :
  Forall (fun part => py_eq_num (Part.score part) (PyFloat 1) = true) parts ->
  numeric_scores parts /\ weighted_sum parts == inject_Z (total_weight parts).
Proof.
  induction 1 as [|part parts Hone _ [IHnum IH]]; simpl.
  - split; [constructor|reflexivity].
  - unfold py_eq_num in Hone.
    destruct (py_num (Part.score part)) as [s|] eqn:Hs; [|discriminate].
    simpl in Hone. apply Qeq_bool_iff in Hone.
    split; [constructor; [eexists; exact Hs|exact IHnum]|].
    unfold score_value. rewrite Hs. simpl.
    rewrite IH, Hone, inject_Z_plus. ring.
Qed.

(** X17. The two aggregations agree on a full mark: when
    [all_questions_correct] holds, the scores are booleans or integers and
    the weights do not add up to 0, [set_weighted_score_data] returns and
    the score it stores equals 1. *)
Theorem all_correct_weighted_score data :
  all_questions_correct data = true ->
  integral_scores (values data) ->
  total_weight (values data) <> 0%Z ->
  exists data' q,
    set_weighted_score_data data = Returned data' /\
    score data' = Some (PyFloat q) /\
    q == 1.
Proof.
  intros Hall Hint Hweight.
  assert (Hones : Forall (fun part => py_eq_num (Part.score part) (PyFloat 1) = true)
                         (values data)).
  { unfold all_questions_correct in Hall.
    destruct (length (values data) =? 0)%nat; [discriminate|].
    apply Forall_forall. intros p Hp. rewrite forallb_forall in Hall.
    apply Hall. apply list_elem_of_In. exact Hp. }
  destruct (weighted_sum_all_correct _ Hones) as [Hnum Hsum].
  assert (Havg : weighted_average (values data) == 1).
  { unfold weighted_average. rewrite Hsum. field.
    intros H0. apply Hweight. apply (inject_Z_injective _ 0%Z). exact H0. }
  assert (Hmax : Qabs (weighted_average (values data)) <= MAX_DOUBLE)
    by (rewrite Havg; exact one_below_max).
  destruct (weighted_score_returned data Hnum Hweight Hmax)
    as (q & Hret & _ & Hnear).
  exists (with_score (PyFloat q) data), q.
  split; [exact Hret|]. split; [reflexivity|].
  rewrite <- Havg. apply (nearest_exact q _); [|exact Hnear].
  destruct is_double_1 as (m & u & Hm & Hu & Hone).
  exists m, u. split; [exact Hm|]. split; [exact Hu|].
  rewrite Havg. exact Hone.
Qed.

Lemma all_correct_weighted_score_witness :
  let data :=
    with_partial_scores
      (<["a" := Part.mk (PyBool true) 1 None]>
         (<["b" := Part.mk (PyInt 1) 3 None]> ∅))
      (initial_data ∅) in
  exists data' q,
    set_weighted_score_data data = Returned data' /\
    score data' = Some (PyFloat q) /\
    q == 1.
Proof.
  intros data. apply (all_correct_weighted_score data).
  - vm_compute. reflexivity.
  - unfold integral_scores. vm_compute. repeat constructor.
  - vm_compute. discriminate.
Defined.

End AllOrNothing.

Lemma set_all_or_nothing_score_data_spec_witness :
  let data :=
    with_partial_scores
      (<["a" := Part.mk (PyBool true) 1 None]>
         (<["b" := Part.mk (PyFloat (1 # 2)) 1 None]> ∅))
      (initial_data ∅) in
  score (set_all_or_nothing_score_data data) = Some (PyInt 0) /\
  score (set_all_or_nothing_score_data (initial_data ∅)) = Some (PyInt 0).
Proof.
  intros data. split.
  - destruct (set_all_or_nothing_score_data_spec data) as (_ & _ & Hzero & _).
    apply Hzero. intros [_ Hall].
    specialize (Hall "b" (Part.mk (PyFloat (1 # 2)) 1 None)
                  ltac:(vm_compute; reflexivity)).
    vm_compute in Hall. discriminate.
  - destruct (set_all_or_nothing_score_data_spec (initial_data ∅))
      as (_ & _ & Hzero & _).
    apply Hzero. intros [Hne _]. apply Hne. reflexivity.
Defined.

(** ** The play_music problem, end to end *)

Section GradeProps.

Context {Submission : Type} `{!ScaffoldedWriting Submission}.

Local Open Scope Q_scope.

Lemma insert_only {A} (q : string) (x : A) (m : gmap string A) :
  (forall q', q' <> q -> m !! q' = None) ->
  <[q := x]> m = {[q := x]}.
Proof.
  intros Honly. apply map_eq. intros k.
  destruct (decide (k = q)) as [->|Hne].
  - rewrite lookup_insert_eq, lookup_singleton_eq. reflexivity.
  - rewrite lookup_insert_ne, lookup_singleton_ne by congruence.
    apply Honly. exact Hne.
Qed.

(** The weighted score of a single entry of weight 1 with a boolean
    score. *)
Lemma set_weighted_score_data_single d q verdict fb :
  partial_scores d = {[q := Part.mk (PyBool verdict) 1 fb]} ->
  exists r,
    set_weighted_score_data d = Returned (with_score (PyFloat r) d) /\
    r == (if verdict then 1 else 0).
Proof.
  intros Hps. unfold set_weighted_score_data, values.
  rewrite Hps, map_to_list_singleton.
  exists (if verdict then 1 else 0). split; [|reflexivity].
  destruct verdict; vm_compute; reflexivity.
Qed.

(** X18. [grade] on a token-list answer, no other question being graded:
    when [grade_statement] returns a verdict, [grade] returns with
    [data['score']] equal to 1 for [True] and 0 for [False] and the verdict
    as the question's partial score; when [grade_statement] raises a
    [ValueError], [grade] still returns, with score 0 and the escaped
    message as format error. *)
Theorem grade_score data tokens :
  submitted_answers data !! "subproblem_definition" = Some (PyStrList tokens) ->
  (forall q, q <> "subproblem_definition" -> partial_scores data !! q = None) ->
  (forall verdict fb,
      grade_statement Submission tokens = Ok (verdict, fb) ->
      exists d r,
        grade Submission data = Returned d /\
        score d = Some (PyFloat r) /\
        r == (if verdict then 1 else 0) /\
        Part.score <$> partial_scores d !! "subproblem_definition"
          = Some (PyBool verdict)) /\
  (forall msg,
      grade_statement Submission tokens = Raise (ValueError msg) ->
      exists d r,
        grade Submission data = Returned d /\
        score d = Some (PyFloat r) /\
        r == 0 /\
        format_errors d !! "subproblem_definition" = Some (html_escape msg) /\
        feedback d = feedback data).
Proof.
  intros Hans Honly. split.
  - intros verdict fb Hg.
    unfold grade, grade_question_parameterized, get_submitted_answer. simpl.
    rewrite Hans.
    assert (Htry : try_grade (grade_statement_fn Submission) (PyStrList tokens)
                   = Ok (PyBool verdict, fb)).
    { unfold try_grade, grade_statement_fn. rewrite Hg. simpl.
      destruct verdict; reflexivity. }
    rewrite Htry.
    rewrite (insert_only _ _ _ Honly), alter_singleton_eq. simpl.
    destruct (truthy fb) eqn:Hfb.
    + unfold record_feedback. simpl. rewrite alter_singleton_eq. simpl.
      edestruct (set_weighted_score_data_single) as (r & Hret & Hr);
        [|rewrite Hret; eexists; exists r; split; [reflexivity|];
          split; [reflexivity|]; split; [exact Hr|];
          simpl; rewrite lookup_singleton_eq; reflexivity].
      reflexivity.
    + edestruct (set_weighted_score_data_single) as (r & Hret & Hr);
        [|rewrite Hret; eexists; exists r; split; [reflexivity|];
          split; [reflexivity|]; split; [exact Hr|];
          simpl; rewrite lookup_singleton_eq; reflexivity].
      reflexivity.
  - intros msg Hg.
    unfold grade, grade_question_parameterized, get_submitted_answer. simpl.
    rewrite Hans.
    assert (Htry : try_grade (grade_statement_fn Submission) (PyStrList tokens)
                   = Raise (ValueError msg)).
    { unfold try_grade, grade_statement_fn. rewrite Hg. reflexivity. }
    rewrite Htry.
    rewrite (insert_only _ _ _ Honly).
    unfold set_weighted_score_data, values. simpl.
    rewrite map_to_list_singleton. simpl.
    eexists. eexists. split; [reflexivity|]. simpl.
    split; [reflexivity|]. split; [reflexivity|].
    split; [apply lookup_insert_eq|reflexivity].
Qed.

(** X19. [grade] without a submitted answer, no other question being
    graded: it returns with [data['score']] equal to 0 and the format error
    'No answer was submitted'. *)
Theorem grade_no_answer data :
  submitted_answers data !! "subproblem_definition" = None ->
  (forall q, q <> "subproblem_definition" -> partial_scores data !! q = None) ->
  exists d r,
    grade Submission data = Returned d /\
    score d = Some (PyFloat r) /\
    r == 0 /\
    format_errors d !! "subproblem_definition" = Some "No answer was submitted".
Proof.
  intros Hnone Honly.
  unfold grade, grade_question_parameterized, get_submitted_answer. simpl.
  rewrite Hnone. rewrite (insert_only _ _ _ Honly).
  unfold set_weighted_score_data, values. simpl.
  rewrite map_to_list_singleton. simpl.
  eexists. eexists. split; [reflexivity|]. simpl.
  split; [reflexivity|]. split; [reflexivity|]. apply lookup_insert_eq.
Qed.

End GradeProps.

Lemma grade_score_witness :
  exists d r,
    grade DerivationRecord
      (initial_data {[ "subproblem_definition" :=
         PyStrList ["Play"; "Janice Kapp Perry"; "in church"; "with a violin"] ]})
    = Returned d /\
    score d = Some (PyFloat r) /\ (r == 1)%Q.
Proof.
  destruct (grade_score (Submission := DerivationRecord)
              (initial_data {[ "subproblem_definition" :=
                 PyStrList ["Play"; "Janice Kapp Perry"; "in church"; "with a violin"] ]})
              ["Play"; "Janice Kapp Perry"; "in church"; "with a violin"])
    as [Hverdict _].
  - vm_compute. reflexivity.
  - intros q _. apply lookup_empty.
  - destruct (Hverdict true None) as (d & r & Hret & Hscore & Hr & _).
    + vm_compute. reflexivity.
    + exists d, r. repeat split; assumption.
Defined.

Lemma grade_no_answer_witness :
  exists d r,
    grade DerivationRecord (initial_data ∅) = Returned d /\
    score d = Some (PyFloat r) /\ (r == 0)%Q /\
    format_errors d !! "subproblem_definition" = Some "No answer was submitted".
Proof.
  apply (grade_no_answer (Submission := DerivationRecord) (initial_data ∅)).
  - apply lookup_empty.
  - intros q _. apply lookup_empty.
Defined.

(** ** Holistic feedback *)

Section HolisticFeedback.

Variables (data : Data) (feedback_field_name : string)
          (feedback_function : feedback_fn).

Lemma check_question_names_missing d names :
  Exists (fun name => submitted_answers d !! name = None \/
                      partial_scores d !! name = None) names ->
  exists msg, check_question_names d names = Raise (ValueError msg).
Proof.
  induction names as [|name names IH]; intros Hex; [inversion Hex|]. simpl.
  destruct (submitted_answers d !! name) eqn:Hans; [|eauto].
  destruct (partial_scores d !! name) eqn:Hps; [|eauto].
  apply IH. inversion Hex as [? ? [H|H]|]; subst; [congruence|congruence|assumption].
Qed.

Lemma check_question_names_present d names args :
  Forall2 (fun name v => submitted_answers d !! name = Some v) names args ->
  Forall (fun name => is_Some (partial_scores d !! name)) names ->
  check_question_names d names = Ok tt.
Proof.
  induction 1 as [|name v names args Hv _ IH]; intros Hps; simpl; [reflexivity|].
  apply Forall_cons in Hps as [[p Hp] Hps].
  rewrite Hv, Hp. exact (IH Hps).
Qed.

Lemma argument_values_present d names args :
  Forall2 (fun name v => submitted_answers d !! name = Some v) names args ->
  argument_values d names = Ok args.
Proof.
  induction 1 as [|name v names args Hv _ IH]; simpl; [reflexivity|].
  rewrite Hv, IH. reflexivity.
Qed.

Lemma pop_partial_scores_distinct names : forall d,
  NoDup names ->
  Forall (fun name => is_Some (partial_scores d !! name)) names ->
  exists d',
    pop_partial_scores d names = Returned d' /\
    (forall q, partial_scores d' !! q =
               if bool_decide (q ∈ names) then None else partial_scores d !! q) /\
    feedback d' = feedback d /\ format_errors d' = format_errors d /\
    submitted_answers d' = submitted_answers d /\ score d' = score d.
Proof.
  induction names as [|name names IH]; intros d Hnodup Hall; simpl.
  - exists d. split; [reflexivity|]. split; [|auto]. intros q. reflexivity.
  - apply NoDup_cons in Hnodup as [Hnotin Hnodup].
    apply Forall_cons in Hall as [[p Hp] Hall]. rewrite Hp.
    destruct (IH (with_partial_scores (delete name (partial_scores d)) d) Hnodup)
      as (d' & Hpop & Hlookup & Hfb & Hfe & Hsa & Hsc).
    { rewrite Forall_forall in Hall. apply Forall_forall. intros n Hin. simpl.
      rewrite lookup_delete_ne; [apply Hall; exact Hin|]. intros ->.
      apply Hnotin. exact Hin. }
    exists d'. split; [exact Hpop|]. split; [|auto].
    intros q. rewrite Hlookup. simpl.
    destruct (decide (q = name)) as [->|Hne].
    + rewrite lookup_delete_eq.
      rewrite (bool_decide_eq_true_2 (name ∈ name :: names)) by apply list_elem_of_here.
      destruct (bool_decide (name ∈ names)); reflexivity.
    + rewrite lookup_delete_ne by congruence.
      destruct (decide (q ∈ names)) as [Hin|Hnin].
      * rewrite !bool_decide_eq_true_2; [reflexivity| |assumption].
        apply list_elem_of_further. assumption.
      * rewrite !bool_decide_eq_false_2; [reflexivity| |assumption].
        rewrite elem_of_cons. intros [?|?]; contradiction.
Qed.

(** X20. When a parameter of the feedback function names a question
    without a submitted answer or without a partial score,
    [set_holistic_feedback] raises [ValueError] and [data] is as it was;
    the feedback function is not called. *)
Theorem holistic_feedback_missing_question hide_partial_scores :
  Exists (fun name => submitted_answers data !! name = None \/
                      partial_scores data !! name = None)
         (parameters feedback_function) ->
  exists msg,
    set_holistic_feedback data feedback_field_name feedback_function
      hide_partial_scores = Raised (ValueError msg) data.
Proof.
  intros Hex. unfold set_holistic_feedback.
  destruct (check_question_names_missing data _ Hex) as (msg & ->).
  exists msg. reflexivity.
Qed.

(** X21. With distinct parameter names, each naming a question that has a
    submitted answer and a partial score, and a feedback function that
    returns: [set_holistic_feedback] returns; non-empty feedback is stored
    under [feedback_field_name] and empty or absent feedback changes
    nothing; with [hide_partial_scores] the entries of the named questions
    are removed and all others kept, and without it [partial_scores] is
    unchanged. *)
Theorem holistic_feedback_returns hide_partial_scores args feedback_content :
  NoDup (parameters feedback_function) ->
  Forall2 (fun name v => submitted_answers data !! name = Some v)
          (parameters feedback_function) args ->
  Forall (fun name => is_Some (partial_scores data !! name))
         (parameters feedback_function) ->
  call feedback_function args = Ok feedback_content ->
  exists data',
    set_holistic_feedback data feedback_field_name feedback_function
      hide_partial_scores = Returned data' /\
    feedback data' =
      (match feedback_content with
       | Some (String c text) =>
           <[feedback_field_name := String c text]> (feedback data)
       | _ => feedback data
       end) /\
    (forall q, partial_scores data' !! q =
               if hide_partial_scores && bool_decide (q ∈ parameters feedback_function)
               then None else partial_scores data !! q) /\
    format_errors data' = format_errors data /\
    submitted_answers data' = submitted_answers data /\
    score data' = score data.
Proof.
  intros Hnodup Hargs Hps Hcall. unfold set_holistic_feedback.
  rewrite (check_question_names_present _ _ _ Hargs Hps).
  rewrite (argument_values_present _ _ _ Hargs), Hcall.
  set (d1 := if truthy feedback_content
             then set_feedback data feedback_field_name
                    (default EmptyString feedback_content)
             else data).
  assert (Hd1 : feedback d1 =
                  (match feedback_content with
                   | Some (String c text) =>
                       <[feedback_field_name := String c text]> (feedback data)
                   | _ => feedback data
                   end) /\
                partial_scores d1 = partial_scores data /\
                format_errors d1 = format_errors data /\
                submitted_answers d1 = submitted_answers data /\
                score d1 = score data).
  { unfold d1. destruct feedback_content as [[|c text]|]; simpl; auto. }
  destruct Hd1 as (Hfb & Hps1 & Hfe & Hsa & Hsc).
  destruct hide_partial_scores; simpl.
  - destruct (pop_partial_scores_distinct _ d1 Hnodup) as (d' & -> & Hl & Hfb' & Hfe' & Hsa' & Hsc').
    { rewrite Hps1. exact Hps. }
    exists d'. split; [reflexivity|].
    split; [congruence|]. split; [|split; [congruence|split; congruence]].
    intros q. rewrite Hl, Hps1. reflexivity.
  - exists d1. split; [reflexivity|].
    split; [exact Hfb|]. split; [|auto].
    intros q. rewrite Hps1. reflexivity.
Qed.

End HolisticFeedback.

Lemma weighted_score_of_nothing d :
  partial_scores d = ∅ ->
  set_weighted_score_data d = Raised ZeroDivisionError d.
Proof.
  intros Hempty. unfold set_weighted_score_data, values.
  rewrite Hempty, map_to_list_empty. reflexivity.
Qed.

(** X22. Hiding comes last: when the parameters of the feedback function
    name every graded question, [set_holistic_feedback] with
    [hide_partial_scores] leaves [partial_scores] empty, and
    [set_weighted_score_data] on the result raises [ZeroDivisionError]. *)
Theorem hidden_scores_cannot_be_averaged data feedback_field_name
    feedback_function args feedback_content :
  NoDup (parameters feedback_function) ->
  Forall2 (fun name v => submitted_answers data !! name = Some v)
          (parameters feedback_function) args ->
  (forall q, is_Some (partial_scores data !! q) <-> q ∈ parameters feedback_function) ->
  call feedback_function args = Ok feedback_content ->
  exists data',
    set_holistic_feedback data feedback_field_name feedback_function true
    = Returned data' /\
    partial_scores data' = ∅ /\
    set_weighted_score_data data' = Raised ZeroDivisionError data'.
Proof.
  intros Hnodup Hargs Hdom Hcall.
  assert (Hps : Forall (fun name => is_Some (partial_scores data !! name))
                       (parameters feedback_function)).
  { apply Forall_forall. intros name Hin. apply Hdom. exact Hin. }
  unfold set_holistic_feedback.
  rewrite (check_question_names_present _ _ _ Hargs Hps).
  rewrite (argument_values_present _ _ _ Hargs), Hcall.
  set (d1 := if truthy feedback_content
             then set_feedback data feedback_field_name
                    (default EmptyString feedback_content)
             else data).
  assert (Hps1 : partial_scores d1 = partial_scores data)
    by (unfold d1; destruct (truthy feedback_content); reflexivity).
  destruct (pop_partial_scores_distinct _ d1 Hnodup) as (d & -> & Hl & _).
  { rewrite Hps1. exact Hps. }
  assert (Hempty : partial_scores d = ∅).
  { apply map_eq. intros q. rewrite Hl, Hps1, lookup_empty.
    case_bool_decide as Hin; [reflexivity|].
    destruct (partial_scores data !! q) eqn:Hq; [|reflexivity].
    exfalso. apply Hin. apply Hdom. eauto. }
  exists d. split; [reflexivity|]. split; [exact Hempty|].
  apply weighted_score_of_nothing. exact Hempty.
Qed.

(** Two graded questions and a feedback function over both. *)
Lemma hidden_scores_cannot_be_averaged_witness :
  let data :=
    with_partial_scores
      (<["a" := Part.mk (PyBool true) 1 None]>
         (<["b" := Part.mk (PyBool false) 1 None]> ∅))
      (initial_data (<["a" := PyStr "1"]> (<["b" := PyStr "2"]> ∅))) in
  let summary := mkFeedbackFn ["a"; "b"] (fun _ => Ok (Some "One of two is right.")) in
  exists data',
    set_holistic_feedback data "summary" summary true = Returned data' /\
    partial_scores data' = ∅ /\
    set_weighted_score_data data' = Raised ZeroDivisionError data'.
Proof.
  intros data summary.
  apply (hidden_scores_cannot_be_averaged data "summary" summary
           [PyStr "1"; PyStr "2"] (Some "One of two is right.")).
  - apply NoDup_cons. split; [|apply NoDup_singleton].
    rewrite list_elem_of_singleton. discriminate.
  - repeat constructor.
  - intros q. simpl.
    destruct (decide (q = "a")) as [->|Ha];
      [split; [intros _; apply list_elem_of_here|intros _; eexists; reflexivity]|].
    destruct (decide (q = "b")) as [->|Hb];
      [split; [intros _; apply list_elem_of_further, list_elem_of_here
              |intros _; eexists; reflexivity]|].
    rewrite !lookup_insert_ne, lookup_empty by congruence.
    split; [intros [? [=]]|].
    rewrite !elem_of_cons, elem_of_nil. intros [?|[?|[]]]; contradiction.
  - reflexivity.
Defined.

Lemma holistic_feedback_missing_question_witness :
  let data := initial_data {[ "a" := PyStr "1" ]} in
  exists msg,
    set_holistic_feedback data "summary"
      (mkFeedbackFn ["a"] (fun _ => Ok (Some "never computed"))) false
    = Raised (ValueError msg) data.
Proof.
  intros data. apply (holistic_feedback_missing_question data).
  constructor. right. reflexivity.
Defined.

Lemma holistic_feedback_returns_witness :
  let data :=
    with_partial_scores
      (<["a" := Part.mk (PyBool true) 1 None]>
         (<["b" := Part.mk (PyBool false) 1 None]> ∅))
      (initial_data (<["a" := PyStr "1"]> (<["b" := PyStr "2"]> ∅))) in
  exists data',
    set_holistic_feedback data "summary"
      (mkFeedbackFn ["a"] (fun _ => Ok (Some "Right."))) true = Returned data' /\
    feedback data' !! "summary" = Some "Right." /\
    partial_scores data' !! "a" = None /\
    partial_scores data' !! "b" = Some (Part.mk (PyBool false) 1 None).
Proof.
  intros data.
  destruct (holistic_feedback_returns data "summary"
              (mkFeedbackFn ["a"] (fun _ => Ok (Some "Right."))) true
              [PyStr "1"] (Some "Right."))
    as (d & Hret & Hfb & Hps & _).
  - apply NoDup_singleton.
  - repeat constructor.
  - repeat constructor. eexists. reflexivity.
  - reflexivity.
  - exists d. split; [exact Hret|]. split; [rewrite Hfb; reflexivity|].
    split; rewrite Hps; reflexivity.
Defined.

(** ** Enumerations *)

Section Enumerations.

Context {A : Type}.

Lemma combinations_spec (s : list A) : forall r x,
  x ∈ combinations s r <-> x `sublist_of` s /\ length x = r.
Proof.
  induction s as [|y s IH]; intros r x.
  - destruct r; simpl.
    + rewrite list_elem_of_singleton. split.
      * intros ->. split; [constructor|reflexivity].
      * intros [_ Hlen]. apply nil_length_inv. exact Hlen.
    + rewrite elem_of_nil. split; [intros []|].
      intros [Hsub Hlen]. apply sublist_nil_r in Hsub. subst x. discriminate.
  - destruct r; simpl.
    + rewrite list_elem_of_singleton. split.
      * intros ->. split; [apply sublist_nil_l|reflexivity].
      * intros [_ Hlen]. apply nil_length_inv. exact Hlen.
    + change (List.map (cons y) (combinations s r))
        with (cons y <$> combinations s r).
      rewrite elem_of_app, list_elem_of_fmap, sublist_cons_r. split.
      * intros [(x' & -> & Hx')|Hx].
        -- apply IH in Hx' as [Hsub Hlen]. split; [right; eauto|simpl; congruence].
        -- apply IH in Hx as [Hsub Hlen]. split; [left; exact Hsub|exact Hlen].
      * intros [[Hsub|(x' & -> & Hsub)] Hlen].
        -- right. apply IH. split; assumption.
        -- left. exists x'. split; [reflexivity|]. apply IH.
           split; [exact Hsub|]. simpl in Hlen. congruence.
Qed.

Lemma elem_of_concat {B} (x : B) (ls : list (list B)) :
  x ∈ concat ls <-> exists l, x ∈ l /\ l ∈ ls.
Proof.
  rewrite list_elem_of_In, in_concat. split.
  - intros (l & Hl & Hx). exists l. rewrite !list_elem_of_In. auto.
  - intros (l & Hx & Hl). exists l. rewrite <- !list_elem_of_In. auto.
Qed.

Lemma py_range_spec a b r : r ∈ py_range a b <-> a <= r < b.
Proof.
  unfold py_range. rewrite list_elem_of_fmap. split.
  - intros (i & -> & Hi). apply elem_of_seq in Hi. lia.
  - intros Hr. exists (Z.to_nat (r - a)). split; [lia|].
    apply elem_of_seq. lia.
Qed.

(** A chain of parts none of which raises yields their concatenation. *)
Lemma chain_from_iterable_ok {B} (f : B -> result (list (list A)))
    (g : B -> list (list A)) (rs : list B) :
  Forall (fun r => f r = Ok (g r)) rs ->
  chain_from_iterable (f <$> rs) = Ok (concat (g <$> rs)).
Proof.
  induction 1 as [|r rs Hr _ IH]; [reflexivity|].
  rewrite !fmap_cons. cbn [chain_from_iterable]. rewrite Hr. cbn [bind].
  rewrite IH. reflexivity.
Qed.

Lemma sized_powerset_ok (s : list A) min_size max_size bound :
  0 <= min_size ->
  (max_size = None /\ bound = Z.of_nat (length s) \/
   max_size = Some bound /\ bound <= Z.of_nat (length s)) ->
  sized_powerset s min_size max_size =
  Ok (concat ((fun r => combinations s (Z.to_nat r)) <$> py_range min_size (bound + 1))).
Proof.
  intros Hmin Hmax. unfold sized_powerset.
  assert (Hbound :
            match max_size with
            | None => Ok (Z.of_nat (length s))
            | Some max_size =>
                if max_size >? Z.of_nat (length s)
                then Raise (ValueError ("max_size parameter " ++ str_of_int max_size
                       ++ " is greater than the length of the input iterable"))
                else Ok max_size
            end = Ok bound).
  { destruct Hmax as [[-> ->]|[-> Hle]]; [reflexivity|].
    destruct (Z.gtb_spec bound (Z.of_nat (length s))); [lia|reflexivity]. }
  rewrite Hbound. simpl.
  apply chain_from_iterable_ok.
  apply Forall_forall. intros r Hr. apply py_range_spec in Hr.
  destruct (Z.ltb_spec r 0); [lia|reflexivity].
Qed.

(** X23. [sized_powerset] with a non-negative [min_size] and a [max_size]
    that is [None] (then the length of the input) or at most the length of
    the input: it yields exactly the subsequences of the input whose size
    lies between [min_size] and [max_size].  A [max_size] above the length
    raises [ValueError]. *)
Theorem sized_powerset_spec (s : list A) min_size max_size :
  (forall m, max_size = Some m -> m > Z.of_nat (length s) ->
             exists msg, sized_powerset s min_size max_size = Raise (ValueError msg)) /\
  (0 <= min_size ->
   default (Z.of_nat (length s)) max_size <= Z.of_nat (length s) ->
   exists subsets,
     sized_powerset s min_size max_size = Ok subsets /\
     forall x, x ∈ subsets <->
               x `sublist_of` s /\
               min_size <= Z.of_nat (length x) <= default (Z.of_nat (length s)) max_size).
Proof.
  split.
  - intros m -> Hm. unfold sized_powerset.
    destruct (Z.gtb_spec m (Z.of_nat (length s))); [|lia].
    eexists. reflexivity.
  - intros Hmin Hmax.
    rewrite (sized_powerset_ok s min_size max_size
               (default (Z.of_nat (length s)) max_size) Hmin)
      by (destruct max_size; simpl in *; auto).
    eexists. split; [reflexivity|].
    intros x. rewrite elem_of_concat. split.
    + intros (l & Hx & Hl). apply list_elem_of_fmap in Hl as (r & -> & Hr).
      apply py_range_spec in Hr. apply combinations_spec in Hx as [Hsub Hlen].
      split; [exact Hsub|]. lia.
    + intros [Hsub Hlen]. exists (combinations s (length x)). split.
      * apply combinations_spec. split; [exact Hsub|reflexivity].
      * apply list_elem_of_fmap. exists (Z.of_nat (length x)).
        split; [rewrite Nat2Z.id; reflexivity|]. apply py_range_spec. lia.
Qed.

Lemma same_size_sorted (l : list (list A)) n :
  Forall (fun x => length x = n) l ->
  StronglySorted (fun x y => (length x <= length y)%nat) l.
Proof.
  induction 1 as [|x l Hx Hl IH]; constructor; [exact IH|].
  eapply Forall_impl; [exact Hl|]. intros y Hy. simpl in *. lia.
Qed.

Lemma blocks_sorted (s : list A) (rs : list Z) :
  StronglySorted Z.le rs ->
  Forall (fun r => 0 <= r) rs ->
  StronglySorted (fun x y => (length x <= length y)%nat)
                 (concat ((fun r => combinations s (Z.to_nat r)) <$> rs)).
Proof.
  induction 1 as [|r rs Hsorted IH Hle]; intros Hpos; [constructor|].
  apply Forall_cons in Hpos as [Hr Hpos].
  rewrite fmap_cons. cbn [concat]. apply StronglySorted_app.
  split; [|split].
  - intros x y Hx Hy. apply combinations_spec in Hx as [_ Hx].
    apply elem_of_concat in Hy as (l & Hy & Hl).
    apply list_elem_of_fmap in Hl as (r' & -> & Hr').
    apply combinations_spec in Hy as [_ Hy].
    rewrite Forall_forall in Hle. specialize (Hle r' Hr').
    rewrite Forall_forall in Hpos. specialize (Hpos r' Hr'). lia.
  - apply (same_size_sorted _ (Z.to_nat r)). apply Forall_forall.
    intros x Hx. apply combinations_spec in Hx. tauto.
  - exact (IH Hpos).
Qed.

Lemma py_range_sorted a b : StronglySorted Z.le (py_range a b).
Proof.
  unfold py_range. generalize (Z.to_nat (b - a)) as n. generalize 0%nat as k.
  intros k n. revert k. induction n as [|n IH]; intros k; simpl; constructor.
  - apply IH.
  - apply Forall_forall. intros r Hr.
    apply list_elem_of_fmap in Hr as (i & -> & Hi). apply elem_of_seq in Hi. lia.
Qed.

(** X24. [sized_powerset] yields in increasing size: with a non-negative
    [min_size], every subset it yields is at most as large as each one
    yielded after it. *)
Theorem sized_powerset_increasing (s : list A) min_size max_size subsets :
  0 <= min_size ->
  sized_powerset s min_size max_size = Ok subsets ->
  StronglySorted (fun x y => (length x <= length y)%nat) subsets.
Proof.
  intros Hmin Hok.
  assert (Hshape : exists bound,
            subsets = concat ((fun r => combinations s (Z.to_nat r))
                                <$> py_range min_size (bound + 1))).
  { destruct max_size as [m|].
    - destruct (Z.gtb_spec m (Z.of_nat (length s))) as [Hgt|Hle].
      + unfold sized_powerset in Hok.
        destruct (Z.gtb_spec m (Z.of_nat (length s))); [discriminate|lia].
      + exists m. rewrite (sized_powerset_ok s min_size (Some m) m Hmin) in Hok
          by (right; split; [reflexivity|lia]).
        congruence.
    - exists (Z.of_nat (length s)).
      rewrite (sized_powerset_ok s min_size None _ Hmin) in Hok
        by (left; split; reflexivity).
      congruence. }
  destruct Hshape as (bound & ->).
  apply blocks_sorted; [apply py_range_sorted|].
  apply Forall_forall. intros r Hr. apply py_range_spec in Hr. lia.
Qed.

End Enumerations.

(** The example of the docstring. *)
Example sized_powerset_docstring :
  sized_powerset [1; 2; 3] 0 None
  = Ok [[]; [1]; [2]; [3]; [1; 2]; [1; 3]; [2; 3]; [1; 2; 3]].
Proof. reflexivity. Qed.

Lemma sized_powerset_spec_witness :
  (exists msg, sized_powerset [1; 2; 3] 0 (Some 4) = Raise (ValueError msg)) /\
  exists subsets,
    sized_powerset [1; 2; 3] 1 (Some 2) = Ok subsets /\
    forall x, x ∈ subsets <->
              x `sublist_of` [1; 2; 3] /\ 1 <= Z.of_nat (length x) <= 2.
Proof.
  destruct (sized_powerset_spec [1; 2; 3] 0 (Some 4)) as [Herr _].
  destruct (sized_powerset_spec [1; 2; 3] 1 (Some 2)) as [_ Hok].
  split.
  - apply (Herr 4); [reflexivity|simpl; lia].
  - apply Hok; simpl; lia.
Defined.

Lemma sized_powerset_increasing_witness :
  StronglySorted (fun x y : list Z => (length x <= length y)%nat)
    [[]; [1]; [2]; [3]; [1; 2]; [1; 3]; [2; 3]; [1; 2; 3]].
Proof.
  apply (sized_powerset_increasing [1; 2; 3] 0 None); [lia|reflexivity].
Defined.


(** ** Strings over an alphabet *)

Lemma product_spec {A} (alphabet : list A) : forall k x,
  x ∈ product alphabet k <-> length x = k /\ Forall (fun a => a ∈ alphabet) x.
Proof.
  induction k as [|k IH]; intros x; simpl.
  - rewrite list_elem_of_singleton. split.
    + intros ->. split; [reflexivity|constructor].
    + intros [Hlen _]. apply nil_length_inv. exact Hlen.
  - rewrite list_elem_of_In, in_flat_map. split.
    + intros (a & Ha & Hx). apply in_map_iff in Hx as (x' & <- & Hx').
      apply list_elem_of_In, IH in Hx' as [Hlen Hall].
      split; [simpl; congruence|]. constructor; [|exact Hall].
      apply list_elem_of_In. exact Ha.
    + intros [Hlen Hall]. destruct x as [|a x']; [discriminate|].
      apply Forall_cons in Hall as [Ha Hall].
      exists a. split; [apply list_elem_of_In; exact Ha|].
      apply in_map. apply list_elem_of_In, IH.
      split; [simpl in Hlen; congruence|exact Hall].
Qed.

Lemma concat_bits chars :
  Forall bit_string chars ->
  binary_string (String.concat EmptyString chars) /\
  String.length (String.concat EmptyString chars) = length chars.
Proof.
  induction 1 as [|c chars Hc Hall [IHb IHl]]; [split; [constructor|reflexivity]|].
  assert (Hcons : forall a, String.concat EmptyString (String a EmptyString :: chars)
                            = String a (String.concat EmptyString chars)).
  { intros a. destruct chars; reflexivity. }
  destruct Hc as [-> | ->]; rewrite Hcons;
    (split; [constructor; [auto|exact IHb]|simpl; rewrite IHl; reflexivity]).
Qed.

Lemma binary_string_bits w :
  binary_string w ->
  exists chars, String.concat EmptyString chars = w /\
                length chars = String.length w /\ Forall bit_string chars.
Proof.
  unfold binary_string. induction w as [|a w IH]; simpl; intros Hw.
  - exists []. split; [reflexivity|]. split; [reflexivity|constructor].
  - apply Forall_cons in Hw as [Ha Hw].
    destruct (IH Hw) as (chars & Hconcat & Hlen & Hall).
    exists (String a EmptyString :: chars). split; [|split].
    + destruct chars as [|c chars]; simpl in *; [congruence|].
      rewrite Hconcat. reflexivity.
    + simpl. congruence.
    + constructor; [|exact Hall]. destruct Ha as [-> | ->]; [left|right]; reflexivity.
Qed.

(** X25. [strings_of_length_at_most_n] with the alphabet of the two
    one-character strings 0 and 1, in whatever order the set iterates
    them, and a non-negative lower bound: it yields exactly the binary
    strings whose length lies between [lower_bound] and [n]. *)
Theorem strings_of_length_at_most_n_binary lower_bound n alphabet :
  0 <= lower_bound ->
  (forall c : string, c ∈ alphabet <-> c = "0" \/ c = "1") ->
  exists strings,
    strings_of_length_at_most_n lower_bound n alphabet = Ok strings /\
    forall w, w ∈ strings <->
              binary_string w /\ lower_bound <= Z.of_nat (String.length w) <= n.
Proof.
  intros Hlower Halphabet. unfold strings_of_length_at_most_n.
  rewrite (chain_from_iterable_ok _ (fun k => product alphabet (Z.to_nat k))).
  2:{ apply Forall_forall. intros k Hk. apply py_range_spec in Hk.
      destruct (Z.ltb_spec k 0); [lia|reflexivity]. }
  simpl. eexists. split; [reflexivity|].
  intros w. rewrite list_elem_of_fmap. split.
  - intros (chars & -> & Hchars).
    apply elem_of_concat in Hchars as (l & Hchars & Hl).
    apply list_elem_of_fmap in Hl as (k & -> & Hk). apply py_range_spec in Hk.
    apply product_spec in Hchars as [Hlen Hall].
    destruct (concat_bits chars) as [Hbin Hlength].
    { eapply Forall_impl; [exact Hall|]. intros c Hc. apply Halphabet. exact Hc. }
    split; [exact Hbin|]. lia.
  - intros [Hbin Hlen].
    destruct (binary_string_bits w Hbin) as (chars & Hconcat & Hlength & Hall).
    exists chars. split; [symmetry; exact Hconcat|].
    apply elem_of_concat. exists (product alphabet (length chars)). split.
    + apply product_spec. split; [reflexivity|].
      eapply Forall_impl; [exact Hall|]. intros c Hc. apply Halphabet. exact Hc.
    + apply list_elem_of_fmap. exists (Z.of_nat (length chars)).
      split; [rewrite Nat2Z.id; reflexivity|]. apply py_range_spec. lia.
Qed.

Lemma strings_of_length_at_most_n_binary_witness :
  strings_of_length_at_most_n 1 2 ["1"; "0"] = Ok ["1"; "0"; "11"; "10"; "01"; "00"] /\
  exists strings,
    strings_of_length_at_most_n 1 2 ["1"; "0"] = Ok strings /\
    forall w, w ∈ strings <->
              binary_string w /\ 1 <= Z.of_nat (String.length w) <= 2.
Proof.
  split; [reflexivity|].
  apply (strings_of_length_at_most_n_binary 1 2 ["1"; "0"]); [lia|].
  intros c. rewrite !elem_of_cons, elem_of_nil. tauto.
Defined.

(** ** Tokenizing *)

Section Tokenize.

Local Abbreviation chars := list_ascii_of_string.

Lemma append_cons x (a b : string) : (String x a ++ b)%string = String x (a ++ b)%string.
Proof. reflexivity. Qed.

Lemma chars_app a b : chars (a ++ b) = (chars a ++ chars b)%list.
Proof.
  induction a as [|c a IH]; [reflexivity|].
  rewrite append_cons. simpl. rewrite IH. reflexivity.
Qed.

Lemma append_assoc (a b c : string) : ((a ++ b) ++ c = a ++ (b ++ c))%string.
Proof.
  induction a as [|x a IH]; [reflexivity|].
  rewrite !append_cons, IH. reflexivity.
Qed.

Lemma append_empty_r (a : string) : (a ++ EmptyString)%string = a.
Proof.
  induction a as [|x a IH]; [reflexivity|].
  rewrite append_cons, IH. reflexivity.
Qed.

Lemma remove_spaces_chars (P : ascii -> Prop) s :
  Forall (fun c => c <> " "%char -> P c) (chars s) ->
  Forall (fun c => c <> " "%char /\ P c) (chars (remove_spaces s)).
Proof.
  induction s as [|c s IH]; simpl; intros Hall; [constructor|].
  apply Forall_cons in Hall as [Hc Hall].
  destruct (Ascii.eqb_spec c " ") as [->|Hne]; [exact (IH Hall)|].
  simpl. constructor; [split; [exact Hne|exact (Hc Hne)]|exact (IH Hall)].
Qed.

Lemma lstrip_chars (P : ascii -> Prop) p s :
  Forall P (chars s) -> Forall P (chars (lstrip p s)).
Proof.
  induction s as [|c s IH]; simpl; intros Hall; [constructor|].
  destruct (p c); [|exact Hall].
  apply Forall_cons in Hall as [_ Hall]. exact (IH Hall).
Qed.

Lemma rstrip_chars (P : ascii -> Prop) p s :
  Forall P (chars s) -> Forall P (chars (rstrip p s)).
Proof.
  induction s as [|c s IH]; simpl; intros Hall; [constructor|].
  apply Forall_cons in Hall as [Hc Hall]. specialize (IH Hall).
  destruct (rstrip p s) as [|c' r].
  - destruct (p c); simpl; [constructor|]. constructor; [exact Hc|constructor].
  - change (Forall P (c :: chars (String c' r))). constructor; assumption.
Qed.

Lemma strip_chars (P : ascii -> Prop) p s :
  Forall P (chars s) -> Forall P (chars (strip p s)).
Proof. intros H. apply rstrip_chars, lstrip_chars, H. Qed.

Lemma re_split_nonempty s : forall skipping piece, re_split skipping s piece <> [].
Proof.
  induction s as [|c s IH]; intros skipping piece; simpl; [discriminate|].
  destruct (skipping && is_space c); [apply IH|].
  destruct (Ascii.eqb c "," && _); [discriminate|apply IH].
Qed.

(** Every token is made of characters of the text. *)
Lemma re_split_chars (P : ascii -> Prop) s : forall skipping piece,
  Forall P (chars s) -> Forall P (chars piece) ->
  Forall (fun token => Forall P (chars token)) (re_split skipping s piece).
Proof.
  induction s as [|c s IH]; intros skipping piece Hs Hpiece; simpl.
  - repeat constructor. exact Hpiece.
  - apply Forall_cons in Hs as [Hc Hs].
    destruct (skipping && is_space c); [apply IH; assumption|].
    destruct (Ascii.eqb c "," && _).
    + constructor; [exact Hpiece|]. apply IH; [exact Hs|constructor].
    + apply IH; [exact Hs|]. rewrite chars_app. apply Forall_app.
      split; [exact Hpiece|]. repeat constructor. exact Hc.
Qed.

(** Without white space in the text, joining the tokens with commas gives
    the text back. *)
Lemma re_split_join s : forall skipping piece,
  Forall (fun c => is_space c = false) (chars s) ->
  String.concat "," (re_split skipping s piece) = (piece ++ s)%string.
Proof.
  induction s as [|c s IH]; intros skipping piece Hs; simpl.
  - rewrite append_empty_r. reflexivity.
  - apply Forall_cons in Hs as [Hc Hs]. rewrite Hc, andb_false_r.
    destruct (Ascii.eqb_spec c ",") as [->|Hne]; simpl.
    + destruct (closes_paren (lstrip is_space s)); simpl.
      * rewrite (IH false _ Hs), append_assoc. reflexivity.
      * specialize (IH true EmptyString Hs).
        destruct (re_split true s EmptyString) as [|t ts] eqn:Hsplit;
          [exfalso; exact (re_split_nonempty s true EmptyString Hsplit)|].
        rewrite IH. reflexivity.
    + rewrite (IH false _ Hs), append_assoc. reflexivity.
Qed.

(** Without a closing parenthesis every comma separates. *)
Lemma re_split_no_comma s : forall skipping piece,
  Forall (fun c => c <> ")"%char) (chars s) ->
  Forall (fun c => c <> ","%char) (chars piece) ->
  Forall (fun token => Forall (fun c => c <> ","%char) (chars token))
         (re_split skipping s piece).
Proof.
  induction s as [|c s IH]; intros skipping piece Hs Hpiece; simpl.
  - repeat constructor. exact Hpiece.
  - apply Forall_cons in Hs as [Hc Hs].
    assert (Hclose : closes_paren (lstrip is_space s) = false).
    { pose proof (lstrip_chars _ is_space s Hs) as Hl.
      induction (lstrip is_space s) as [|a r IHr]; [reflexivity|]. simpl in *.
      apply Forall_cons in Hl as [Ha Hl].
      destruct (Ascii.eqb_spec a ")"); [contradiction|].
      destruct (Ascii.eqb a "("); [reflexivity|exact (IHr Hl)]. }
    destruct (skipping && is_space c); [apply IH; assumption|].
    rewrite Hclose, andb_true_r.
    destruct (Ascii.eqb_spec c ",") as [->|Hne].
    + constructor; [exact Hpiece|]. apply IH; [exact Hs|constructor].
    + apply IH; [exact Hs|]. rewrite chars_app. apply Forall_app.
      split; [exact Hpiece|]. repeat constructor. exact Hne.
Qed.

(** X26. [tokenize_string] always yields at least one token, and no token
    holds a space.  When the text is ASCII and has no white space other
    than spaces, joining the tokens with commas gives back the text without
    its spaces and its leading and trailing commas.  When the text has no
    closing parenthesis, every comma separates: no token holds a comma. *)
Theorem tokenize_string_spec text :
  tokenize_string text <> [] /\
  Forall (fun token => Forall (fun c => c <> " "%char) (chars token))
         (tokenize_string text) /\
  (ascii_text text ->
   Forall (fun c => is_space c = true -> c = " "%char) (chars text) ->
   String.concat "," (tokenize_string text)
   = strip (Ascii.eqb ",") (remove_spaces text)) /\
  (Forall (fun c => c <> ")"%char) (chars text) ->
   Forall (fun token => Forall (fun c => c <> ","%char) (chars token))
          (tokenize_string text)).
Proof.
  unfold tokenize_string. split; [apply re_split_nonempty|]. split; [|split].
  - apply re_split_chars; [|constructor]. apply strip_chars.
    eapply Forall_impl; [apply (remove_spaces_chars (fun _ => True))|].
    + apply Forall_forall. auto.
    + intros c [Hc _]. exact Hc.
  - intros _ Hspace. rewrite re_split_join; [reflexivity|].
    apply strip_chars.
    eapply Forall_impl;
      [apply (remove_spaces_chars (fun c => is_space c = true -> c = " "%char))|].
    + eapply Forall_impl; [exact Hspace|]. auto.
    + intros c [Hne Hc]. simpl in Hc.
      destruct (is_space c); [|reflexivity]. exfalso. apply Hne, Hc. reflexivity.
  - intros Hparen. apply re_split_no_comma; [|constructor]. apply strip_chars.
    eapply Forall_impl;
      [apply (remove_spaces_chars (fun c => c <> ")"%char))|].
    + eapply Forall_impl; [exact Hparen|]. auto.
    + intros c [_ Hc]. exact Hc.
Qed.

End Tokenize.

Lemma tokenize_string_spec_witness :
  tokenize_string ", 1, (2, 3) ,4," = ["1"; "(2,3)"; "4"] /\
  String.concat "," (tokenize_string ", 1, (2, 3) ,4,") = "1,(2,3),4" /\
  tokenize_string "a,,b" = ["a"; EmptyString; "b"] /\
  tokenize_string EmptyString = [EmptyString].
Proof.
  split; [reflexivity|]. split; [|split; reflexivity].
  destruct (tokenize_string_spec ", 1, (2, 3) ,4,") as (_ & _ & Hjoin & _).
  rewrite Hjoin; [reflexivity| |].
  - unfold ascii_text. vm_compute. repeat constructor.
  - vm_compute. repeat constructor; intros H; try reflexivity; discriminate.
Defined.

(** ** Grading a tokenized answer *)

Section GradeTokenized.

Variables (correct_answers : gmap string string) (data : Data)
          (question_name : string) (expected_answer_optional : option string)
          (weight : Z).

Lemma grade_question_tokenized_expected expected_answer :
  expected_answer_is correct_answers question_name expected_answer_optional
    expected_answer ->
  grade_question_tokenized correct_answers data question_name
    expected_answer_optional weight =
  grade_question_parameterized data question_name
    (tokenized_grade_function (tokenize_function_for expected_answer) expected_answer)
    weight None.
Proof.
  unfold expected_answer_is, grade_question_tokenized.
  destruct expected_answer_optional as [[|c rest]|]; simpl.
  - intros ->. reflexivity.
  - intros ->. reflexivity.
  - intros ->. reflexivity.
Qed.

Lemma lstrip_id (p : ascii -> bool) c s :
  startswith c s = true -> p c = false -> lstrip p s = s.
Proof.
  destruct s as [|a s]; simpl; [discriminate|].
  intros Ha Hp. apply Ascii.eqb_eq in Ha. subst a. rewrite Hp. reflexivity.
Qed.

Lemma rstrip_id (p : ascii -> bool) c s :
  endswith c s = true -> p c = false -> rstrip p s = s.
Proof.
  intros Hend Hp. induction s as [|a s IH]; [discriminate|].
  simpl in *. destruct s as [|b s].
  - simpl. apply Ascii.eqb_eq in Hend. subst a. rewrite Hp. reflexivity.
  - rewrite (IH Hend). reflexivity.
Qed.

(** A set answer in braces tokenizes. *)
Lemma tokenize_string_set_braces s :
  startswith "{" s = true -> endswith "}" s = true ->
  tokenize_string_set s = Ok (tokenize_string (slice_1_m1 s)).
Proof.
  intros Hstart Hend. unfold tokenize_string_set, strip.
  rewrite (lstrip_id is_space "{" s Hstart eq_refl).
  rewrite (rstrip_id is_space "}" s Hend eq_refl).
  rewrite Hstart, Hend. simpl.
  destruct (String.eqb_spec s "∅") as [->|_]; [discriminate|]. reflexivity.
Qed.

Lemma set_equal_iff (a b : list string) :
  bool_decide (list_to_set a =@{gset string} list_to_set b) = true <->
  forall t, t ∈ a <-> t ∈ b.
Proof.
  rewrite bool_decide_eq_true. split.
  - intros Heq t. rewrite <- !(elem_of_list_to_set (C := gset string)), Heq.
    reflexivity.
  - intros Hiff. apply set_eq. intros t. rewrite !elem_of_list_to_set. apply Hiff.
Qed.

(** X27. [grade_question_tokenized] on a string answer, the answer and
    the expected answer each being ASCII text or the empty-set sign, and
    both tokenizing without error: it returns with a
    boolean score, [True] exactly when the two token lists have the same
    elements, whatever their order and repetitions, and records neither
    feedback nor a format error.  In particular the expected answer,
    submitted as it is, scores [True]. *)
Theorem grade_question_tokenized_compares expected_answer student_answer
    student expected :
  expected_answer_is correct_answers question_name expected_answer_optional
    expected_answer ->
  submitted_answers data !! question_name = Some (PyStr student_answer) ->
  ascii_text student_answer \/ student_answer = "∅" ->
  ascii_text expected_answer \/ expected_answer = "∅" ->
  tokenize_function_for expected_answer student_answer = Ok student ->
  tokenize_function_for expected_answer expected_answer = Ok expected ->
  exists data' verdict,
    grade_question_tokenized correct_answers data question_name
      expected_answer_optional weight = Returned data' /\
    partial_scores data' !! question_name = Some (Part.mk (PyBool verdict) weight None) /\
    (verdict = true <-> forall t, t ∈ student <-> t ∈ expected) /\
    (student_answer = expected_answer -> verdict = true) /\
    format_errors data' = format_errors data /\
    feedback data' = feedback data.
Proof.
  intros Hexp Hans _ _ Hstudent Hexpected.
  rewrite (grade_question_tokenized_expected _ Hexp).
  unfold grade_question_parameterized, get_submitted_answer. simpl.
  rewrite Hans.
  assert (Htry : try_grade
            (tokenized_grade_function (tokenize_function_for expected_answer)
               expected_answer) (PyStr student_answer)
            = Ok (PyBool (bool_decide (list_to_set student =@{gset string}
                                         list_to_set expected)), None)).
  { unfold try_grade, tokenized_grade_function. rewrite Hstudent, Hexpected. simpl.
    destruct (bool_decide _); reflexivity. }
  rewrite Htry. simpl.
  eexists. eexists. split; [reflexivity|]. simpl.
  rewrite lookup_alter_eq, lookup_insert_eq. simpl.
  split; [reflexivity|]. split; [apply set_equal_iff|].
  split; [|split; reflexivity].
  intros ->. apply set_equal_iff. intros t.
  rewrite Hstudent in Hexpected. injection Hexpected as ->. reflexivity.
Qed.

(** X28. What [grade_question_tokenized] does with badly formatted
    answers.  When a set is expected and the answer is ASCII text that,
    stripped of outer white space, lacks the opening or the closing brace,
    the call returns with the format error asking for curly braces and
    score 0.  When no set is expected and the answer
    starts with an opening or ends with a closing brace, it returns with
    the format error saying the field is not a set.  Without an expected
    answer, given or stored, it raises [KeyError] and [data] is
    untouched. *)
Theorem grade_question_tokenized_format_errors :
  (forall expected_answer student_answer,
      expected_answer_is correct_answers question_name expected_answer_optional
        expected_answer ->
      submitted_answers data !! question_name = Some (PyStr student_answer) ->
      is_expected_set expected_answer = true ->
      ascii_text student_answer ->
      startswith "{" (strip is_space student_answer) = false \/
      endswith "}" (strip is_space student_answer) = false ->
      exists data',
        grade_question_tokenized correct_answers data question_name
          expected_answer_optional weight = Returned data' /\
        format_errors data' !! question_name =
          Some "Make sure to format your answer with curly braces to denote a set" /\
        partial_scores data' !! question_name = Some (Part.mk (PyInt 0) weight None)) /\
  (forall expected_answer student_answer,
      expected_answer_is correct_answers question_name expected_answer_optional
        expected_answer ->
      submitted_answers data !! question_name = Some (PyStr student_answer) ->
      is_expected_set expected_answer = false ->
      startswith "{" student_answer = true \/ endswith "}" student_answer = true ->
      exists data',
        grade_question_tokenized correct_answers data question_name
          expected_answer_optional weight = Returned data' /\
        format_errors data' !! question_name =
          Some "This input field is not a set, so it does not require curly braces" /\
        partial_scores data' !! question_name = Some (Part.mk (PyInt 0) weight None)) /\
  (truthy expected_answer_optional = false ->
   correct_answers !! question_name = None ->
   grade_question_tokenized correct_answers data question_name
     expected_answer_optional weight = Raised (KeyError question_name) data).
Proof.
  split; [|split].
  - intros expected_answer student_answer Hexp Hans Hset Hascii Hbrace.
    assert (Hne : strip is_space student_answer <> "∅").
    { intros Heq. apply (strip_chars _ is_space) in Hascii.
      rewrite Heq in Hascii. apply Forall_cons in Hascii as [Hbyte _].
      discriminate Hbyte. }
    rewrite (grade_question_tokenized_expected _ Hexp).
    unfold grade_question_parameterized, get_submitted_answer. simpl.
    rewrite Hans.
    assert (Htry : try_grade
              (tokenized_grade_function (tokenize_function_for expected_answer)
                 expected_answer) (PyStr student_answer)
              = Raise (ValueError "Make sure to format your answer with curly braces to denote a set")).
    { unfold try_grade, tokenized_grade_function, tokenize_function_for.
      rewrite Hset. unfold tokenize_string_set.
      destruct (String.eqb_spec (strip is_space student_answer) "∅");
        [contradiction|].
      destruct Hbrace as [-> | ->]; [reflexivity|].
      rewrite orb_true_r. reflexivity. }
    rewrite Htry. eexists. split; [reflexivity|]. simpl.
    rewrite !lookup_insert_eq. split; reflexivity.
  - intros expected_answer student_answer Hexp Hans Hset Hbrace.
    rewrite (grade_question_tokenized_expected _ Hexp).
    unfold grade_question_parameterized, get_submitted_answer. simpl.
    rewrite Hans.
    assert (Htry : try_grade
              (tokenized_grade_function (tokenize_function_for expected_answer)
                 expected_answer) (PyStr student_answer)
              = Raise (ValueError "This input field is not a set, so it does not require curly braces")).
    { unfold try_grade, tokenized_grade_function, tokenize_function_for.
      rewrite Hset. unfold tokenize_string_without_set.
      destruct Hbrace as [-> | ->]; [reflexivity|].
      rewrite orb_true_r. reflexivity. }
    rewrite Htry. eexists. split; [reflexivity|]. simpl.
    rewrite !lookup_insert_eq. split; reflexivity.
  - intros Hfalsy Hnone. unfold grade_question_tokenized.
    rewrite Hfalsy, Hnone. reflexivity.
Qed.

End GradeTokenized.

(** The expected set in another order, with a repetition and outer
    white space. *)
Lemma grade_question_tokenized_compares_witness :
  exists data',
    grade_question_tokenized ∅ (initial_data {[ "q" := PyStr " {3,1, 2, 1} " ]}) "q"
      (Some "{1, 2, 3}") 1 = Returned data' /\
    partial_scores data' !! "q" = Some (Part.mk (PyBool true) 1 None).
Proof.
  destruct (grade_question_tokenized_compares ∅
              (initial_data {[ "q" := PyStr " {3,1, 2, 1} " ]}) "q"
              (Some "{1, 2, 3}") 1 "{1, 2, 3}" " {3,1, 2, 1} "
              ["3"; "1"; "2"; "1"] ["1"; "2"; "3"])
    as (data' & verdict & Hret & Hscore & Hverdict & _).
  - reflexivity.
  - vm_compute. reflexivity.
  - left. unfold ascii_text. vm_compute. repeat constructor.
  - left. unfold ascii_text. vm_compute. repeat constructor.
  - reflexivity.
  - apply tokenize_string_set_braces; reflexivity.
  - exists data'. split; [exact Hret|]. rewrite Hscore.
    replace verdict with true; [reflexivity|]. symmetry. apply Hverdict.
    intros t. rewrite !elem_of_cons, !elem_of_nil. tauto.
Defined.

(** A set is expected and the braces are missing; a plain list is expected
    and a brace is there; nothing is expected at all. *)
Lemma grade_question_tokenized_format_errors_witness :
  (exists data',
     grade_question_tokenized {[ "q" := "{1,2}" ]}
       (initial_data {[ "q" := PyStr "1,2" ]}) "q" None 1 = Returned data' /\
     format_errors data' !! "q" =
       Some "Make sure to format your answer with curly braces to denote a set") /\
  (exists data',
     grade_question_tokenized {[ "q" := "1,2" ]}
       (initial_data {[ "q" := PyStr "{1,2}" ]}) "q" (Some EmptyString) 1
     = Returned data' /\
     format_errors data' !! "q" =
       Some "This input field is not a set, so it does not require curly braces") /\
  grade_question_tokenized ∅ (initial_data {[ "q" := PyStr "1,2" ]}) "q" None 1
  = Raised (KeyError "q") (initial_data {[ "q" := PyStr "1,2" ]}).
Proof.
  split; [|split].
  - destruct (grade_question_tokenized_format_errors {[ "q" := "{1,2}" ]}
                (initial_data {[ "q" := PyStr "1,2" ]}) "q" None 1) as (Hset & _ & _).
    destruct (Hset "{1,2}" "1,2") as (data' & Hret & Herr & _).
    + vm_compute. reflexivity.
    + vm_compute. reflexivity.
    + reflexivity.
    + unfold ascii_text. vm_compute. repeat constructor.
    + left. reflexivity.
    + exists data'. split; assumption.
  - destruct (grade_question_tokenized_format_errors {[ "q" := "1,2" ]}
                (initial_data {[ "q" := PyStr "{1,2}" ]}) "q" (Some EmptyString) 1)
      as (_ & Hplain & _).
    destruct (Hplain "1,2" "{1,2}") as (data' & Hret & Herr & _).
    + vm_compute. reflexivity.
    + vm_compute. reflexivity.
    + reflexivity.
    + left. reflexivity.
    + exists data'. split; assumption.
  - destruct (grade_question_tokenized_format_errors ∅
                (initial_data {[ "q" := PyStr "1,2" ]}) "q" None 1) as (_ & _ & Hkey).
    apply Hkey; reflexivity.
Defined.

(** ** Shorthand for binary strings *)

Section Shorthand.

Local Abbreviation chars := list_ascii_of_string.

Lemma bit_is_bit c : c = "0"%char \/ c = "1"%char -> is_bit c = true.
Proof. intros [-> | ->]; reflexivity. Qed.

Lemma is_bit_bit c : is_bit c = true -> c = "0"%char \/ c = "1"%char.
Proof.
  unfold is_bit. intros H. apply orb_true_iff in H as [H|H];
    apply Ascii.eqb_eq in H; auto.
Qed.

Lemma concat_cons_cons sep (a b : string) l :
  String.concat sep (a :: b :: l)
  = (a ++ sep ++ String.concat sep (b :: l))%string.
Proof. reflexivity. Qed.

(** In a binary string every character is a match of its own. *)
Lemma finditer_bit c s pos :
  binary_string (String c s) ->
  finditer 0 pos (String c s) = (pos, S pos, String c EmptyString) :: finditer 0 (S pos) s.
Proof.
  unfold binary_string. intros Hbin. simpl in Hbin.
  apply Forall_cons in Hbin as [Hc Hs].
  assert (Hno : match_shorthand (String c s) = None).
  { destruct s as [|c' s]; [reflexivity|]. simpl in Hs.
    apply Forall_cons in Hs as [Hc' _].
    destruct Hc' as [-> | ->]; reflexivity. }
  cbn [finditer]. rewrite Hno, (bit_is_bit c Hc). reflexivity.
Qed.

Lemma finditer_binary s : forall pos,
  binary_string s ->
  String.concat EmptyString (snd <$> finditer 0 pos s) = s /\
  (s <> EmptyString ->
   fst <$> head (fst <$> finditer 0 pos s) = Some pos /\
   snd <$> last (fst <$> finditer 0 pos s) = Some (pos + String.length s)%nat) /\
  contiguous (fst <$> finditer 0 pos s) = true.
Proof.
  induction s as [|c s IH]; intros pos Hbin.
  - split; [reflexivity|]. split; [congruence|reflexivity].
  - rewrite (finditer_bit c s pos Hbin).
    assert (Hs : binary_string s).
    { unfold binary_string in *. simpl in Hbin. apply Forall_cons in Hbin. tauto. }
    destruct (IH (S pos) Hs) as (Hconcat & Hends & Hcont).
    rewrite !fmap_cons. cbn [fst snd head].
    destruct s as [|c' s'].
    + split; [reflexivity|]. split; [|reflexivity].
      intros _. simpl. split; [reflexivity|]. f_equal. lia.
    + destruct Hends as [Hhead Hlast]; [discriminate|].
      rewrite (finditer_bit c' s' (S pos) Hs) in *.
      rewrite !fmap_cons in *. cbn [fst snd head] in *.
      split; [|split].
      * rewrite concat_cons_cons, Hconcat. reflexivity.
      * intros _. split; [reflexivity|].
        rewrite last_cons_cons. rewrite Hlast. simpl. f_equal. lia.
      * cbn [contiguous fst snd]. rewrite Nat.eqb_refl. exact Hcont.
Qed.

(** X29. A binary string that is not empty is its own expansion. *)
Theorem form_string_from_shorthand_binary s :
  binary_string s -> s <> EmptyString ->
  form_string_from_shorthand s = Ok s.
Proof.
  intros Hbin Hne. unfold form_string_from_shorthand.
  destruct (String.eqb_spec s "e") as [->|_].
  { unfold binary_string in Hbin. simpl in Hbin.
    apply Forall_cons in Hbin as [[H|H] _]; discriminate. }
  destruct (finditer_binary s 0 Hbin) as (Hconcat & Hends & Hcont).
  destruct (Hends Hne) as [Hhead Hlast].
  cbv zeta. rewrite Hcont.
  destruct (fst <$> finditer 0 0 s) as [|interval intervals] eqn:Hintervals;
    [discriminate|].
  destruct (head (interval :: intervals)) as [[a b]|]; [|discriminate].
  destruct (last (interval :: intervals)) as [[a' b']|]; [|discriminate].
  simpl in Hhead, Hlast. injection Hhead as ->. injection Hlast as ->.
  simpl. rewrite Nat.eqb_refl. simpl. rewrite Hconcat. reflexivity.
Qed.

Lemma form_string_from_shorthand_binary_witness :
  form_string_from_shorthand "0110" = Ok "0110".
Proof.
  apply form_string_from_shorthand_binary; [|discriminate].
  unfold binary_string. simpl.
  repeat (constructor; [first [left; reflexivity|right; reflexivity]|]).
  constructor.
Defined.

Lemma repeat_char_binary c n :
  is_bit c = true -> binary_string (repeat_char c n).
Proof.
  intros Hc. unfold binary_string.
  induction n as [|n IH]; simpl; constructor; [apply is_bit_bit; exact Hc|exact IH].
Qed.

Lemma match_shorthand_bit s b digits :
  match_shorthand s = Some (b, digits) -> is_bit b = true.
Proof.
  intros H.
  destruct s as [|b' s]; [discriminate|].
  destruct s as [|c1 s]; [discriminate|].
  destruct c1 as [[] [] [] [] [] [] [] []]; simpl in H; try discriminate.
  destruct s as [|c2 rest]; [discriminate|].
  destruct c2 as [[] [] [] [] [] [] [] []]; simpl in H; try discriminate.
  destruct (is_bit b') eqn:Hb; [|discriminate].
  destruct (span_digits rest) as [[|d ds] r]; [discriminate|].
  destruct r as [|c r]; [discriminate|].
  destruct c as [[] [] [] [] [] [] [] []]; simpl in H; try discriminate.
  injection H as <- _. exact Hb.
Qed.

(** Every expansion [finditer] produces is a binary string. *)
Lemma finditer_expansions s : forall skip pos,
  Forall binary_string (snd <$> finditer skip pos s).
Proof.
  induction s as [|c s IH]; intros skip pos; [constructor|].
  cbn [finditer]. destruct skip as [|skip]; [|apply IH].
  destruct (match_shorthand (String c s)) as [[b digits]|] eqn:Hm.
  - rewrite fmap_cons. constructor; [|apply IH].
    apply repeat_char_binary. exact (match_shorthand_bit _ _ _ Hm).
  - destruct (is_bit c) eqn:Hc; [|apply IH].
    rewrite fmap_cons. constructor; [|apply IH].
    unfold binary_string. simpl. constructor; [|constructor].
    apply is_bit_bit. exact Hc.
Qed.

Lemma concat_binary_strings l :
  Forall binary_string l -> binary_string (String.concat EmptyString l).
Proof.
  induction 1 as [|a l Ha Hl IH]; [constructor|].
  destruct l as [|b l]; [exact Ha|].
  rewrite concat_cons_cons. unfold binary_string in *.
  rewrite !chars_app. apply Forall_app. split; [exact Ha|exact IH].
Qed.

(** X30. Whatever [form_string_from_shorthand] returns on an ASCII
    shorthand is a binary string. *)
Theorem form_string_from_shorthand_result shorthand expanded :
  ascii_text shorthand ->
  form_string_from_shorthand shorthand = Ok expanded ->
  binary_string expanded.
Proof.
  intros _. unfold form_string_from_shorthand.
  destruct (String.eqb shorthand "e"); [intros [= <-]; constructor|].
  cbv zeta.
  destruct (length (fst <$> finditer 0 0 shorthand) =? 0)%nat; [discriminate|].
  destruct (negb _); [discriminate|].
  intros [= <-]. apply concat_binary_strings, finditer_expansions.
Qed.

Lemma form_string_from_shorthand_result_witness :
  form_string_from_shorthand "10^{3}1^{2}" = Ok "100011" /\
  binary_string "100011".
Proof.
  split; [reflexivity|].
  apply (form_string_from_shorthand_result "10^{3}1^{2}"); [|reflexivity].
  unfold ascii_text. vm_compute. repeat constructor.
Defined.

End Shorthand.
